(** * Aham: the journal server's persistence and request handlers

    A shallow embedding of the Express server of the repository (the file
    that opens [aham.db] with better-sqlite3 and registers the [/api/...]
    routes), followed by the properties of its handlers.

    The SQLite store is modelled as the five tables of the schema, each a
    list of rows in rowid order, together with the [sqlite_sequence]
    counters of the AUTOINCREMENT keys.  Every prepared statement of the
    source is one function on that store; every route handler is the
    sequence of statements the source runs, in a monad that threads the
    store and lets a statement throw.  A thrown error ends the handler and
    Express answers 500; what earlier statements of the request wrote stays
    written, because the source opens no transaction. *)

From Stdlib Require Import List ZArith Lia Bool String Ascii DecimalString.
From Stdlib Require Import Sorting.Sorted Sorting.Permutation.
Import ListNotations.

Local Open Scope Z_scope.

(** ** JavaScript values of a request body *)

Module Js.

(** A field of [req.body] after [express.json()].  [JUndefined] is an
    absent field; [JObject] stands for any array or object; numbers are
    the integer-valued ones. *)
Inductive value : Type :=
| JUndefined
| JNull
| JBool (b : bool)
| JNumber (n : Z)
| JString (s : string)
| JObject.

(** ToBoolean, as used by the conditional operator [c ? 1 : 0]. *)
Definition truthy (v : value) : bool :=
  match v with
  | JUndefined => false
  | JNull => false
  | JBool b => b
  | JNumber n => negb (n =? 0)
  | JString s => negb (String.eqb s EmptyString)
  | JObject => true
  end.

End Js.

(** ** Column values *)

(** A TEXT column, or a parameter bound to one.  The request bodies are
    those of [src/types.ts], whose text fields are strings; [None] is SQL
    NULL, which is what better-sqlite3 binds for a JavaScript [null] or
    [undefined], that is for a field that is null or absent. *)
Definition text : Type := option string.

(** [a = b] in a WHERE clause or a UNIQUE index: NULL equals nothing. *)
Definition text_eqb (a b : text) : bool :=
  match a, b with
  | Some x, Some y => String.eqb x y
  | _, _ => false
  end.

(** [COALESCE(a, b)]. *)
Definition coalesce (a b : text) : text :=
  match a with
  | Some _ => a
  | None => b
  end.


(** ** Rows of the five tables *)

Module Entry.
Record t : Type := Build {
  id : Z;
  date : text;
  journal_text : text;
  mood : text;
  sleep_start : text;
  sleep_end : text;
  reflection_json : text;
  image_data : text
}.
End Entry.

Module Target.
Record t : Type := Build {
  id : Z;
  type : text;
  title : text;
  completed : Z;
  period_key : text
}.
End Target.

Module Task.
Record t : Type := Build {
  id : Z;
  date : text;
  title : text;
  completed : Z
}.
End Task.

Module RoutineTemplate.
Record t : Type := Build {
  id : Z;
  name : text
}.
End RoutineTemplate.

Module RoutineTemplateTask.
Record t : Type := Build {
  id : Z;
  template_id : Z;
  title : text
}.
End RoutineTemplateTask.

(** The body of [POST /api/entries], destructured field by field. *)
Module EntryBody.
Record t : Type := Build {
  date : text;
  journal_text : text;
  mood : text;
  sleep_start : text;
  sleep_end : text;
  reflection_json : text;
  image_data : text
}.
End EntryBody.

(** ** The database *)

(** [sqlite_sequence]: the largest rowid ever given out, per table.  No
    statement of the source supplies an id of its own, so a table never
    holds a rowid above its counter and AUTOINCREMENT gives out the
    counter plus one. *)
Record sequences : Type := Sequences {
  seq_entries : Z;
  seq_targets : Z;
  seq_tasks : Z;
  seq_routine_templates : Z;
  seq_routine_template_tasks : Z
}.

Record database : Type := Database {
  entries : list Entry.t;
  targets : list Target.t;
  tasks : list Task.t;
  routine_templates : list RoutineTemplate.t;
  routine_template_tasks : list RoutineTemplateTask.t;
  sqlite_sequence : sequences
}.

(** The store right after the [CREATE TABLE IF NOT EXISTS] script has run
    on a new file. *)
Definition empty_database : database :=
  Database [] [] [] [] [] (Sequences 0 0 0 0 0).

(** Foreign keys are enforced on every better-sqlite3 connection (its
    SQLite is built with SQLITE_DEFAULT_FOREIGN_KEYS=1) and the source
    never issues [PRAGMA foreign_keys = OFF]. *)
Definition foreign_keys : bool := true.

(** ** Errors and the handler monad *)

Inductive error : Type :=
| SQLITE_CONSTRAINT_UNIQUE
| SQLITE_CONSTRAINT_FOREIGNKEY
| SQLITE_ENGINE          (* SQLITE_FULL, SQLITE_IOERR, SQLITE_BUSY, ... *)
| TypeError.

(** A prepared statement run once.  SQLite makes a single statement
    atomic: it either fails and leaves the store as it was, or succeeds
    with a value and a new store. *)
Definition statement (A : Type) : Type := database -> error + (A * database).

(** The environment of one request: [Some k] when the engine fails the
    statement of index [k] (counting from 0) that the request executes,
    [None] when the engine serves every statement.  Handlers catch
    nothing, so only the first failure of a request matters. *)
Definition faults : Type := option nat.

Inductive run (A : Type) : Type :=
| Done (a : A) (f : faults) (db : database)
| Raised (e : error) (db : database).
Arguments Done {A} a f db.
Arguments Raised {A} e db.

Definition M (A : Type) : Type := faults -> database -> run A.

Definition ret {A : Type} (a : A) : M A := fun f db => Done a f db.

Definition bind {A B : Type} (m : M A) (k : A -> M B) : M B :=
  fun f db =>
    match m f db with
    | Done a f' db' => k a f' db'
    | Raised e db' => Raised e db'
    end.

Definition throw {A : Type} (e : error) : M A := fun _ db => Raised e db.

Declare Scope handler_scope.
Delimit Scope handler_scope with handler.
Notation "x <- m ;; k" := (bind m (fun x => k))
  (at level 61, m at next level, right associativity) : handler_scope.
Notation "m ;; k" := (bind m (fun _ => k))
  (at level 61, right associativity) : handler_scope.

(** [stmt.get(...)], [stmt.all(...)] and [stmt.run(...)]. *)
Definition execute {A : Type} (s : statement A) : M A :=
  fun f db =>
    match f with
    | Some O => Raised SQLITE_ENGINE db
    | _ =>
      match s db with
      | inl e => Raised e db
      | inr (a, db') => Done a (option_map Nat.pred f) db'
      end
    end.

(** [for (const x of xs) { body(x) }]. *)
Fixpoint for_of {A : Type} (xs : list A) (body : A -> M unit) : M unit :=
  match xs with
  | [] => ret tt
  | x :: rest => bind (body x) (fun _ => for_of rest body)
  end.

(** [xs.map(f)] with an effectful callback. *)
Fixpoint map_m {A B : Type} (f : A -> M B) (xs : list A) : M (list B) :=
  match xs with
  | [] => ret []
  | x :: rest =>
    bind (f x) (fun y => bind (map_m f rest) (fun ys => ret (y :: ys)))
  end.

(** ** The prepared statements of the source *)

Module Sql.

Definition with_entries (db : database) (rows : list Entry.t) (rowid : Z)
  : database :=
  let s := sqlite_sequence db in
  Database rows (targets db) (tasks db) (routine_templates db)
    (routine_template_tasks db)
    (Sequences rowid (seq_targets s) (seq_tasks s)
       (seq_routine_templates s) (seq_routine_template_tasks s)).

Definition with_targets (db : database) (rows : list Target.t) (rowid : Z)
  : database :=
  let s := sqlite_sequence db in
  Database (entries db) rows (tasks db) (routine_templates db)
    (routine_template_tasks db)
    (Sequences (seq_entries s) rowid (seq_tasks s)
       (seq_routine_templates s) (seq_routine_template_tasks s)).

Definition with_tasks (db : database) (rows : list Task.t) (rowid : Z)
  : database :=
  let s := sqlite_sequence db in
  Database (entries db) (targets db) rows (routine_templates db)
    (routine_template_tasks db)
    (Sequences (seq_entries s) (seq_targets s) rowid
       (seq_routine_templates s) (seq_routine_template_tasks s)).

Definition with_routine_templates (db : database)
  (rows : list RoutineTemplate.t) (children : list RoutineTemplateTask.t)
  (rowid : Z) : database :=
  let s := sqlite_sequence db in
  Database (entries db) (targets db) (tasks db) rows children
    (Sequences (seq_entries s) (seq_targets s) (seq_tasks s)
       rowid (seq_routine_template_tasks s)).

Definition with_routine_template_tasks (db : database)
  (rows : list RoutineTemplateTask.t) (rowid : Z) : database :=
  let s := sqlite_sequence db in
  Database (entries db) (targets db) (tasks db) (routine_templates db) rows
    (Sequences (seq_entries s) (seq_targets s) (seq_tasks s)
       (seq_routine_templates s) rowid).

(** *** entries *)

(** [SELECT * FROM entries WHERE date = ?], read with [.get]: the first
    matching row, or [undefined]. *)
Definition select_entry_by_date (d : string) : statement (option Entry.t) :=
  fun db =>
    inr (find (fun e => text_eqb (Entry.date e) (Some d)) (entries db), db).

(** The VALUES row of the INSERT, should it be inserted. *)
Definition excluded (rowid : Z) (p : EntryBody.t) : Entry.t :=
  Entry.Build rowid (EntryBody.date p) (EntryBody.journal_text p)
    (EntryBody.mood p) (EntryBody.sleep_start p) (EntryBody.sleep_end p)
    (EntryBody.reflection_json p) (EntryBody.image_data p).

(** The DO UPDATE SET clause applied to the conflicting row. *)
Definition do_update (e : Entry.t) (p : EntryBody.t) : Entry.t :=
  Entry.Build (Entry.id e) (Entry.date e) (EntryBody.journal_text p)
    (EntryBody.mood p) (EntryBody.sleep_start p) (EntryBody.sleep_end p)
    (EntryBody.reflection_json p)
    (coalesce (EntryBody.image_data p) (Entry.image_data e)).

(** The row whose [date] collides in the UNIQUE index is updated in
    place; with no collision the new row goes to the end. *)
Fixpoint on_conflict_date (rowid : Z) (p : EntryBody.t)
  (rows : list Entry.t) : list Entry.t :=
  match rows with
  | [] => [excluded rowid p]
  | e :: rest =>
    if text_eqb (Entry.date e) (EntryBody.date p)
    then do_update e p :: rest
    else e :: on_conflict_date rowid p rest
  end.

(** [INSERT INTO entries (...) VALUES (...) ON CONFLICT(date) DO UPDATE
    SET ...].  The rowid is drawn before the conflict is detected, so
    the sequence advances on the update path as well. *)
Definition upsert_entry (p : EntryBody.t) : statement unit :=
  fun db =>
    let rowid := seq_entries (sqlite_sequence db) + 1 in
    inr (tt, with_entries db (on_conflict_date rowid p (entries db)) rowid).

(** The order of the UNIQUE index on [date]: by the date, NULL before
    every string and strings byte by byte (the BINARY collation), then by
    the rowid. *)
Definition index_leb (a b : Entry.t) : bool :=
  match Entry.date a, Entry.date b with
  | None, None => Entry.id a <=? Entry.id b
  | None, Some _ => true
  | Some _, None => false
  | Some x, Some y =>
    match String.compare x y with
    | Lt => true
    | Eq => Entry.id a <=? Entry.id b
    | Gt => false
    end
  end.

(** One step of [ORDER BY date DESC]: the rows come out as the index is
    read backwards, so [e] goes before the first row that is not above it
    in the index. *)
Fixpoint insert_desc (e : Entry.t) (sorted : list Entry.t) : list Entry.t :=
  match sorted with
  | [] => [e]
  | x :: rest =>
    if index_leb x e
    then e :: x :: rest
    else x :: insert_desc e rest
  end.

Definition order_by_date_desc (rows : list Entry.t) : list Entry.t :=
  fold_right insert_desc [] rows.

(** [SELECT * FROM entries ORDER BY date DESC]. *)
Definition select_entries : statement (list Entry.t) :=
  fun db => inr (order_by_date_desc (entries db), db).

(** *** targets *)

(** [SELECT * FROM targets WHERE period_key = ?]. *)
Definition select_targets_by_period (period : string)
  : statement (list Target.t) :=
  fun db =>
    inr (filter (fun t => text_eqb (Target.period_key t) (Some period))
           (targets db), db).

(** [INSERT INTO targets (type, title, period_key) VALUES (?, ?, ?)];
    [completed] takes its DEFAULT 0.  Returns [lastInsertRowid]. *)
Definition insert_target (type title period_key : text) : statement Z :=
  fun db =>
    let rowid := seq_targets (sqlite_sequence db) + 1 in
    inr (rowid,
         with_targets db
           (targets db ++ [Target.Build rowid type title 0 period_key])
           rowid).

Definition set_target_completed (completed id : Z) (t : Target.t)
  : Target.t :=
  if Target.id t =? id
  then Target.Build (Target.id t) (Target.type t) (Target.title t)
         completed (Target.period_key t)
  else t.

(** [UPDATE targets SET completed = ? WHERE id = ?]. *)
Definition update_target_completed (completed id : Z) : statement unit :=
  fun db =>
    inr (tt,
         with_targets db
           (map (set_target_completed completed id) (targets db))
           (seq_targets (sqlite_sequence db))).

(** [DELETE FROM targets WHERE id = ?]. *)
Definition delete_target (id : Z) : statement unit :=
  fun db =>
    inr (tt,
         with_targets db
           (filter (fun t => negb (Target.id t =? id)) (targets db))
           (seq_targets (sqlite_sequence db))).

(** *** tasks *)

(** [SELECT * FROM tasks WHERE date = ?]. *)
Definition select_tasks_by_date (d : string) : statement (list Task.t) :=
  fun db =>
    inr (filter (fun t => text_eqb (Task.date t) (Some d)) (tasks db), db).

(** [INSERT INTO tasks (date, title) VALUES (?, ?)]. *)
Definition insert_task (date title : text) : statement Z :=
  fun db =>
    let rowid := seq_tasks (sqlite_sequence db) + 1 in
    inr (rowid,
         with_tasks db (tasks db ++ [Task.Build rowid date title 0]) rowid).

Definition set_task_completed (completed id : Z) (t : Task.t) : Task.t :=
  if Task.id t =? id
  then Task.Build (Task.id t) (Task.date t) (Task.title t) completed
  else t.

(** [UPDATE tasks SET completed = ? WHERE id = ?]. *)
Definition update_task_completed (completed id : Z) : statement unit :=
  fun db =>
    inr (tt,
         with_tasks db (map (set_task_completed completed id) (tasks db))
           (seq_tasks (sqlite_sequence db))).

(** [DELETE FROM tasks WHERE id = ?]. *)
Definition delete_task (id : Z) : statement unit :=
  fun db =>
    inr (tt,
         with_tasks db (filter (fun t => negb (Task.id t =? id)) (tasks db))
           (seq_tasks (sqlite_sequence db))).

(** *** routine templates and their tasks *)

(** [SELECT * FROM routine_templates]. *)
Definition select_routine_templates : statement (list RoutineTemplate.t) :=
  fun db => inr (routine_templates db, db).

Definition children_of (template_id : option Z)
  (rows : list RoutineTemplateTask.t) : list RoutineTemplateTask.t :=
  match template_id with
  | None => []
  | Some id =>
    filter (fun c => RoutineTemplateTask.template_id c =? id) rows
  end.

(** [SELECT * FROM routine_template_tasks WHERE template_id = ?]; a NULL
    parameter matches no row. *)
Definition select_template_tasks (template_id : option Z)
  : statement (list RoutineTemplateTask.t) :=
  fun db => inr (children_of template_id (routine_template_tasks db), db).

(** [SELECT title FROM routine_template_tasks WHERE template_id = ?]. *)
Definition select_template_task_titles (template_id : option Z)
  : statement (list text) :=
  fun db =>
    inr (map RoutineTemplateTask.title
           (children_of template_id (routine_template_tasks db)), db).

(** [INSERT INTO routine_templates (name) VALUES (?)]; [name] is
    UNIQUE. *)
Definition insert_routine_template (name : text) : statement Z :=
  fun db =>
    if existsb (fun t => text_eqb (RoutineTemplate.name t) name)
         (routine_templates db)
    then inl SQLITE_CONSTRAINT_UNIQUE
    else
      let rowid := seq_routine_templates (sqlite_sequence db) + 1 in
      inr (rowid,
           with_routine_templates db
             (routine_templates db ++ [RoutineTemplate.Build rowid name])
             (routine_template_tasks db) rowid).

(** [INSERT INTO routine_template_tasks (template_id, title) VALUES
    (?, ?)]; [template_id] REFERENCES [routine_templates(id)]. *)
Definition insert_routine_template_task (template_id : Z) (title : text)
  : statement Z :=
  fun db =>
    if foreign_keys &&
       negb (existsb (fun t => RoutineTemplate.id t =? template_id)
               (routine_templates db))
    then inl SQLITE_CONSTRAINT_FOREIGNKEY
    else
      let rowid := seq_routine_template_tasks (sqlite_sequence db) + 1 in
      inr (rowid,
           with_routine_template_tasks db
             (routine_template_tasks db
                ++ [RoutineTemplateTask.Build rowid template_id title])
             rowid).

(** The children that ON DELETE CASCADE removes along with the deleted
    parent rows. *)
Definition cascaded (deleted : list RoutineTemplate.t)
  (c : RoutineTemplateTask.t) : bool :=
  foreign_keys &&
  existsb (fun t => RoutineTemplate.id t =? RoutineTemplateTask.template_id c)
    deleted.

(** [DELETE FROM routine_templates WHERE id = ?]. *)
Definition delete_routine_template (id : Z) : statement unit :=
  fun db =>
    let deleted :=
      filter (fun t => RoutineTemplate.id t =? id) (routine_templates db) in
    inr (tt,
         with_routine_templates db
           (filter (fun t => negb (RoutineTemplate.id t =? id))
              (routine_templates db))
           (filter (fun c => negb (cascaded deleted c))
              (routine_template_tasks db))
           (seq_routine_templates (sqlite_sequence db))).

End Sql.

(** ** The route handlers *)

(** What [res.json(...)] sends. *)
Inductive json : Type :=
| JsonNull
| JsonEntry (e : Entry.t)
| JsonEntries (rows : list Entry.t)
| JsonTargets (rows : list Target.t)
| JsonTasks (rows : list Task.t)
| JsonTemplates (rows : list (RoutineTemplate.t * list RoutineTemplateTask.t))
| JsonSuccess                      (* { success: true } *)
| JsonId (id : Z).                 (* { id: ... } *)

(** The HTTP answer: the handler's JSON with status 200, or the 500 of
    Express for an error the handler let through. *)
Inductive response : Type :=
| Ok200 (body : json)
| InternalServerError500 (e : error).

(** The requests of the API.  A [:date] or [:period] segment of the path
    is a string; an [:id] segment is compared with the INTEGER key by its
    numeric value and is given as that integer, as is [templateId]. *)
Inductive request : Type :=
| GET_entry (date : string)
| POST_entries (body : EntryBody.t)
| GET_entries
| GET_targets (period : string)
| POST_targets (type title period_key : text)
| PATCH_target (id : Z) (completed : Js.value)
| DELETE_target (id : Z)
| GET_tasks (date : string)
| POST_tasks (date title : text)
| PATCH_task (id : Z) (completed : Js.value)
| DELETE_task (id : Z)
| GET_routine_templates
| POST_routine_templates (name : text) (tasks : option (list text))
| DELETE_routine_template (id : Z)
| POST_apply_template (date : text) (templateId : option Z).

Module Api.

Local Open Scope handler_scope.

(** [completed ? 1 : 0]. *)
Definition completed_flag (completed : Js.value) : Z :=
  if Js.truthy completed then 1 else 0.

(** [app.get("/api/entries/:date")]. *)
Definition get_entry (date : string) : M json :=
  entry <- execute (Sql.select_entry_by_date date) ;;
  ret (match entry with
       | Some e => JsonEntry e
       | None => JsonNull
       end).

(** [app.post("/api/entries")]. *)
Definition post_entries (body : EntryBody.t) : M json :=
  execute (Sql.upsert_entry body) ;;
  ret JsonSuccess.

(** [app.get("/api/entries")]. *)
Definition get_entries : M json :=
  rows <- execute Sql.select_entries ;;
  ret (JsonEntries rows).

(** [app.get("/api/targets/:period")]. *)
Definition get_targets (period : string) : M json :=
  rows <- execute (Sql.select_targets_by_period period) ;;
  ret (JsonTargets rows).

(** [app.post("/api/targets")]. *)
Definition post_targets (type title period_key : text) : M json :=
  id <- execute (Sql.insert_target type title period_key) ;;
  ret (JsonId id).

(** [app.patch("/api/targets/:id")]. *)
Definition patch_target (id : Z) (completed : Js.value) : M json :=
  execute (Sql.update_target_completed (completed_flag completed) id) ;;
  ret JsonSuccess.

(** [app.delete("/api/targets/:id")]. *)
Definition delete_target (id : Z) : M json :=
  execute (Sql.delete_target id) ;;
  ret JsonSuccess.

(** [app.get("/api/tasks/:date")]. *)
Definition get_tasks (date : string) : M json :=
  rows <- execute (Sql.select_tasks_by_date date) ;;
  ret (JsonTasks rows).

(** [app.post("/api/tasks")]. *)
Definition post_tasks (date title : text) : M json :=
  id <- execute (Sql.insert_task date title) ;;
  ret (JsonId id).

(** [app.patch("/api/tasks/:id")]. *)
Definition patch_task (id : Z) (completed : Js.value) : M json :=
  execute (Sql.update_task_completed (completed_flag completed) id) ;;
  ret JsonSuccess.

(** [app.delete("/api/tasks/:id")]. *)
Definition delete_task (id : Z) : M json :=
  execute (Sql.delete_task id) ;;
  ret JsonSuccess.

(** [app.get("/api/routine-templates")]. *)
Definition get_routine_templates : M json :=
  templates <- execute Sql.select_routine_templates ;;
  result <- map_m
    (fun t =>
       children <-
         execute (Sql.select_template_tasks (Some (RoutineTemplate.id t))) ;;
       ret (t, children))
    templates ;;
  ret (JsonTemplates result).

(** [app.post("/api/routine-templates")].  A body without an iterable
    [tasks] makes the [for ... of] throw, after the template row is in. *)
Definition post_routine_templates (name : text) (tasks : option (list text))
  : M json :=
  templateId <- execute (Sql.insert_routine_template name) ;;
  match tasks with
  | None => throw TypeError
  | Some titles =>
    for_of titles
      (fun taskTitle =>
         execute (Sql.insert_routine_template_task templateId taskTitle) ;;
         ret tt) ;;
    ret (JsonId templateId)
  end.

(** [app.delete("/api/routine-templates/:id")]. *)
Definition delete_routine_template (id : Z) : M json :=
  execute (Sql.delete_routine_template id) ;;
  ret JsonSuccess.

(** [app.post("/api/apply-template")]. *)
Definition apply_template (date : text) (templateId : option Z) : M json :=
  templateTasks <- execute (Sql.select_template_task_titles templateId) ;;
  for_of templateTasks
    (fun title => execute (Sql.insert_task date title) ;; ret tt) ;;
  ret JsonSuccess.

Definition route (r : request) : M json :=
  match r with
  | GET_entry date => get_entry date
  | POST_entries body => post_entries body
  | GET_entries => get_entries
  | GET_targets period => get_targets period
  | POST_targets type title period_key => post_targets type title period_key
  | PATCH_target id completed => patch_target id completed
  | DELETE_target id => delete_target id
  | GET_tasks date => get_tasks date
  | POST_tasks date title => post_tasks date title
  | PATCH_task id completed => patch_task id completed
  | DELETE_task id => delete_task id
  | GET_routine_templates => get_routine_templates
  | POST_routine_templates name tasks => post_routine_templates name tasks
  | DELETE_routine_template id => delete_routine_template id
  | POST_apply_template date templateId => apply_template date templateId
  end.

(** One request served: the response and the store it leaves. *)
Definition serve (f : faults) (r : request) (db : database)
  : response * database :=
  match route r f db with
  | Done body _ db' => (Ok200 body, db')
  | Raised e db' => (InternalServerError500 e, db')
  end.

Definition store_after (f : faults) (r : request) (db : database)
  : database :=
  snd (serve f r db).

Definition answer (f : faults) (r : request) (db : database) : response :=
  fst (serve f r db).

(** The same request sent [n] times in a row to a healthy engine. *)
Fixpoint repeat_request (n : nat) (r : request) (db : database) : database :=
  match n with
  | O => db
  | S k => repeat_request k r (store_after None r db)
  end.

End Api.

(** The stores the server can be in: those that requests, served by an
    engine that may fail any statement, lead to from the empty store. *)
Inductive reachable : database -> Prop :=
| reachable_empty : reachable empty_database
| reachable_serve (f : faults) (r : request) (db : database) :
    reachable db -> reachable (Api.store_after f r db).

(** ** Reasoning about handlers *)

(** The store a run ends with, whether it returned or threw. *)
Definition final {A : Type} (r : run A) : database :=
  match r with
  | Done _ _ db => db
  | Raised _ db => db
  end.

(** A property of the store that a statement, respectively a handler
    body, cannot break. *)
Definition statement_keeps {A : Type} (P : database -> Prop)
  (s : statement A) : Prop :=
  forall db a db', P db -> s db = inr (a, db') -> P db'.

Definition keeps {A : Type} (P : database -> Prop) (m : M A) : Prop :=
  forall f db, P db -> P (final (m f db)).

(** No two rows of [entries] carry the same date [d]. *)
Definition entries_on (d : string) (db : database) : list Entry.t :=
  filter (fun e => text_eqb (Entry.date e) (Some d)) (entries db).

Definition at_most_one_entry_per_date (db : database) : Prop :=
  forall d : string, (List.length (entries_on d db) <= 1)%nat.

(** Every child row points at a template row that exists. *)
Definition has_parent (templates : list RoutineTemplate.t)
  (c : RoutineTemplateTask.t) : Prop :=
  exists t, In t templates /\
            RoutineTemplate.id t = RoutineTemplateTask.template_id c.

Definition no_orphans (db : database) : Prop :=
  Forall (has_parent (routine_templates db)) (routine_template_tasks db).

(** The task rows that applying a template adds: one per title, in the
    order of the child rows, with the next rowids. *)
Fixpoint materialized (rowid : Z) (date : text) (titles : list text)
  : list Task.t :=
  match titles with
  | [] => []
  | title :: rest =>
    Task.Build (rowid + 1) date title 0 :: materialized (rowid + 1) date rest
  end.

(** Of [n] statements run in a row, how many the engine serves before it
    fails one. *)
Definition served (f : faults) (n : nat) : nat :=
  match f with
  | None => n
  | Some k => Nat.min k n
  end.

(** Whether the engine fails one of the first [n] statements. *)
Definition fails_within (f : faults) (n : nat) : bool :=
  match f with
  | None => false
  | Some k => (k <? n)%nat
  end.

(** A request is all-or-nothing at a store, for a given failure of the
    engine, when it leaves either the store it found or the store that the
    request served in full leaves. *)
Definition all_or_nothing (r : request) (db : database) (f : faults) : Prop :=
  Api.store_after f r db = db \/
  Api.store_after f r db = Api.store_after None r db.

(** A store holding the template "Morning" with the child tasks "Stretch"
    and "Hydrate". *)
Definition morning_routine : database :=
  Api.store_after None
    (POST_routine_templates (Some "Morning"%string)
       (Some [Some "Stretch"%string; Some "Hydrate"%string]))
    empty_database.

(** Two payloads for the same day: the first brings an image, the second
    comes without one. *)
Definition first_save : EntryBody.t :=
  EntryBody.Build (Some "2024-01-01"%string) (Some "hello"%string)
    (Some "Joyful"%string) (Some "22:00"%string) (Some "06:00"%string)
    (Some "{}"%string) (Some "data:image/png;base64,iVBOR"%string).

Definition second_save : EntryBody.t :=
  EntryBody.Build (Some "2024-01-01"%string) (Some "hello again"%string)
    (Some "Peaceful"%string) (Some "23:00"%string) (Some "07:00"%string)
    (Some "{}"%string) None.

(** The store after both payloads were saved. *)
Definition saved_twice : database :=
  Api.store_after None (POST_entries second_save)
    (Api.store_after None (POST_entries first_save) empty_database).

(** The store after "Morning" was applied to a day. *)
Definition morning_applied : database :=
  Api.store_after None
    (POST_apply_template (Some "2024-02-02"%string) (Some 1))
    morning_routine.

(** [a] may stand before [b] in an answer ordered by date, descending:
    its date text is the greater one byte by byte, a NULL date comes after
    every text, and of two rows with the same date or both without one the
    later rowid comes first. *)
Definition date_desc (a b : Entry.t) : Prop :=
  match Entry.date a, Entry.date b with
  | Some x, Some y =>
    String.ltb y x = true \/ (x = y /\ Entry.id b <= Entry.id a)
  | Some _, None => True
  | None, Some _ => False
  | None, None => Entry.id b <= Entry.id a
  end.

(** The same order read from the other end. *)
Definition date_asc (a b : Entry.t) : Prop := date_desc b a.

(** A property that every statement of the source keeps is kept by every
    handler, whichever statement the engine fails. *)
Record kept_by_statements (P : database -> Prop) : Prop := {
  k_select_entry : forall d, statement_keeps P (Sql.select_entry_by_date d);
  k_upsert_entry : forall p, statement_keeps P (Sql.upsert_entry p);
  k_select_entries : statement_keeps P Sql.select_entries;
  k_select_targets : forall p, statement_keeps P (Sql.select_targets_by_period p);
  k_insert_target : forall a b c, statement_keeps P (Sql.insert_target a b c);
  k_update_target : forall c i, statement_keeps P (Sql.update_target_completed c i);
  k_delete_target : forall i, statement_keeps P (Sql.delete_target i);
  k_select_tasks : forall d, statement_keeps P (Sql.select_tasks_by_date d);
  k_insert_task : forall d t, statement_keeps P (Sql.insert_task d t);
  k_update_task : forall c i, statement_keeps P (Sql.update_task_completed c i);
  k_delete_task : forall i, statement_keeps P (Sql.delete_task i);
  k_select_templates : statement_keeps P Sql.select_routine_templates;
  k_select_children : forall i, statement_keeps P (Sql.select_template_tasks i);
  k_select_titles : forall i, statement_keeps P (Sql.select_template_task_titles i);
  k_insert_template : forall n, statement_keeps P (Sql.insert_routine_template n);
  k_insert_child : forall i t, statement_keeps P (Sql.insert_routine_template_task i t);
  k_delete_template : forall i, statement_keeps P (Sql.delete_routine_template i)
}.

(** ** Further notions: rowids, flags, names, request sequences *)

(** The rowids of a table whose counter is [seq]: all different, all
    between 1 and the counter. *)
Definition rowids_below (seq : Z) (ids : list Z) : Prop :=
  0 <= seq /\ NoDup ids /\ Forall (fun i => 1 <= i <= seq) ids.

Definition rowids_sound (db : database) : Prop :=
  rowids_below (seq_entries (sqlite_sequence db))
    (map Entry.id (entries db)) /\
  rowids_below (seq_targets (sqlite_sequence db))
    (map Target.id (targets db)) /\
  rowids_below (seq_tasks (sqlite_sequence db))
    (map Task.id (tasks db)) /\
  rowids_below (seq_routine_templates (sqlite_sequence db))
    (map RoutineTemplate.id (routine_templates db)) /\
  rowids_below (seq_routine_template_tasks (sqlite_sequence db))
    (map RoutineTemplateTask.id (routine_template_tasks db)).

(** No counter of [a] is above the same counter of [b]. *)
Definition sequences_le (a b : sequences) : Prop :=
  seq_entries a <= seq_entries b /\
  seq_targets a <= seq_targets b /\
  seq_tasks a <= seq_tasks b /\
  seq_routine_templates a <= seq_routine_templates b /\
  seq_routine_template_tasks a <= seq_routine_template_tasks b.

(** Requests served one after the other, each with its own engine
    failure. *)
Fixpoint serve_all (rs : list (faults * request)) (db : database)
  : database :=
  match rs with
  | [] => db
  | (f, r) :: rest => serve_all rest (Api.store_after f r db)
  end.

(** Every stored [completed] is the integer 0 or 1. *)
Definition completed_is_bit (db : database) : Prop :=
  Forall (fun t => Task.completed t = 0 \/ Task.completed t = 1) (tasks db) /\
  Forall (fun t => Target.completed t = 0 \/ Target.completed t = 1)
    (targets db).

(** No two templates carry the same name. *)
Definition templates_named (n : string) (db : database)
  : list RoutineTemplate.t :=
  filter (fun t => text_eqb (RoutineTemplate.name t) (Some n))
    (routine_templates db).

Definition template_names_unique (db : database) : Prop :=
  forall n : string, (List.length (templates_named n db) <= 1)%nat.

(** The requests that only read. *)
Definition is_get (r : request) : bool :=
  match r with
  | GET_entry _ | GET_entries | GET_targets _ | GET_tasks _
  | GET_routine_templates => true
  | _ => false
  end.

(** The child rows that creating a template adds: one per title, in the
    order of the body's array, with the next rowids. *)
Fixpoint materialized_children (rowid template_id : Z) (titles : list text)
  : list RoutineTemplateTask.t :=
  match titles with
  | [] => []
  | title :: rest =>
    RoutineTemplateTask.Build (rowid + 1) template_id title
      :: materialized_children (rowid + 1) template_id rest
  end.

(** As [kept_by_statements], with the two UPDATE statements bound the way
    the PATCH handlers bind them: to [completed ? 1 : 0]. *)
Record kept_by_bound_statements (P : database -> Prop) : Prop := {
  b_select_entry : forall d, statement_keeps P (Sql.select_entry_by_date d);
  b_upsert_entry : forall p, statement_keeps P (Sql.upsert_entry p);
  b_select_entries : statement_keeps P Sql.select_entries;
  b_select_targets : forall p, statement_keeps P (Sql.select_targets_by_period p);
  b_insert_target : forall a b c, statement_keeps P (Sql.insert_target a b c);
  b_update_target : forall c i,
    statement_keeps P (Sql.update_target_completed (Api.completed_flag c) i);
  b_delete_target : forall i, statement_keeps P (Sql.delete_target i);
  b_select_tasks : forall d, statement_keeps P (Sql.select_tasks_by_date d);
  b_insert_task : forall d t, statement_keeps P (Sql.insert_task d t);
  b_update_task : forall c i,
    statement_keeps P (Sql.update_task_completed (Api.completed_flag c) i);
  b_delete_task : forall i, statement_keeps P (Sql.delete_task i);
  b_select_templates : statement_keeps P Sql.select_routine_templates;
  b_select_children : forall i, statement_keeps P (Sql.select_template_tasks i);
  b_select_titles : forall i, statement_keeps P (Sql.select_template_task_titles i);
  b_insert_template : forall n, statement_keeps P (Sql.insert_routine_template n);
  b_insert_child : forall i t, statement_keeps P (Sql.insert_routine_template_task i t);
  b_delete_template : forall i, statement_keeps P (Sql.delete_routine_template i)
}.

(** ** The client: the data handling of the React components *)

(** The entry object the client holds and sends: a JavaScript object
    whose properties may be absent ([None]), [null] ([Some None]) or a
    string.  A row answered by the server has all eight properties. *)
Module EntryObject.
Record t : Type := Build {
  id : option Z;
  date : option text;
  journal_text : option text;
  mood : option text;
  sleep_start : option text;
  sleep_end : option text;
  reflection_json : option text;
  image_data : option text
}.
End EntryObject.

Module Client.

(** One property of [{ ...a, ...b }]: [b]'s when [b] has it. *)
Definition spread_property {A : Type} (a b : option A) : option A :=
  match b with
  | Some _ => b
  | None => a
  end.

(** [{ ...a, ...b }]. *)
Definition spread (a b : EntryObject.t) : EntryObject.t :=
  EntryObject.Build
    (spread_property (EntryObject.id a) (EntryObject.id b))
    (spread_property (EntryObject.date a) (EntryObject.date b))
    (spread_property (EntryObject.journal_text a) (EntryObject.journal_text b))
    (spread_property (EntryObject.mood a) (EntryObject.mood b))
    (spread_property (EntryObject.sleep_start a) (EntryObject.sleep_start b))
    (spread_property (EntryObject.sleep_end a) (EntryObject.sleep_end b))
    (spread_property (EntryObject.reflection_json a)
       (EntryObject.reflection_json b))
    (spread_property (EntryObject.image_data a) (EntryObject.image_data b)).

(** [{}], which is also what spreading [null] contributes. *)
Definition no_properties : EntryObject.t :=
  EntryObject.Build None None None None None None None None.

(** The object that [res.json()] gives for a row of [entries]. *)
Definition of_row (e : Entry.t) : EntryObject.t :=
  EntryObject.Build (Some (Entry.id e)) (Some (Entry.date e))
    (Some (Entry.journal_text e)) (Some (Entry.mood e))
    (Some (Entry.sleep_start e)) (Some (Entry.sleep_end e))
    (Some (Entry.reflection_json e)) (Some (Entry.image_data e)).

(** A property as the server's handler binds it after [JSON.stringify]
    and [express.json()]: absent and [null] both bind NULL. *)
Definition bound (v : option text) : text :=
  match v with
  | Some x => x
  | None => None
  end.

(** The fields that [POST /api/entries] destructures from the object; it
    ignores [id]. *)
Definition body_of (o : EntryObject.t) : EntryBody.t :=
  EntryBody.Build (bound (EntryObject.date o))
    (bound (EntryObject.journal_text o)) (bound (EntryObject.mood o))
    (bound (EntryObject.sleep_start o)) (bound (EntryObject.sleep_end o))
    (bound (EntryObject.reflection_json o)) (bound (EntryObject.image_data o)).

Definition quote : string := String (ascii_of_nat 34) EmptyString.

(** [JSON.stringify] of a property with the empty string as value. *)
Definition empty_answer (key : string) : string :=
  (quote ++ key ++ quote ++ ":" ++ quote ++ quote)%string.

(** [JSON.stringify({ worries: '', sadness: '', annoyance: '',
    bodyNeeds: '', loveliness: '' })]. *)
Definition empty_reflection : string :=
  ("{" ++ empty_answer "worries" ++ "," ++ empty_answer "sadness" ++ ","
   ++ empty_answer "annoyance" ++ "," ++ empty_answer "bodyNeeds" ++ ","
   ++ empty_answer "loveliness" ++ "}")%string.

(** The entry that [fetchDailyData] sets: [entryRes || { ... }], where
    [entryRes] is the row that [GET /api/entries/:date] answered or
    [null]. *)
Definition fetched_entry (dateStr : string) (entryRes : option Entry.t)
  : EntryObject.t :=
  match entryRes with
  | Some e => of_row e
  | None =>
    EntryObject.Build None (Some (Some dateStr)) (Some (Some ""%string))
      (Some (Some ""%string)) (Some (Some "22:00"%string))
      (Some (Some "07:00"%string)) (Some (Some empty_reflection)) None
  end.

(** [res.json(entry || null)] of [GET /api/entries/:date], for the row
    read or [undefined]. *)
Definition entry_or_null (entry : option Entry.t) : json :=
  match entry with
  | Some e => JsonEntry e
  | None => JsonNull
  end.

(** [saveEntry]: the new entry of the component and the request sent.
    The component's [entry] is [null] until the first fetch. *)
Definition saveEntry (entry : option EntryObject.t)
  (updatedEntry : EntryObject.t) : EntryObject.t * request :=
  let newEntry :=
    spread (match entry with
            | Some o => o
            | None => no_properties
            end) updatedEntry in
  (newEntry, POST_entries (body_of newEntry)).

(** Truthiness of a string property: absent, [null] and [''] are falsy. *)
Definition truthy_text (v : option text) : bool :=
  match v with
  | Some (Some s) => negb (String.eqb s EmptyString)
  | _ => false
  end.

(** [tasks.filter(t => t.completed).map(t => t.title)]. *)
Definition completedTasks (tasks : list Task.t) : list text :=
  map Task.title
    (filter (fun t => Js.truthy (Js.JNumber (Task.completed t))) tasks).

(** [handleGenerateImage], with the image service as a function from the
    journal text, the mood and the titles of the completed tasks to the
    image it returns, or [null].  The result is the request sent, if
    any. *)
Definition handleGenerateImage
  (generateDailyImage : text -> option text -> list text -> text)
  (entry : option EntryObject.t) (tasks : list Task.t)
  : option (EntryObject.t * request) :=
  match entry with
  | None => None
  | Some o =>
    if negb (truthy_text (EntryObject.journal_text o)) then None
    else
      let imageData :=
        generateDailyImage (bound (EntryObject.journal_text o))
          (EntryObject.mood o) (completedTasks tasks) in
      if truthy_text (Some imageData)
      then Some (saveEntry entry
                   (EntryObject.Build None None None None None None None
                      (Some imageData)))
      else None
  end.

(** The body of the PATCH that a click on a task or a target sends:
    [{ completed: !task.completed }], where [completed] is the number the
    server answered. *)
Definition toggled (completed : Z) : Js.value :=
  Js.JBool (negb (Js.truthy (Js.JNumber completed))).

(** [fetchTargets]: what it sets as the targets shown, from the [data]
    that [GET /api/targets/:period] answered:
    [data.filter(t => t.type === type)]. *)
Definition fetchTargets (type : string) (data : list Target.t)
  : list Target.t :=
  filter (fun t => text_eqb (Target.type t) (Some type)) data.

(** [addTarget]: the request it sends. *)
Definition addTarget (type periodKey title : string) : request :=
  POST_targets (Some type) (Some title) (Some periodKey).

(** [MOODS] of [src/utils.ts]. *)
Record mood : Type := Mood {
  label : string;
  emoji : string;
  color : string
}.

Definition MOODS : list mood :=
  [ Mood "Peaceful" "🕊️" "bg-blue-50";
    Mood "Joyful" "☀️" "bg-yellow-50";
    Mood "Anxious" "🌪️" "bg-slate-100";
    Mood "Sad" "🌧️" "bg-indigo-50";
    Mood "Angry" "🔥" "bg-red-50";
    Mood "Productive" "🌱" "bg-emerald-50" ]%string.

(** [Array.prototype.findIndex]: the index of the first element that
    satisfies the predicate, or -1. *)
Fixpoint findIndex_from {A : Type} (i : Z) (p : A -> bool) (l : list A) : Z :=
  match l with
  | [] => -1
  | x :: rest => if p x then i else findIndex_from (i + 1) p rest
  end.

Definition findIndex {A : Type} (p : A -> bool) (l : list A) : Z :=
  findIndex_from 0 p l.

(** [MOODS.findIndex(m => m.label === e.mood) + 1]. *)
Definition moodScore (e : Entry.t) : Z :=
  findIndex (fun m => text_eqb (Some (label m)) (Entry.mood e)) MOODS + 1.

(** [entries.slice(0, 7).reverse()]: the rows that the callbacks of
    [moodData] and [sleepData] are mapped over. *)
Definition charted (entries : list Entry.t) : list Entry.t :=
  rev (firstn 7 entries).

End Client.

(** ** The image service wrapper *)

Module Gemini.

Definition newline : string := String (ascii_of_nat 10) EmptyString.

(** An element of an array as [join] prints it: [null] and [undefined]
    give the empty string. *)
Definition joined (x : text) : string :=
  match x with
  | Some s => s
  | None => EmptyString
  end.

(** [tasks.join(', ')]. *)
Fixpoint join (tasks : list text) : string :=
  match tasks with
  | [] => EmptyString
  | [x] => joined x
  | x :: rest => (joined x ++ ", " ++ join rest)%string
  end.

(** [tasks.length > 0 ? `Completed tasks: ${tasks.join(', ')}.` : '']. *)
Definition taskSummary (tasks : list text) : string :=
  match tasks with
  | [] => EmptyString
  | _ => ("Completed tasks: " ++ join tasks ++ ".")%string
  end.

(** [mood ? `The overall mood was ${mood}.` : '']. *)
Definition moodContext (mood : option text) : string :=
  match mood with
  | Some (Some m) =>
    if String.eqb m EmptyString then EmptyString
    else ("The overall mood was " ++ m ++ ".")%string
  | _ => EmptyString
  end.

(** The template literal of the prompt, line by line. *)
Definition prompt (summary : string) (mood : option text)
  (tasks : list text) : string :=
  ("A minimalist, atmospheric, and symbolic artistic representation of a day. "
   ++ newline
   ++ "    Journal Summary: " ++ summary ++ ". " ++ newline
   ++ "    " ++ moodContext mood ++ newline
   ++ "    " ++ taskSummary tasks ++ newline
   ++ "    Style: Abstract, warm organic, fine art photography or soft painting. Focus on the emotional essence and visual metaphors.")%string.

(** What [ai.models.generateContent] does with the prompt: it throws, or
    it answers; [candidates?.[0]?.content?.parts] of the answer is then
    undefined or an array of parts, each with or without [inlineData],
    whose [data] is a string. *)
Inductive part : Type :=
| TextPart
| InlinePart (data : string).

Inductive generated : Type :=
| Threw
| Answered (parts : option (list part)).

(** The [for ... of] over the parts: the first part with [inlineData]
    decides. *)
Fixpoint first_inline (parts : list part) : text :=
  match parts with
  | [] => None
  | TextPart :: rest => first_inline rest
  | InlinePart data :: _ => Some ("data:image/png;base64," ++ data)%string
  end.

(** [generateDailyImage]. *)
Definition generateDailyImage (generateContent : string -> generated)
  (summary : string) (mood : option text) (tasks : list text) : text :=
  match generateContent (prompt summary mood tasks) with
  | Threw => None
  | Answered parts =>
    first_inline (match parts with
                  | Some l => l
                  | None => []
                  end)
  end.

End Gemini.

(** ** What the claims' words mean *)

(** Notions that the claims use and the source does not define, written
    from the claims' words to compare the code with: the truthiness of a
    JavaScript value, the calendar day that a date text names, and the
    claim on the image of an entry saved twice. *)
Module Spec.

(** ECMAScript's ToBoolean, case by case. *)
Inductive ToBoolean : Js.value -> bool -> Prop :=
| undefined_is_falsy : ToBoolean Js.JUndefined false
| null_is_falsy : ToBoolean Js.JNull false
| boolean_is_itself (b : bool) : ToBoolean (Js.JBool b) b
| zero_is_falsy : ToBoolean (Js.JNumber 0) false
| other_number_is_truthy (n : Z) : n <> 0 -> ToBoolean (Js.JNumber n) true
| empty_string_is_falsy : ToBoolean (Js.JString EmptyString) false
| other_string_is_truthy (s : string) :
    s <> EmptyString -> ToBoolean (Js.JString s) true
| object_is_truthy : ToBoolean Js.JObject true.

(** The rows of a template among the template tasks: the rows whose
    [template_id] is the template's, in the order of the table. *)
Inductive rows_of_template (templateId : Z)
  : list RoutineTemplateTask.t -> list RoutineTemplateTask.t -> Prop :=
| no_row_left : rows_of_template templateId [] []
| row_of_the_template (c : RoutineTemplateTask.t)
    (rows kids : list RoutineTemplateTask.t) :
    RoutineTemplateTask.template_id c = templateId ->
    rows_of_template templateId rows kids ->
    rows_of_template templateId (c :: rows) (c :: kids)
| row_of_another_template (c : RoutineTemplateTask.t)
    (rows kids : list RoutineTemplateTask.t) :
    RoutineTemplateTask.template_id c <> templateId ->
    rows_of_template templateId rows kids ->
    rows_of_template templateId (c :: rows) kids.

Definition is_digit (c : ascii) : bool :=
  ((48 <=? N_of_ascii c) && (N_of_ascii c <=? 57))%N.

(** The decimal numbers of a text, separated by hyphens; [cur] is the
    number being read. *)
Fixpoint fields (cur : option N) (s : string) : option (list N) :=
  match s with
  | EmptyString =>
    match cur with
    | Some n => Some [n]
    | None => None
    end
  | String c rest =>
    if is_digit c
    then fields (Some (10 * match cur with
                            | Some n => n
                            | None => 0
                            end + (N_of_ascii c - 48))%N) rest
    else if Ascii.eqb c "-"
         then match cur with
              | Some n => option_map (cons n) (fields None rest)
              | None => None
              end
         else None
  end.

(** The calendar day that a date names: year, month and day, for a text
    of three decimal numbers with hyphens between them. *)
Definition calendar_day (date : text) : option (N * N * N) :=
  match date with
  | None => None
  | Some s =>
    match fields None s with
    | Some [y; m; d] => Some (y, m, d)
    | _ => None
    end
  end.

(** The day [a] is the day [b] or an earlier one. *)
Definition day_le (a b : N * N * N) : Prop :=
  let '(y1, m1, d1) := a in
  let '(y2, m2, d2) := b in
  (y1 < y2 \/ (y1 = y2 /\ (m1 < m2 \/ (m1 = m2 /\ d1 <= d2))))%N.

(** [a] is the entry of a day that is not before the day of [b]. *)
Definition not_older (a b : Entry.t) : Prop :=
  match calendar_day (Entry.date a), calendar_day (Entry.date b) with
  | Some da, Some db => day_le db da
  | _, _ => True
  end.

(** "Newest date first": no entry is followed by the entry of a later
    day. *)
Definition newest_first (rows : list Entry.t) : Prop :=
  StronglySorted not_older rows.

(** A date as the client writes it, [yyyy-MM-dd]: four digits, two digits
    and two digits. *)
Definition zero_padded (date : text) : bool :=
  match date with
  | Some
      (String y1 (String y2 (String y3 (String y4
        (String h1 (String m1 (String m2
          (String h2 (String d1 (String d2 EmptyString)))))))))) =>
    is_digit y1 && is_digit y2 && is_digit y3 && is_digit y4
    && Ascii.eqb h1 "-" && is_digit m1 && is_digit m2
    && Ascii.eqb h2 "-" && is_digit d1 && is_digit d2
  | _ => false
  end.


End Spec.


(** Dates written without padding, saved in this order. *)
Definition unpadded (date : string) : EntryBody.t :=
  EntryBody.Build (Some date) None None None None None None.

Definition unpadded_dates : database :=
  Api.store_after None (POST_entries (unpadded "2024-02-01"))
    (Api.store_after None (POST_entries (unpadded "2024-1-5"))
       empty_database).

(** Three days saved out of order. *)
Definition three_days : database :=
  Api.store_after None (POST_entries (unpadded "2024-01-01"))
    (Api.store_after None (POST_entries (unpadded "2024-01-03"))
       (Api.store_after None (POST_entries (unpadded "2024-01-02"))
          empty_database)).

(** ** The body on the wire *)

(** [JSON.stringify] of the entry object, whose length in bytes is what
    the body parser measures.  Strings are well-formed UTF-8. *)
Module Wire.

Definition backslash : string := String (ascii_of_nat 92) EmptyString.

Definition hex_digit (n : N) : string :=
  String (ascii_of_N (if n <? 10 then 48 + n else 87 + n)%N) EmptyString.

(** One character inside a JSON string. *)
Definition escaped (c : ascii) : string :=
  let n := N_of_ascii c in
  (if (n =? 34)%N then backslash ++ Client.quote
   else if (n =? 92)%N then backslash ++ backslash
   else if (n =? 8)%N then backslash ++ "b"
   else if (n =? 9)%N then backslash ++ "t"
   else if (n =? 10)%N then backslash ++ "n"
   else if (n =? 12)%N then backslash ++ "f"
   else if (n =? 13)%N then backslash ++ "r"
   else if (n <? 32)%N
        then backslash ++ "u00" ++ hex_digit (n / 16) ++ hex_digit (n mod 16)
   else String c EmptyString)%string.

Fixpoint escape (s : string) : string :=
  match s with
  | EmptyString => EmptyString
  | String c rest => (escaped c ++ escape rest)%string
  end.

(** A string or [null] as a JSON value. *)
Definition value (v : text) : string :=
  match v with
  | Some s => (Client.quote ++ escape s ++ Client.quote)%string
  | None => "null"%string
  end.

(** An integer as a JSON value. *)
Definition number (n : Z) : string := NilZero.string_of_int (Z.to_int n).

(** The property [key], when the object has it. *)
Definition property {A : Type} (key : string) (show : A -> string)
  (v : option A) : list string :=
  match v with
  | Some x => [(Client.quote ++ key ++ Client.quote ++ ":" ++ show x)%string]
  | None => []
  end.

(** [JSON.stringify(newEntry)]. *)
Definition stringify (o : EntryObject.t) : string :=
  ("{"
   ++ String.concat ","
        (property "id" number (EntryObject.id o)
         ++ property "date" value (EntryObject.date o)
         ++ property "journal_text" value (EntryObject.journal_text o)
         ++ property "mood" value (EntryObject.mood o)
         ++ property "sleep_start" value (EntryObject.sleep_start o)
         ++ property "sleep_end" value (EntryObject.sleep_end o)
         ++ property "reflection_json" value (EntryObject.reflection_json o)
         ++ property "image_data" value (EntryObject.image_data o))
   ++ "}")%string.

End Wire.

(** [app.use(express.json({ limit: '10mb' }))] in front of the routes. *)
Module Express.

Inductive http_response : Type :=
| Routed (answer : response)
| PayloadTooLarge413.

(** ['10mb']. *)
Definition limit : N := 10 * 1024 * 1024.

(** Whether the body parser lets a body of this text through. *)
Definition json (body : string) : bool :=
  (N.of_nat (String.length body) <=? limit)%N.

(** A request with a JSON body: over the limit it is answered 413 and no
    route runs; otherwise the route of the parsed body [r] serves it. *)
Definition post (f : faults) (body : string) (r : request) (db : database)
  : http_response * database :=
  if json body
  then (Routed (Api.answer f r db), Api.store_after f r db)
  else (PayloadTooLarge413, db).

End Express.

(** The [fetch('/api/entries', { method: 'POST', body:
    JSON.stringify(newEntry) })] of [saveEntry], on a healthy engine:
    what the server answers and the store it leaves.  [saveEntry] does
    not look at the answer. *)
Definition fetch_post_entries (newEntry : EntryObject.t) (db : database)
  : Express.http_response * database :=
  Express.post None (Wire.stringify newEntry)
    (POST_entries (Client.body_of newEntry)) db.

Section Frame.

Context {A : Type} (P : database -> Prop).

Lemma keeps_ret (a : A) : keeps P (ret a).
Proof. intros f db H. exact H. Qed.

Lemma keeps_throw (e : error) : keeps P (@throw A e).
Proof. intros f db H. exact H. Qed.

Lemma keeps_execute (s : statement A) :
  statement_keeps P s -> keeps P (execute s).
Proof.
  intros Hs f db H. unfold execute.
  destruct f as [[|k]|]; simpl; trivial;
    destruct (s db) as [e|[a db']] eqn:E; simpl; eauto.
Qed.

End Frame.

Lemma keeps_bind {A B : Type} (P : database -> Prop) (m : M A) (k : A -> M B) :
  keeps P m -> (forall a, keeps P (k a)) -> keeps P (bind m k).
Proof.
  intros Hm Hk f db H. unfold bind.
  specialize (Hm f db H).
  destruct (m f db) as [a f' db'|e db']; simpl in *.
  - apply Hk. exact Hm.
  - exact Hm.
Qed.

Lemma keeps_for_of {A : Type} (P : database -> Prop) (xs : list A)
  (body : A -> M unit) :
  (forall x, keeps P (body x)) -> keeps P (for_of xs body).
Proof.
  intros Hb. induction xs as [|x rest IH]; simpl.
  - apply keeps_ret.
  - apply keeps_bind; [apply Hb | intros _; exact IH].
Qed.

Lemma keeps_map_m {A B : Type} (P : database -> Prop) (g : A -> M B)
  (xs : list A) :
  (forall x, keeps P (g x)) -> keeps P (map_m g xs).
Proof.
  intros Hg. induction xs as [|x rest IH]; simpl.
  - apply keeps_ret.
  - apply keeps_bind; [apply Hg|].
    intros y. apply keeps_bind; [exact IH|]. intros ys. apply keeps_ret.
Qed.

Ltac keeps_step :=
  first
    [ apply keeps_ret
    | apply keeps_throw
    | apply keeps_execute
    | apply keeps_for_of; intros ?
    | apply keeps_map_m; intros ?
    | apply keeps_bind; [|intros ?] ].

Lemma route_keeps (P : database -> Prop) (r : request) :
  kept_by_statements P -> keeps P (Api.route r).
Proof.
  intros K. destruct K.
  destruct r as [d|p| |p|a b c|i c|i|d|d t|i c|i| |n ts|i|d i]; simpl;
    unfold Api.get_entry, Api.post_entries, Api.get_entries, Api.get_targets,
      Api.post_targets, Api.patch_target, Api.delete_target, Api.get_tasks,
      Api.post_tasks, Api.patch_task, Api.delete_task,
      Api.get_routine_templates, Api.post_routine_templates,
      Api.delete_routine_template, Api.apply_template;
    try destruct ts;
    repeat keeps_step; auto.
Qed.

Lemma store_after_final (f : faults) (r : request) (db : database) :
  Api.store_after f r db = final (Api.route r f db).
Proof.
  unfold Api.store_after, Api.serve.
  destruct (Api.route r f db); reflexivity.
Qed.

Lemma reachable_ind_statements (P : database -> Prop) :
  P empty_database -> kept_by_statements P ->
  forall db, reachable db -> P db.
Proof.
  intros H0 K db R. induction R as [|f r db R IH].
  - exact H0.
  - rewrite store_after_final. apply route_keeps; assumption.
Qed.

(** A statement that only reads keeps everything. *)
Ltac reads_only :=
  let H := fresh in
  intros ? ? ? ? H; cbv beta delta [Sql.select_entry_by_date
    Sql.select_entries Sql.select_targets_by_period Sql.select_tasks_by_date
    Sql.select_routine_templates Sql.select_template_tasks
    Sql.select_template_task_titles] in H;
  injection H as _ <-; assumption.

(** ** Facts about TEXT values *)

Lemma text_eqb_true (a b : text) :
  text_eqb a b = true <-> exists s, a = Some s /\ b = Some s.
Proof.
  destruct a as [x|], b as [y|]; simpl; split;
    try discriminate; try (intros [s [? ?]]; discriminate).
  - intros H. apply String.eqb_eq in H. subst. eauto.
  - intros [s [Ha Hb]]. inversion Ha; inversion Hb; subst.
    apply String.eqb_refl.
Qed.

Lemma text_eqb_some (s : string) : text_eqb (Some s) (Some s) = true.
Proof. apply String.eqb_refl. Qed.

Lemma text_eqb_sym (a b : text) : text_eqb a b = text_eqb b a.
Proof.
  destruct a as [x|], b as [y|]; simpl; trivial. apply String.eqb_sym.
Qed.

(** ** The upsert of [entries] *)

Lemma find_on_conflict_date (rowid : Z) (p : EntryBody.t) (d : string)
  (rows : list Entry.t) :
  EntryBody.date p = Some d ->
  find (fun e => text_eqb (Entry.date e) (Some d))
    (Sql.on_conflict_date rowid p rows)
  = Some match find (fun e => text_eqb (Entry.date e) (Some d)) rows with
         | Some e => Sql.do_update e p
         | None => Sql.excluded rowid p
         end.
Proof.
  intros Hd. induction rows as [|e rest IH]; simpl; rewrite Hd.
  - rewrite text_eqb_some. reflexivity.
  - destruct (text_eqb (Entry.date e) (Some d)) eqn:E; simpl.
    + rewrite E. reflexivity.
    + rewrite E. exact IH.
Qed.

Lemma count_on_conflict_other (rowid : Z) (p : EntryBody.t) (d : string)
  (rows : list Entry.t) :
  text_eqb (EntryBody.date p) (Some d) = false ->
  filter (fun e => text_eqb (Entry.date e) (Some d))
    (Sql.on_conflict_date rowid p rows)
  = filter (fun e => text_eqb (Entry.date e) (Some d)) rows.
Proof.
  intros Hd. induction rows as [|e rest IH]; simpl.
  - rewrite Hd. reflexivity.
  - destruct (text_eqb (Entry.date e) (EntryBody.date p)) eqn:E; simpl.
    + apply text_eqb_true in E as [s [He Hp]].
      rewrite He. rewrite Hp in Hd. rewrite Hd. reflexivity.
    + rewrite IH. reflexivity.
Qed.


Lemma count_on_conflict_date (rowid : Z) (p : EntryBody.t)
  (rows : list Entry.t) :
  (forall d, List.length
     (filter (fun e => text_eqb (Entry.date e) (Some d)) rows) <= 1)%nat ->
  forall d, (List.length
     (filter (fun e => text_eqb (Entry.date e) (Some d))
        (Sql.on_conflict_date rowid p rows)) <= 1)%nat.
Proof.
  induction rows as [|e rest IH]; intros H d; simpl.
  - destruct (text_eqb (EntryBody.date p) (Some d)); simpl; lia.
  - destruct (text_eqb (Entry.date e) (EntryBody.date p)) eqn:E.
    + specialize (H d). cbn in *.
      destruct (text_eqb (Entry.date e) (Some d)); simpl in *; exact H.
    + simpl. destruct (text_eqb (Entry.date e) (Some d)) eqn:Ed.
      * rewrite count_on_conflict_other.
        -- specialize (H d). simpl in H. rewrite Ed in H. exact H.
        -- apply text_eqb_true in Ed as [s [He Hs]]. inversion Hs; subst s.
           rewrite He in E. rewrite text_eqb_sym. exact E.
      * apply IH. intros d'. specialize (H d'). simpl in H.
        destruct (text_eqb (Entry.date e) (Some d')); simpl in H; lia.
Qed.

Lemma one_entry_per_date_kept : kept_by_statements at_most_one_entry_per_date.
Proof.
  split; try (intros; reads_only);
    try (intros; intros db a db' HP H; cbv beta delta
           [Sql.insert_target Sql.update_target_completed Sql.delete_target
            Sql.insert_task Sql.update_task_completed Sql.delete_task
            Sql.delete_routine_template] in H;
         injection H as _ <-; exact HP).
  - intros p db a db' HP H. injection H as _ <-.
    intros d. apply count_on_conflict_date. exact HP.
  - intros n db a db' HP H. unfold Sql.insert_routine_template in H.
    destruct (existsb _ _); [discriminate|]. injection H as _ <-. exact HP.
  - intros i t db a db' HP H. unfold Sql.insert_routine_template_task in H.
    destruct (_ && _); [discriminate|]. injection H as _ <-. exact HP.
Qed.



Lemma reachable_one_entry_per_date (db : database) :
  reachable db -> at_most_one_entry_per_date db.
Proof.
  revert db. apply reachable_ind_statements.
  - intros d. simpl. lia.
  - exact one_entry_per_date_kept.
Qed.

(** C7.  In every store the API can reach, no date has two rows in
    [entries]; saving an entry, whether it creates the row or re-saves an
    existing date, leads to such a store again. *)
Theorem entries_date_unique (db : database) (Hreach : reachable db) :
  at_most_one_entry_per_date db /\
  forall (f : faults) (p : EntryBody.t),
    at_most_one_entry_per_date (Api.store_after f (POST_entries p) db).
Proof.
  split.
  - apply reachable_one_entry_per_date. exact Hreach.
  - intros f p. apply reachable_one_entry_per_date.
    apply reachable_serve. exact Hreach.
Qed.

(** ** Reads *)

Lemma find_no_match {A : Type} (p : A -> bool) (l : list A) :
  (forall x, In x l -> p x = false) -> find p l = None.
Proof.
  intros H. destruct (find p l) as [x|] eqn:F; [|reflexivity].
  apply find_some in F as [Hin Hp]. rewrite (H x Hin) in Hp. discriminate.
Qed.

Lemma filter_no_match {A : Type} (p : A -> bool) (l : list A) :
  (forall x, In x l -> p x = false) -> filter p l = [].
Proof.
  induction l as [|x rest IH]; intros H; simpl; [reflexivity|].
  rewrite (H x (or_introl eq_refl)). apply IH.
  intros y Hy. apply H. right. exact Hy.
Qed.

Lemma text_eqb_differs (a : text) (s : string) :
  a <> Some s -> text_eqb a (Some s) = false.
Proof.
  intros H. destruct (text_eqb a (Some s)) eqn:E; [|reflexivity].
  apply text_eqb_true in E as [x [Ha Hx]]. congruence.
Qed.

(** The nested reads of [GET /api/routine-templates] on a healthy engine. *)
Lemma nested_children_healthy (db : database)
  (templates : list RoutineTemplate.t) :
  map_m
    (fun t =>
       bind (execute (Sql.select_template_tasks (Some (RoutineTemplate.id t))))
         (fun children => ret (t, children)))
    templates None db
  = Done
      (map (fun t =>
              (t, Sql.children_of (Some (RoutineTemplate.id t))
                    (routine_template_tasks db)))
         templates)
      None db.
Proof.
  induction templates as [|t rest IH]; simpl; [reflexivity|].
  unfold bind at 1. simpl. unfold bind at 1. rewrite IH. reflexivity.
Qed.

(** C6.  A read whose key matches nothing answers 200 with [null] (the
    entry of a date) or with an empty array (the targets of a period, the
    tasks of a date, the templates, the children of a template); on a
    healthy engine no read endpoint answers with an error, and none
    changes the store. *)
Theorem get_without_match_answers_empty
  (db : database) (d period : string) :
  ((forall e, In e (entries db) -> Entry.date e <> Some d) ->
   Api.serve None (GET_entry d) db = (Ok200 JsonNull, db)) /\
  ((forall t, In t (targets db) -> Target.period_key t <> Some period) ->
   Api.serve None (GET_targets period) db = (Ok200 (JsonTargets []), db)) /\
  ((forall t, In t (tasks db) -> Task.date t <> Some d) ->
   Api.serve None (GET_tasks d) db = (Ok200 (JsonTasks []), db)) /\
  (routine_templates db = [] ->
   Api.serve None GET_routine_templates db = (Ok200 (JsonTemplates []), db)) /\
  (forall rows t children,
     Api.answer None GET_routine_templates db = Ok200 (JsonTemplates rows) ->
     In (t, children) rows ->
     (forall c, In c (routine_template_tasks db) ->
                RoutineTemplateTask.template_id c <> RoutineTemplate.id t) ->
     children = []) /\
  (forall r, In r [GET_entry d; GET_entries; GET_targets period; GET_tasks d;
                   GET_routine_templates] ->
             exists body, Api.serve None r db = (Ok200 body, db)).
Proof.
  repeat apply conj.
  - intros H. unfold Api.serve. simpl.
    unfold Api.get_entry, bind, execute, ret. simpl.
    rewrite find_no_match; [reflexivity|].
    intros e He. apply text_eqb_differs. apply H. exact He.
  - intros H. unfold Api.serve. simpl.
    unfold Api.get_targets, bind, execute, ret. simpl.
    rewrite filter_no_match; [reflexivity|].
    intros t Ht. apply text_eqb_differs. apply H. exact Ht.
  - intros H. unfold Api.serve. simpl.
    unfold Api.get_tasks, bind, execute, ret. simpl.
    rewrite filter_no_match; [reflexivity|].
    intros t Ht. apply text_eqb_differs. apply H. exact Ht.
  - intros H. unfold Api.serve. simpl.
    unfold Api.get_routine_templates, bind, execute, ret. simpl.
    rewrite H. reflexivity.
  - intros rows t children Hrows Hin Hnone.
    unfold Api.answer, Api.serve in Hrows. simpl in Hrows.
    unfold Api.get_routine_templates in Hrows.
    unfold bind at 1 in Hrows. simpl in Hrows.
    unfold bind at 1 in Hrows. rewrite nested_children_healthy in Hrows.
    simpl in Hrows. injection Hrows as <-.
    apply in_map_iff in Hin as [t0 [Heq _]]. injection Heq as -> <-.
    apply filter_no_match. intros c Hc.
    apply Z.eqb_neq. apply Hnone. exact Hc.
  - intros r Hr. simpl in Hr.
    destruct Hr as [<-|[<-|[<-|[<-|[<-|[]]]]]];
      try (eexists; reflexivity).
    unfold Api.serve. simpl. unfold Api.get_routine_templates.
    unfold bind at 1. simpl. unfold bind at 1.
    rewrite nested_children_healthy. simpl. eexists. reflexivity.
Qed.

(** ** [ORDER BY date DESC] *)

Lemma string_compare_refl (x : string) : String.compare x x = Eq.
Proof.
  induction x as [|a x IH]; simpl; [reflexivity|].
  unfold Ascii.compare. rewrite N.compare_refl. exact IH.
Qed.

Lemma string_compare_lt_trans (x y z : string) :
  String.compare x y = Lt -> String.compare y z = Lt ->
  String.compare x z = Lt.
Proof.
  revert y z.
  induction x as [|a x IH]; intros [|b y] [|c z]; simpl;
    try reflexivity; try discriminate.
  unfold Ascii.compare.
  destruct (N.compare_spec (N_of_ascii a) (N_of_ascii b)),
           (N.compare_spec (N_of_ascii b) (N_of_ascii c)),
           (N.compare_spec (N_of_ascii a) (N_of_ascii c));
    try discriminate; try reflexivity; try lia; try apply IH.
Qed.

Lemma index_leb_total (a b : Entry.t) :
  Sql.index_leb a b = true \/ Sql.index_leb b a = true.
Proof.
  unfold Sql.index_leb.
  destruct (Entry.date a) as [x|], (Entry.date b) as [y|]; auto.
  - rewrite (String.compare_antisym y x).
    destruct (String.compare x y); simpl; auto.
    destruct (Z.leb_spec (Entry.id a) (Entry.id b)); [left; reflexivity|].
    right. apply Z.leb_le. lia.
  - destruct (Z.leb_spec (Entry.id a) (Entry.id b)); [left; reflexivity|].
    right. apply Z.leb_le. lia.
Qed.

Lemma index_leb_trans (a b c : Entry.t) :
  Sql.index_leb a b = true -> Sql.index_leb b c = true ->
  Sql.index_leb a c = true.
Proof.
  unfold Sql.index_leb.
  destruct (Entry.date a) as [x|], (Entry.date b) as [y|],
           (Entry.date c) as [z|]; try discriminate; try reflexivity.
  - destruct (String.compare x y) eqn:Exy; try discriminate;
      destruct (String.compare y z) eqn:Eyz; try discriminate; intros H1 H2.
    + apply String.compare_eq_iff in Exy, Eyz. subst.
      rewrite string_compare_refl. apply Z.leb_le.
      apply Z.leb_le in H1, H2. lia.
    + apply String.compare_eq_iff in Exy. subst. rewrite Eyz. reflexivity.
    + apply String.compare_eq_iff in Eyz. subst. rewrite Exy. reflexivity.
    + rewrite (string_compare_lt_trans x y z Exy Eyz). reflexivity.
  - intros H1 H2. apply Z.leb_le. apply Z.leb_le in H1, H2. lia.
Qed.

(** What the sort's comparison says, in the words of [date_desc]. *)
Lemma index_leb_date_desc (a b : Entry.t) :
  Sql.index_leb b a = true -> date_desc a b.
Proof.
  unfold Sql.index_leb, date_desc, String.ltb.
  destruct (Entry.date a) as [x|], (Entry.date b) as [y|];
    try discriminate; trivial.
  - destruct (String.compare y x) eqn:E; try discriminate; intros H.
    + right. apply String.compare_eq_iff in E. split; [congruence|].
      apply Z.leb_le. exact H.
    + left. reflexivity.
  - intros H. apply Z.leb_le. exact H.
Qed.

Lemma insert_desc_permutation (e : Entry.t) (rows : list Entry.t) :
  Permutation (e :: rows) (Sql.insert_desc e rows).
Proof.
  induction rows as [|x rest IH]; simpl; [reflexivity|].
  destruct (Sql.index_leb x e); [reflexivity|].
  rewrite perm_swap. apply perm_skip. exact IH.
Qed.

Lemma order_by_date_desc_permutation (rows : list Entry.t) :
  Permutation rows (Sql.order_by_date_desc rows).
Proof.
  induction rows as [|e rest IH]; simpl; [reflexivity|].
  rewrite <- insert_desc_permutation. apply perm_skip. exact IH.
Qed.

Lemma insert_desc_sorted (e : Entry.t) (rows : list Entry.t) :
  StronglySorted (fun a b => Sql.index_leb b a = true) rows ->
  StronglySorted (fun a b => Sql.index_leb b a = true)
    (Sql.insert_desc e rows).
Proof.
  induction rows as [|x rest IH]; intros S; simpl.
  - constructor; constructor.
  - destruct (Sql.index_leb x e) eqn:L.
    + constructor; [exact S|]. constructor; [exact L|].
      inversion S as [|? ? _ Hall]; subst.
      eapply Forall_impl; [|exact Hall].
      intros y Hy. cbv beta in *. eapply index_leb_trans; eassumption.
    + inversion S as [|? ? Srest Hall]; subst.
      constructor; [apply IH; exact Srest|].
      eapply Permutation_Forall; [apply insert_desc_permutation|].
      constructor; [|exact Hall].
      destruct (index_leb_total x e); congruence.
Qed.

Lemma StronglySorted_among {A : Type} (R R' : A -> A -> Prop) (l : list A) :
  (forall a b, In a l -> In b l -> R a b -> R' a b) ->
  StronglySorted R l -> StronglySorted R' l.
Proof.
  induction l as [|x rest IH]; intros Himp S; [constructor|].
  inversion S as [|? ? Srest Hall]; subst. constructor.
  - apply IH; [|exact Srest]. intros a b Ha Hb. apply Himp; right; assumption.
  - rewrite Forall_forall in *. intros y Hy.
    apply Himp; [left; reflexivity|right; exact Hy|apply Hall; exact Hy].
Qed.

Lemma order_by_date_desc_sorted (rows : list Entry.t) :
  StronglySorted date_desc (Sql.order_by_date_desc rows).
Proof.
  apply (StronglySorted_among (fun a b => Sql.index_leb b a = true)).
  - intros a b _ _. apply index_leb_date_desc.
  - induction rows as [|e rest IH]; simpl.
    + constructor.
    + apply insert_desc_sorted. exact IH.
Qed.

(** *** Dates as the client writes them *)

Lemma is_digit_range (c : ascii) :
  Spec.is_digit c = true -> (48 <= N_of_ascii c <= 57)%N.
Proof.
  unfold Spec.is_digit. intros H. apply andb_true_iff in H as [H1 H2].
  apply N.leb_le in H1, H2. lia.
Qed.

Lemma zero_padded_shape (date : text) :
  Spec.zero_padded date = true ->
  exists y1 y2 y3 y4 m1 m2 d1 d2 : ascii,
    date = Some (String y1 (String y2 (String y3 (String y4
             (String "-" (String m1 (String m2
               (String "-" (String d1 (String d2 EmptyString)))))))))) /\
    Spec.is_digit y1 = true /\ Spec.is_digit y2 = true /\
    Spec.is_digit y3 = true /\ Spec.is_digit y4 = true /\
    Spec.is_digit m1 = true /\ Spec.is_digit m2 = true /\
    Spec.is_digit d1 = true /\ Spec.is_digit d2 = true.
Proof.
  destruct date as [s|]; [|discriminate].
  destruct s as [|y1 [|y2 [|y3 [|y4 [|h1 [|m1 [|m2 [|h2 [|d1 [|d2 [|? ?]]]]]]]]]]];
    try discriminate.
  unfold Spec.zero_padded. intros H.
  do 9 (apply andb_true_iff in H as [H ?]).
  repeat match goal with
         | E : Ascii.eqb _ _ = true |- _ => apply Ascii.eqb_eq in E; subst
         end.
  exists y1, y2, y3, y4, m1, m2, d1, d2. repeat split; assumption.
Qed.

Lemma calendar_of_padded (y1 y2 y3 y4 m1 m2 d1 d2 : ascii) :
  Spec.is_digit y1 = true -> Spec.is_digit y2 = true ->
  Spec.is_digit y3 = true -> Spec.is_digit y4 = true ->
  Spec.is_digit m1 = true -> Spec.is_digit m2 = true ->
  Spec.is_digit d1 = true -> Spec.is_digit d2 = true ->
  Spec.calendar_day
    (Some (String y1 (String y2 (String y3 (String y4
             (String "-" (String m1 (String m2
               (String "-" (String d1 (String d2 EmptyString)))))))))))
  = Some ((10 * (10 * (10 * (10 * 0 + (N_of_ascii y1 - 48))
                             + (N_of_ascii y2 - 48))
                       + (N_of_ascii y3 - 48))
                 + (N_of_ascii y4 - 48))%N,
          (10 * (10 * 0 + (N_of_ascii m1 - 48)) + (N_of_ascii m2 - 48))%N,
          (10 * (10 * 0 + (N_of_ascii d1 - 48)) + (N_of_ascii d2 - 48))%N).
Proof.
  intros Hy1 Hy2 Hy3 Hy4 Hm1 Hm2 Hd1 Hd2.
  unfold Spec.calendar_day. cbn [Spec.fields].
  rewrite Hy1, Hy2, Hy3, Hy4. cbn [Spec.fields]. 
  change (Spec.is_digit "-") with false. cbn [Ascii.eqb Bool.eqb].
  rewrite Hm1, Hm2. cbn [Spec.fields option_map].
  change (Spec.is_digit "-") with false. cbn [Ascii.eqb Bool.eqb].
  rewrite Hd1, Hd2. reflexivity.
Qed.

Lemma digit_value (c : ascii) :
  Spec.is_digit c = true -> exists v : N, N_of_ascii c = (48 + v)%N /\ (v <= 9)%N.
Proof.
  intros H. apply is_digit_range in H. exists (N_of_ascii c - 48)%N. lia.
Qed.

Lemma digit_back (v : N) : (48 + v - 48)%N = v.
Proof. lia. Qed.

Ltac as_digit H :=
  let v := fresh "v" in
  let E := fresh "E" in
  let B := fresh "B" in
  apply digit_value in H as [v [E B]]; rewrite E in *; clear E.

(** Between two dates written [yyyy-MM-dd] the order of the texts is the
    order of the days. *)
Lemma padded_text_order_is_day_order (a b : Entry.t) :
  Spec.zero_padded (Entry.date a) = true ->
  Spec.zero_padded (Entry.date b) = true ->
  date_desc a b -> Spec.not_older a b.
Proof.
  intros Ha Hb.
  apply zero_padded_shape in Ha
    as (a1 & a2 & a3 & a4 & a5 & a6 & a7 & a8 & Ea & A1 & A2 & A3 & A4 & A5
        & A6 & A7 & A8).
  apply zero_padded_shape in Hb
    as (b1 & b2 & b3 & b4 & b5 & b6 & b7 & b8 & Eb & B1 & B2 & B3 & B4 & B5
        & B6 & B7 & B8).
  unfold date_desc, Spec.not_older. rewrite Ea, Eb.
  rewrite !calendar_of_padded by assumption.
  unfold Spec.day_le. intros [Hlt|[Heq _]].
  - unfold String.ltb in Hlt. cbn [String.compare] in Hlt.
    unfold Ascii.compare in Hlt.
    change (N_of_ascii "-" ?= N_of_ascii "-")%N with Eq in Hlt.
    cbv iota in Hlt.
    as_digit A1. as_digit A2. as_digit A3. as_digit A4.
    as_digit A5. as_digit A6. as_digit A7. as_digit A8.
    as_digit B1. as_digit B2. as_digit B3. as_digit B4.
    as_digit B5. as_digit B6. as_digit B7. as_digit B8.
    rewrite !digit_back.
    repeat match type of Hlt with
           | context [(?x ?= ?y)%N] =>
             destruct (N.compare_spec x y); try discriminate Hlt
           end; lia.
  - injection Heq as -> -> -> -> -> -> -> ->. lia.
Qed.

(** The claim of C8 fails as worded: with the dates "2024-1-5" and
    "2024-02-01" stored, [GET /api/entries] answers the fifth of January
    before the first of February. *)
Lemma text_order_is_not_newest_first :
  ~ (exists rows : list Entry.t,
       Api.answer None GET_entries unpadded_dates = Ok200 (JsonEntries rows)
       /\ Spec.newest_first rows).
Proof.
  intros [rows [Hget Hnew]]. vm_compute in Hget. injection Hget as <-.
  inversion Hnew as [|? ? _ Hall]; subst.
  inversion Hall as [|? ? Hfirst _]; subst.
  unfold Spec.not_older in Hfirst. cbn [Entry.date] in Hfirst.
  change (Spec.calendar_day (Some "2024-1-5"%string))
    with (Some (2024, 1, 5)%N) in Hfirst.
  change (Spec.calendar_day (Some "2024-02-01"%string))
    with (Some (2024, 2, 1)%N) in Hfirst.
  unfold Spec.day_le in Hfirst. lia.
Qed.

(** C8, as the code has it.  [GET /api/entries] answers with every row of
    [entries], each once, in descending order of the date text, compared
    byte by byte: rows without a date come last, and rows that tie come
    by descending id.  When every stored date is written [yyyy-MM-dd],
    as the client writes them, that is newest date first. *)
Theorem get_entries_newest_first (db : database) :
  exists rows : list Entry.t,
    Api.serve None GET_entries db = (Ok200 (JsonEntries rows), db) /\
    Permutation (entries db) rows /\
    StronglySorted date_desc rows /\
    Sorted date_desc rows /\
    (Forall (fun e => Spec.zero_padded (Entry.date e) = true) (entries db) ->
     Spec.newest_first rows).
Proof.
  exists (Sql.order_by_date_desc (entries db)).
  pose proof (order_by_date_desc_permutation (entries db)) as Hperm.
  pose proof (order_by_date_desc_sorted (entries db)) as Hsorted.
  split; [reflexivity|]. split; [exact Hperm|]. split; [exact Hsorted|].
  split; [apply StronglySorted_Sorted; exact Hsorted|].
  intros Hpadded. unfold Spec.newest_first.
  apply (StronglySorted_among date_desc); [|exact Hsorted].
  assert (Hrows : Forall (fun e => Spec.zero_padded (Entry.date e) = true)
                    (Sql.order_by_date_desc (entries db))).
  { eapply Permutation_Forall; [exact Hperm|exact Hpadded]. }
  rewrite Forall_forall in Hrows. intros a b Ha Hb.
  apply padded_text_order_is_day_order; [apply Hrows|apply Hrows]; assumption.
Qed.

(** ** PATCH of the completion flag *)

Lemma set_task_completed_twice (flag id : Z) (t : Task.t) :
  Sql.set_task_completed flag id (Sql.set_task_completed flag id t)
  = Sql.set_task_completed flag id t.
Proof.
  unfold Sql.set_task_completed.
  destruct (Task.id t =? id) eqn:E; simpl; rewrite E; reflexivity.
Qed.

Lemma set_target_completed_twice (flag id : Z) (t : Target.t) :
  Sql.set_target_completed flag id (Sql.set_target_completed flag id t)
  = Sql.set_target_completed flag id t.
Proof.
  unfold Sql.set_target_completed.
  destruct (Target.id t =? id) eqn:E; simpl; rewrite E; reflexivity.
Qed.

Lemma patch_task_store (id : Z) (c : Js.value) (db : database) :
  Api.serve None (PATCH_task id c) db
  = (Ok200 JsonSuccess,
     Sql.with_tasks db
       (map (Sql.set_task_completed (Api.completed_flag c) id) (tasks db))
       (seq_tasks (sqlite_sequence db))).
Proof. reflexivity. Qed.

Lemma patch_target_store (id : Z) (c : Js.value) (db : database) :
  Api.serve None (PATCH_target id c) db
  = (Ok200 JsonSuccess,
     Sql.with_targets db
       (map (Sql.set_target_completed (Api.completed_flag c) id) (targets db))
       (seq_targets (sqlite_sequence db))).
Proof. reflexivity. Qed.

Lemma patch_task_twice (id : Z) (c : Js.value) (db : database) :
  Api.store_after None (PATCH_task id c)
    (Api.store_after None (PATCH_task id c) db)
  = Api.store_after None (PATCH_task id c) db.
Proof.
  unfold Api.store_after. rewrite !patch_task_store. simpl.
  unfold Sql.with_tasks. simpl. rewrite map_map.
  f_equal. apply map_ext. intros t. apply set_task_completed_twice.
Qed.

Lemma patch_target_twice (id : Z) (c : Js.value) (db : database) :
  Api.store_after None (PATCH_target id c)
    (Api.store_after None (PATCH_target id c) db)
  = Api.store_after None (PATCH_target id c) db.
Proof.
  unfold Api.store_after. rewrite !patch_target_store. simpl.
  unfold Sql.with_targets. simpl. rewrite map_map.
  f_equal. apply map_ext. intros t. apply set_target_completed_twice.
Qed.

Lemma repeat_request_idempotent (r : request) :
  (forall db, Api.store_after None r (Api.store_after None r db)
              = Api.store_after None r db) ->
  forall (n : nat) (db : database),
    Api.repeat_request (S n) r db = Api.store_after None r db.
Proof.
  intros Hr. induction n as [|n IH]; intros db.
  - reflexivity.
  - change (Api.repeat_request (S (S n)) r db)
      with (Api.repeat_request (S n) r (Api.store_after None r db)).
    rewrite IH. apply Hr.
Qed.

Lemma Forall2_map_self {A : Type} (R : A -> A -> Prop) (g : A -> A)
  (l : list A) :
  (forall x, R x (g x)) -> Forall2 R l (map g l).
Proof.
  intros H. induction l as [|x rest IH]; simpl; constructor; auto.
Qed.

(** C5.  A PATCH of a task's or a target's [completed], repeated any
    number of times, leaves the store as one such PATCH does; it leaves
    every row at its place with its [id], [date], [title] (tasks) or [id],
    [type], [title], [period_key] (targets), changes no row of another id,
    and touches no other table. *)
Theorem patch_completed_idempotent_and_local
  (db : database) (id : Z) (c : Js.value) (n : nat) :
  let task_once := Api.store_after None (PATCH_task id c) db in
  let target_once := Api.store_after None (PATCH_target id c) db in
  (Api.repeat_request (S n) (PATCH_task id c) db = task_once /\
   Forall2
     (fun old new =>
        Task.id new = Task.id old /\ Task.date new = Task.date old /\
        Task.title new = Task.title old /\
        (Task.id old <> id -> new = old))
     (tasks db) (tasks task_once) /\
   entries task_once = entries db /\
   targets task_once = targets db /\
   routine_templates task_once = routine_templates db /\
   routine_template_tasks task_once = routine_template_tasks db /\
   sqlite_sequence task_once = sqlite_sequence db)
  /\
  (Api.repeat_request (S n) (PATCH_target id c) db = target_once /\
   Forall2
     (fun old new =>
        Target.id new = Target.id old /\ Target.type new = Target.type old /\
        Target.title new = Target.title old /\
        Target.period_key new = Target.period_key old /\
        (Target.id old <> id -> new = old))
     (targets db) (targets target_once) /\
   entries target_once = entries db /\
   tasks target_once = tasks db /\
   routine_templates target_once = routine_templates db /\
   routine_template_tasks target_once = routine_template_tasks db /\
   sqlite_sequence target_once = sqlite_sequence db).
Proof.
  intros task_once target_once. split.
  - split; [apply repeat_request_idempotent; intros; apply patch_task_twice|].
    split.
    + unfold task_once, Api.store_after. rewrite patch_task_store. simpl.
      apply Forall2_map_self. intros t. unfold Sql.set_task_completed.
      destruct (Task.id t =? id) eqn:E; simpl; repeat split; trivial.
      intros Hne. apply Z.eqb_eq in E. contradiction.
    + unfold task_once, Api.store_after. rewrite patch_task_store. simpl.
      destruct (sqlite_sequence db). repeat split.
  - split; [apply repeat_request_idempotent; intros; apply patch_target_twice|].
    split.
    + unfold target_once, Api.store_after. rewrite patch_target_store. simpl.
      apply Forall2_map_self. intros t. unfold Sql.set_target_completed.
      destruct (Target.id t =? id) eqn:E; simpl; repeat split; trivial.
      intros Hne. apply Z.eqb_eq in E. contradiction.
    + unfold target_once, Api.store_after. rewrite patch_target_store. simpl.
      destruct (sqlite_sequence db). repeat split.
Qed.

(** The conditional of the handlers decides as ToBoolean does. *)
Lemma truthy_is_ToBoolean (c : Js.value) (b : bool) :
  Spec.ToBoolean c b <-> Js.truthy c = b.
Proof.
  split.
  - intros H. destruct H; simpl; try reflexivity.
    + apply Z.eqb_neq in H. rewrite H. reflexivity.
    + destruct s; [contradiction|reflexivity].
  - intros <-. destruct c as [| |b|n|s|]; simpl; try constructor.
    + destruct (Z.eqb_spec n 0) as [->|Hn]; simpl; constructor. exact Hn.
    + destruct s; simpl; constructor. discriminate.
Qed.

(** C9.  Every body's [completed] has a ToBoolean value, [true] (truthy)
    or [false]; after a PATCH of [/tasks/:id] or [/targets/:id] every row
    of that id holds [completed] = 1 when that value is [true] and 0 when
    it is [false], so 0 when the field is absent, [null], [false] or the
    number 0 and 1 when it is [true], a non-zero number, a non-empty
    string or an object; the stored value is one of the integers 0 and 1,
    and a row that was there before the PATCH is there after it. *)
Theorem patch_stores_zero_or_one (db : database) (id : Z) (c : Js.value) :
  (exists b : bool, Spec.ToBoolean c b) /\
  forall b : bool, Spec.ToBoolean c b ->
  let flag := if b then 1 else 0 in
  let task_db := Api.store_after None (PATCH_task id c) db in
  let target_db := Api.store_after None (PATCH_target id c) db in
  (forall t, In t (tasks task_db) -> Task.id t = id ->
             Task.completed t = flag) /\
  (forall t, In t (targets target_db) -> Target.id t = id ->
             Target.completed t = flag) /\
  (forall t, In t (tasks db) -> Task.id t = id ->
             exists t', In t' (tasks task_db) /\ Task.id t' = id /\
                        Task.date t' = Task.date t /\
                        Task.title t' = Task.title t /\
                        Task.completed t' = flag) /\
  (forall t, In t (targets db) -> Target.id t = id ->
             exists t', In t' (targets target_db) /\ Target.id t' = id /\
                        Target.type t' = Target.type t /\
                        Target.title t' = Target.title t /\
                        Target.period_key t' = Target.period_key t /\
                        Target.completed t' = flag) /\
  (flag = 0 \/ flag = 1) /\
  (In c [Js.JUndefined; Js.JNull; Js.JBool false; Js.JNumber 0] -> flag = 0) /\
  (In c [Js.JBool true; Js.JNumber 1; Js.JString "true"; Js.JObject] ->
   flag = 1).
Proof.
  split; [exists (Js.truthy c); apply truthy_is_ToBoolean; reflexivity|].
  intros b Hb flag task_db target_db.
  apply truthy_is_ToBoolean in Hb.
  unfold task_db, target_db, Api.store_after.
  rewrite patch_task_store, patch_target_store. simpl.
  assert (Hflag : Api.completed_flag c = flag).
  { unfold Api.completed_flag, flag. rewrite Hb. reflexivity. }
  rewrite Hflag.
  repeat apply conj.
  - intros t Hin Hid. apply in_map_iff in Hin as [t0 [<- _]].
    unfold Sql.set_task_completed in *.
    destruct (Task.id t0 =? id) eqn:E; simpl in *; [reflexivity|].
    apply Z.eqb_neq in E. contradiction.
  - intros t Hin Hid. apply in_map_iff in Hin as [t0 [<- _]].
    unfold Sql.set_target_completed in *.
    destruct (Target.id t0 =? id) eqn:E; simpl in *; [reflexivity|].
    apply Z.eqb_neq in E. contradiction.
  - intros t Hin Hid. exists (Sql.set_task_completed flag id t).
    split; [apply in_map; exact Hin|].
    unfold Sql.set_task_completed. apply Z.eqb_eq in Hid as E. rewrite E.
    simpl. auto.
  - intros t Hin Hid. exists (Sql.set_target_completed flag id t).
    split; [apply in_map; exact Hin|].
    unfold Sql.set_target_completed. apply Z.eqb_eq in Hid as E. rewrite E.
    simpl. auto 6.
  - unfold flag. destruct b; auto.
  - unfold flag. rewrite <- Hb.
    intros [<-|[<-|[<-|[<-|[]]]]]; reflexivity.
  - unfold flag. rewrite <- Hb.
    intros [<-|[<-|[<-|[<-|[]]]]]; reflexivity.
Qed.

(** ** Applying a template *)

Lemma with_tasks_same (db : database) :
  Sql.with_tasks db (tasks db) (seq_tasks (sqlite_sequence db)) = db.
Proof. destruct db as [? ? ? ? ? []]. reflexivity. Qed.

Lemma insert_tasks_loop (date : text) (titles : list text) :
  forall (f : faults) (db : database),
    for_of titles
      (fun title => bind (execute (Sql.insert_task date title))
                      (fun _ => ret tt)) f db
    = let k := served f (List.length titles) in
      let db' :=
        Sql.with_tasks db
          (tasks db
             ++ materialized (seq_tasks (sqlite_sequence db)) date
                  (firstn k titles))
          (seq_tasks (sqlite_sequence db) + Z.of_nat k) in
      if fails_within f (List.length titles)
      then Raised SQLITE_ENGINE db'
      else Done tt (option_map (fun j => (j - List.length titles)%nat) f) db'.
Proof.
  induction titles as [|t rest IH]; intros f db.
  - destruct f as [j|]; simpl.
    + rewrite Nat.min_0_r, Nat.sub_0_r. simpl.
      rewrite app_nil_r, Z.add_0_r, with_tasks_same. reflexivity.
    + rewrite app_nil_r, Z.add_0_r, with_tasks_same. reflexivity.
  - cbn [for_of]. unfold bind at 1. unfold bind at 1.
    destruct f as [[|j]|].
    + simpl. rewrite app_nil_r, Z.add_0_r, with_tasks_same. reflexivity.
    + cbn [execute Sql.insert_task option_map Nat.pred ret].
      rewrite IH. cbn [served fails_within List.length].
      change (S j <? S (List.length rest))%nat
        with (j <? List.length rest)%nat.
      change (Nat.min (S j) (S (List.length rest)))
        with (S (Nat.min j (List.length rest))).
      cbn [firstn materialized option_map Nat.sub].
      unfold Sql.with_tasks. cbn [tasks sqlite_sequence seq_tasks entries
        targets routine_templates routine_template_tasks seq_entries
        seq_targets seq_routine_templates seq_routine_template_tasks].
      rewrite <- app_assoc. cbn [app].
      replace (seq_tasks (sqlite_sequence db) + 1
               + Z.of_nat (Nat.min j (List.length rest)))
        with (seq_tasks (sqlite_sequence db)
              + Z.of_nat (S (Nat.min j (List.length rest)))) by lia.
      reflexivity.
    + cbn [execute Sql.insert_task option_map ret].
      rewrite IH. cbn [served fails_within List.length].
      cbn [firstn materialized option_map].
      unfold Sql.with_tasks. cbn [tasks sqlite_sequence seq_tasks entries
        targets routine_templates routine_template_tasks seq_entries
        seq_targets seq_routine_templates seq_routine_template_tasks].
      rewrite <- app_assoc. cbn [app].
      replace (seq_tasks (sqlite_sequence db) + 1
               + Z.of_nat (List.length rest))
        with (seq_tasks (sqlite_sequence db)
              + Z.of_nat (S (List.length rest))) by lia.
      reflexivity.
Qed.

Lemma materialized_shape (rowid : Z) (date : text) (titles : list text) :
  List.length (materialized rowid date titles) = List.length titles /\
  map Task.title (materialized rowid date titles) = titles /\
  Forall (fun t => Task.date t = date /\ Task.completed t = 0)
    (materialized rowid date titles) /\
  Forall (fun t => rowid < Task.id t) (materialized rowid date titles).
Proof.
  revert rowid. induction titles as [|t rest IH]; intros rowid; simpl.
  - repeat split; constructor.
  - destruct (IH (rowid + 1)) as [Hlen [Htitles [Hrows Hids]]].
    repeat split.
    + rewrite Hlen. reflexivity.
    + rewrite Htitles. reflexivity.
    + constructor; [split; reflexivity|exact Hrows].
    + constructor; [simpl; lia|].
      eapply Forall_impl; [|exact Hids]. simpl. intros; lia.
Qed.

Lemma apply_template_serve (f : faults) (date : text) (templateId : option Z)
  (db : database) :
  Api.serve f (POST_apply_template date templateId) db
  = match f with
    | Some O => (InternalServerError500 SQLITE_ENGINE, db)
    | _ =>
      let f' := option_map Nat.pred f in
      let titles :=
        map RoutineTemplateTask.title
          (Sql.children_of templateId (routine_template_tasks db)) in
      let k := served f' (List.length titles) in
      let db' :=
        Sql.with_tasks db
          (tasks db
             ++ materialized (seq_tasks (sqlite_sequence db)) date
                  (firstn k titles))
          (seq_tasks (sqlite_sequence db) + Z.of_nat k) in
      if fails_within f' (List.length titles)
      then (InternalServerError500 SQLITE_ENGINE, db')
      else (Ok200 JsonSuccess, db')
    end.
Proof.
  unfold Api.serve. cbn [Api.route]. unfold Api.apply_template.
  unfold bind at 1.
  destruct f as [[|j]|]; [reflexivity| |];
    cbn [execute Sql.select_template_task_titles option_map Nat.pred];
    unfold bind at 1; rewrite insert_tasks_loop; cbv zeta;
    match goal with |- context [fails_within ?a ?b] =>
      destruct (fails_within a b) end; reflexivity.
Qed.

(** The SELECT by [template_id] answers the rows of the template, and
    those only. *)
Lemma children_are_rows_of_template (templateId : Z)
  (rows kids : list RoutineTemplateTask.t) :
  Spec.rows_of_template templateId rows kids <->
  Sql.children_of (Some templateId) rows = kids.
Proof.
  unfold Sql.children_of. split.
  - intros H. induction H; simpl.
    + reflexivity.
    + apply Z.eqb_eq in H. rewrite H, IHrows_of_template. reflexivity.
    + apply Z.eqb_neq in H. rewrite H. exact IHrows_of_template.
  - intros <-. induction rows as [|c rows IH]; simpl.
    + constructor.
    + destruct (Z.eqb_spec (RoutineTemplateTask.template_id c) templateId).
      * constructor; assumption.
      * constructor; assumption.
Qed.

(** C3.  [POST /api/apply-template] with a date and a template that has
    [n] child rows, the template tasks whose [template_id] is the
    template's, appends exactly [n] rows to [tasks], whatever [tasks]
    held: their titles are the children's titles in order, their date is
    the given one, they are not completed and their ids are new.  The
    template and its children are left as they were, and applying the
    template again appends the same [n] titles once more. *)
Theorem apply_template_appends_one_task_per_child
  (db : database) (date : text) (templateId : Z) :
  (exists children,
     Spec.rows_of_template templateId (routine_template_tasks db) children) /\
  forall children : list RoutineTemplateTask.t,
  Spec.rows_of_template templateId (routine_template_tasks db) children ->
  let r := POST_apply_template date (Some templateId) in
  let db' := Api.store_after None r db in
  let db'' := Api.store_after None r db' in
  Api.answer None r db = Ok200 JsonSuccess /\
  Api.answer None r db' = Ok200 JsonSuccess /\
  routine_templates db' = routine_templates db /\
  routine_template_tasks db' = routine_template_tasks db /\
  entries db' = entries db /\
  targets db' = targets db /\
  exists new again : list Task.t,
    tasks db' = tasks db ++ new /\
    tasks db'' = tasks db ++ new ++ again /\
    List.length new = List.length children /\
    List.length again = List.length children /\
    map Task.title new = map RoutineTemplateTask.title children /\
    map Task.title again = map RoutineTemplateTask.title children /\
    Forall (fun t => Task.date t = date /\ Task.completed t = 0)
      (new ++ again) /\
    Forall (fun t => seq_tasks (sqlite_sequence db) < Task.id t)
      (new ++ again).
Proof.
  split.
  { eexists. apply children_are_rows_of_template. reflexivity. }
  intros children Hkids. apply children_are_rows_of_template in Hkids.
  subst children. intros r db' db''.
  set (children :=
         Sql.children_of (Some templateId) (routine_template_tasks db)).
  assert (E1 : Api.serve None r db
               = (Ok200 JsonSuccess,
                  Sql.with_tasks db
                    (tasks db
                       ++ materialized (seq_tasks (sqlite_sequence db)) date
                            (map RoutineTemplateTask.title children))
                    (seq_tasks (sqlite_sequence db)
                     + Z.of_nat (List.length children)))).
  { unfold r. rewrite apply_template_serve. cbn.
    fold children. rewrite firstn_all, length_map. reflexivity. }
  assert (Hdb' : db' = snd (Api.serve None r db)) by reflexivity.
  rewrite E1 in Hdb'. cbn [snd] in Hdb'.
  assert (E2 : Api.serve None r db'
               = (Ok200 JsonSuccess,
                  Sql.with_tasks db'
                    (tasks db'
                       ++ materialized (seq_tasks (sqlite_sequence db')) date
                            (map RoutineTemplateTask.title children))
                    (seq_tasks (sqlite_sequence db')
                     + Z.of_nat (List.length children)))).
  { unfold r. rewrite apply_template_serve. cbn.
    replace (routine_template_tasks db') with (routine_template_tasks db)
      by (rewrite Hdb'; reflexivity).
    fold children. rewrite firstn_all, length_map. reflexivity. }
  assert (Hdb'' : db'' = snd (Api.serve None r db')) by reflexivity.
  rewrite E2 in Hdb''. cbn [snd] in Hdb''.
  unfold Api.answer. rewrite E1, E2. cbn [fst].
  do 2 (split; [reflexivity|]).
  do 4 (split; [rewrite Hdb'; reflexivity|]).
  set (titles := map RoutineTemplateTask.title children) in *.
  set (s := seq_tasks (sqlite_sequence db)) in *.
  set (s' := seq_tasks (sqlite_sequence db')) in *.
  assert (Hs' : s' = s + Z.of_nat (List.length children)).
  { unfold s'. rewrite Hdb'. reflexivity. }
  exists (materialized s date titles), (materialized s' date titles).
  destruct (materialized_shape s date titles) as [L1 [T1 [R1 I1]]].
  destruct (materialized_shape s' date titles) as [L2 [T2 [R2 I2]]].
  split; [rewrite Hdb'; reflexivity|].
  split; [rewrite Hdb''; cbn [tasks Sql.with_tasks]; rewrite Hdb' at 1;
          cbn [tasks Sql.with_tasks]; rewrite <- app_assoc; reflexivity|].
  unfold titles in L1, L2. rewrite length_map in L1, L2.
  repeat apply conj; trivial.
  - apply Forall_app. split; assumption.
  - apply Forall_app. split; [assumption|].
    eapply Forall_impl; [|exact I2]. cbv beta. intros t Ht. lia.
Qed.

(** ** Routine templates *)

Lemma name_taken (db : database) (name : string) :
  (exists t, In t (routine_templates db) /\
             RoutineTemplate.name t = Some name) ->
  existsb (fun t => text_eqb (RoutineTemplate.name t) (Some name))
    (routine_templates db) = true.
Proof.
  intros [t [Hin Hname]]. apply existsb_exists. exists t.
  split; [exact Hin|]. rewrite Hname. apply text_eqb_some.
Qed.

(** C10.  [POST /api/routine-templates] with the name of an existing
    template fails at the INSERT of the template, on the UNIQUE constraint
    of [name] when the engine is healthy, and the request answers 500 with
    the store as it found it: no template row, no child row. *)
Theorem duplicate_template_name_leaves_store
  (db : database) (name : string) (tasks : option (list text)) (f : faults)
  (Hdup : exists t, In t (routine_templates db) /\
                    RoutineTemplate.name t = Some name) :
  let r := POST_routine_templates (Some name) tasks in
  Api.serve None r db = (InternalServerError500 SQLITE_CONSTRAINT_UNIQUE, db) /\
  (exists e, Api.serve f r db = (InternalServerError500 e, db)) /\
  routine_templates (Api.store_after f r db) = routine_templates db /\
  routine_template_tasks (Api.store_after f r db) = routine_template_tasks db.
Proof.
  intros r. apply name_taken in Hdup.
  assert (Hnone : Api.serve None r db
                  = (InternalServerError500 SQLITE_CONSTRAINT_UNIQUE, db)).
  { unfold Api.serve. cbn [Api.route r]. unfold Api.post_routine_templates.
    unfold bind at 1. unfold execute, Sql.insert_routine_template.
    rewrite Hdup. reflexivity. }
  assert (Hany : exists e, Api.serve f r db = (InternalServerError500 e, db)).
  { destruct f as [[|j]|].
    - exists SQLITE_ENGINE. reflexivity.
    - exists SQLITE_CONSTRAINT_UNIQUE.
      unfold Api.serve. cbn [Api.route r]. unfold Api.post_routine_templates.
      unfold bind at 1. unfold execute, Sql.insert_routine_template.
      rewrite Hdup. reflexivity.
    - exists SQLITE_CONSTRAINT_UNIQUE. exact Hnone. }
  split; [exact Hnone|]. split; [exact Hany|].
  destruct Hany as [e He]. unfold Api.store_after. rewrite He.
  split; reflexivity.
Qed.

Lemma has_parent_more (templates extra : list RoutineTemplate.t)
  (c : RoutineTemplateTask.t) :
  has_parent templates c -> has_parent (templates ++ extra) c.
Proof.
  intros [t [Hin Hid]]. exists t. split; [|exact Hid].
  apply in_or_app. left. exact Hin.
Qed.

Lemma cascaded_true (deleted : list RoutineTemplate.t)
  (c : RoutineTemplateTask.t) :
  Sql.cascaded deleted c = true <->
  exists t, In t deleted /\
            RoutineTemplate.id t = RoutineTemplateTask.template_id c.
Proof.
  unfold Sql.cascaded, foreign_keys. cbn [andb].
  rewrite existsb_exists. split; intros [t [Hin H]]; exists t;
    (split; [exact Hin|]); apply Z.eqb_eq; exact H.
Qed.

Lemma delete_keeps_parents (id : Z) (templates : list RoutineTemplate.t)
  (c : RoutineTemplateTask.t) :
  has_parent templates c ->
  Sql.cascaded (filter (fun t => RoutineTemplate.id t =? id) templates) c
  = false ->
  has_parent (filter (fun t => negb (RoutineTemplate.id t =? id)) templates) c.
Proof.
  intros [t [Hin Hid]] Hc. exists t. split; [|exact Hid].
  apply filter_In. split; [exact Hin|].
  destruct (RoutineTemplate.id t =? id) eqn:E; [|reflexivity].
  assert (Sql.cascaded
            (filter (fun t => RoutineTemplate.id t =? id) templates) c = true).
  { apply cascaded_true. exists t. split; [|exact Hid].
    apply filter_In. split; assumption. }
  congruence.
Qed.

Lemma delete_template_store (id : Z) (db : database) :
  Api.serve None (DELETE_routine_template id) db
  = (Ok200 JsonSuccess,
     Sql.with_routine_templates db
       (filter (fun t => negb (RoutineTemplate.id t =? id))
          (routine_templates db))
       (filter
          (fun c =>
             negb (Sql.cascaded
                     (filter (fun t => RoutineTemplate.id t =? id)
                        (routine_templates db)) c))
          (routine_template_tasks db))
       (seq_routine_templates (sqlite_sequence db))).
Proof. reflexivity. Qed.

Lemma no_orphans_kept : kept_by_statements no_orphans.
Proof.
  split; try (intros; reads_only);
    try (intros; intros db a db' HP H; cbv beta delta
           [Sql.upsert_entry Sql.insert_target Sql.update_target_completed
            Sql.delete_target Sql.insert_task Sql.update_task_completed
            Sql.delete_task] in H;
         injection H as _ <-; exact HP).
  - intros n db a db' HP H. unfold Sql.insert_routine_template in H.
    destruct (existsb _ _); [discriminate|]. injection H as _ <-.
    unfold no_orphans in *. cbn. eapply Forall_impl; [|exact HP].
    intros c. apply has_parent_more.
  - intros i t db a db' HP H. unfold Sql.insert_routine_template_task in H.
    destruct (existsb _ _) eqn:E; cbn in H; [|discriminate].
    injection H as _ <-. unfold no_orphans in *. cbn.
    apply Forall_app. split; [exact HP|]. constructor; [|constructor].
    apply existsb_exists in E as [p [Hin Hid]]. exists p.
    split; [exact Hin|]. apply Z.eqb_eq. exact Hid.
  - intros i db a db' HP H. injection H as _ <-.
    unfold no_orphans in *. cbn. rewrite Forall_forall in *.
    intros c Hc. apply filter_In in Hc as [Hin Hc].
    apply negb_true_iff in Hc.
    apply delete_keeps_parents; [apply HP; exact Hin|exact Hc].
Qed.

Lemma reachable_no_orphans (db : database) :
  reachable db -> no_orphans db.
Proof.
  revert db.
  apply reachable_ind_statements; [constructor|exact no_orphans_kept].
Qed.

(** C2.  In every store the API can reach, each row of
    [routine_template_tasks] belongs to a template that exists.  From such
    a store [DELETE /api/routine-templates/:id] answers success and leaves
    no template of that id and no child row with that [template_id], so
    that reading the children of the template gives the empty list and the
    list of templates shows neither the template nor a child of it; the
    children of the other templates stay, and still none is an orphan. *)
Theorem delete_template_removes_children
  (db : database) (Hreach : reachable db) :
  no_orphans db /\
  forall id : Z,
    let db' := Api.store_after None (DELETE_routine_template id) db in
    Api.answer None (DELETE_routine_template id) db = Ok200 JsonSuccess /\
    (forall t, In t (routine_templates db') -> RoutineTemplate.id t <> id) /\
    (forall c, In c (routine_template_tasks db') ->
               RoutineTemplateTask.template_id c <> id) /\
    Sql.select_template_tasks (Some id) db' = inr ([], db') /\
    (exists rows,
       Api.answer None GET_routine_templates db' = Ok200 (JsonTemplates rows) /\
       forall t children, In (t, children) rows ->
         RoutineTemplate.id t <> id /\
         forall c, In c children -> RoutineTemplateTask.template_id c <> id) /\
    (forall c, In c (routine_template_tasks db) ->
               RoutineTemplateTask.template_id c <> id ->
               In c (routine_template_tasks db')) /\
    no_orphans db'.
Proof.
  split; [apply reachable_no_orphans; exact Hreach|].
  intros id db'.
  assert (Hgone : forall c, In c (routine_template_tasks db') ->
                            RoutineTemplateTask.template_id c <> id).
  { intros c Hc Hid. unfold db', Api.store_after in Hc.
    rewrite delete_template_store in Hc.
    cbn [snd routine_template_tasks Sql.with_routine_templates] in Hc.
    apply filter_In in Hc as [Hin Hc]. apply negb_true_iff in Hc.
    pose proof (reachable_no_orphans db Hreach) as Hdb.
    unfold no_orphans in Hdb.
    rewrite Forall_forall in Hdb. destruct (Hdb c Hin) as [t [Ht Htid]].
    assert (Sql.cascaded
              (filter (fun t => RoutineTemplate.id t =? id)
                 (routine_templates db)) c = true).
    { apply cascaded_true. exists t. split; [|exact Htid].
      apply filter_In. split; [exact Ht|]. apply Z.eqb_eq. congruence. }
    congruence. }
  assert (Hparent : forall t, In t (routine_templates db') ->
                              RoutineTemplate.id t <> id).
  { intros t Ht. unfold db', Api.store_after in Ht.
    rewrite delete_template_store in Ht.
    cbn [snd routine_templates Sql.with_routine_templates] in Ht.
    apply filter_In in Ht as [_ Ht]. apply negb_true_iff in Ht.
    apply Z.eqb_neq. exact Ht. }
  split; [reflexivity|].
  split; [exact Hparent|split; [exact Hgone|split; [|split; [|split]]]].
  - unfold Sql.select_template_tasks, Sql.children_of.
    rewrite filter_no_match; [reflexivity|].
    intros c Hc. apply Z.eqb_neq. apply Hgone. exact Hc.
  - eexists. split.
    + unfold Api.answer, Api.serve. cbn [Api.route].
      unfold Api.get_routine_templates.
      unfold bind at 1. cbn [execute Sql.select_routine_templates option_map].
      unfold bind at 1. rewrite nested_children_healthy. reflexivity.
    + intros t children Hin.
      apply in_map_iff in Hin as [t0 [Heq Ht0]]. injection Heq as -> <-.
      split; [apply Hparent; exact Ht0|].
      intros c Hc. apply filter_In in Hc as [Hc _]. apply Hgone. exact Hc.
  - intros c Hin Hne. unfold db', Api.store_after.
    rewrite delete_template_store.
    cbn [snd routine_template_tasks Sql.with_routine_templates].
    apply filter_In.
    split; [exact Hin|]. apply negb_true_iff.
    destruct (Sql.cascaded _ c) eqn:E; [|reflexivity].
    apply cascaded_true in E as [t [Ht Hid]].
    apply filter_In in Ht as [_ Ht]. apply Z.eqb_eq in Ht. congruence.
  - apply reachable_no_orphans. apply reachable_serve. exact Hreach.
Qed.

(** ** Requests that the engine fails midway *)

(** The claim of C4 fails for apply-template: on the store holding the
    template "Morning" with two children, an engine failure at the second
    INSERT leaves one of the two task rows written. *)
Lemma apply_template_not_all_or_nothing :
  ~ all_or_nothing
      (POST_apply_template (Some "2024-02-02"%string) (Some 1))
      morning_routine (Some 2%nat).
Proof.
  unfold all_or_nothing. vm_compute. intros [H|H]; discriminate H.
Qed.

(** C4, as the code has it.  Deleting a template is one DELETE statement
    and is all-or-nothing: the parent row and its cascaded children go
    together, or the store is untouched.  Applying a template reads the
    child titles and then runs one INSERT per title, each committed on its
    own: when the engine fails a statement, the request answers 500 and
    the task rows of the titles before the failed INSERT stay written.  It
    is all-or-nothing when no statement fails, or the read or the first
    INSERT does.  Neither request, failed or not, leaves a child row
    without its template. *)
Theorem delete_is_atomic_apply_writes_a_prefix
  (db : database) (date : text) (templateId : option Z) (id : Z)
  (f : faults) :
  let titles :=
    map RoutineTemplateTask.title
      (Sql.children_of templateId (routine_template_tasks db)) in
  let inserts := option_map Nat.pred f in
  let written := served inserts (List.length titles) in
  let db' := Api.store_after f (POST_apply_template date templateId) db in
  all_or_nothing (DELETE_routine_template id) db f /\
  Api.answer f (DELETE_routine_template id) db
  = (if fails_within f 1 then InternalServerError500 SQLITE_ENGINE
     else Ok200 JsonSuccess) /\
  tasks db'
  = tasks db
      ++ materialized (seq_tasks (sqlite_sequence db)) date
           (firstn written titles) /\
  List.length (tasks db') = (List.length (tasks db) + written)%nat /\
  Api.answer f (POST_apply_template date templateId) db
  = (if fails_within f (S (List.length titles))
     then InternalServerError500 SQLITE_ENGINE
     else Ok200 JsonSuccess) /\
  (written = O \/ written = List.length titles ->
   all_or_nothing (POST_apply_template date templateId) db f) /\
  (reachable db ->
   no_orphans (Api.store_after f (DELETE_routine_template id) db) /\
   no_orphans db').
Proof.
  intros titles inserts written db'.
  assert (Hserve := apply_template_serve f date templateId db).
  cbv zeta in Hserve. fold titles inserts written in Hserve.
  assert (Hhealthy := apply_template_serve None date templateId db).
  cbv zeta in Hhealthy. cbn [option_map served fails_within] in Hhealthy.
  fold titles in Hhealthy. rewrite firstn_all in Hhealthy.
  assert (Hprefix :
    tasks db' = tasks db
      ++ materialized (seq_tasks (sqlite_sequence db)) date
           (firstn written titles)).
  { unfold db', Api.store_after. rewrite Hserve.
    destruct f as [[|j]|].
    - unfold written, inserts. cbn. rewrite app_nil_r. reflexivity.
    - destruct (fails_within inserts (List.length titles)); reflexivity.
    - destruct (fails_within inserts (List.length titles)); reflexivity. }
  split; [|split; [|split; [|split; [|split; [|split]]]]].
  7: { intros Hreach.
       split; apply reachable_no_orphans; apply reachable_serve; exact Hreach. }
  - unfold all_or_nothing, Api.store_after.
    destruct f as [[|j]|]; [left|right|right]; reflexivity.
  - destruct f as [[|j]|]; reflexivity.
  - exact Hprefix.
  - rewrite Hprefix, length_app.
    destruct (materialized_shape (seq_tasks (sqlite_sequence db)) date
                (firstn written titles)) as [L _].
    rewrite L, length_firstn. unfold written, served.
    destruct inserts; lia.
  - unfold Api.answer. rewrite Hserve.
    destruct f as [[|j]|]; [reflexivity| |].
    + unfold inserts. cbn [option_map Nat.pred fails_within].
      change (S j <? S (List.length titles))%nat
        with (j <? List.length titles)%nat.
      destruct (j <? List.length titles)%nat; reflexivity.
    + reflexivity.
  - unfold all_or_nothing, db', Api.store_after in *.
    rewrite Hserve, Hhealthy. intros [Hw|Hw].
    + left. destruct f as [[|j]|]; [reflexivity| |];
        rewrite Hw; cbn [firstn materialized Z.of_nat];
        rewrite app_nil_r, Z.add_0_r, with_tasks_same;
        destruct (fails_within inserts (List.length titles)); reflexivity.
    + right. destruct f as [[|j]|].
      * assert (Hnil : titles = []).
        { apply length_zero_iff_nil. unfold written, inserts in Hw.
          cbn in Hw. symmetry. exact Hw. }
        rewrite Hnil. cbn.
        rewrite app_nil_r, Z.add_0_r, with_tasks_same. reflexivity.
      * rewrite Hw, firstn_all.
        destruct (fails_within inserts (List.length titles)); reflexivity.
      * unfold written, inserts. cbn [option_map served fails_within].
        rewrite firstn_all. reflexivity.
Qed.

(** ** The scenarios of the specification, run on the model *)

Example saved_entry_is_read_back :
  Api.answer None (GET_entry "2024-01-01")
    (Api.store_after None (POST_entries second_save) empty_database)
  = Ok200 (JsonEntry
             (Entry.Build 1 (Some "2024-01-01"%string)
                (Some "hello again"%string) (Some "Peaceful"%string)
                (Some "23:00"%string) (Some "07:00"%string)
                (Some "{}"%string) None)).
Proof. reflexivity. Qed.

Example morning_applied_tasks :
  Api.answer None (POST_routine_templates (Some "Morning"%string)
                     (Some [Some "Stretch"%string; Some "Hydrate"%string]))
    empty_database = Ok200 (JsonId 1) /\
  Api.answer None (GET_tasks "2024-02-02") morning_applied
  = Ok200 (JsonTasks
             [Task.Build 1 (Some "2024-02-02"%string) (Some "Stretch"%string) 0;
              Task.Build 2 (Some "2024-02-02"%string) (Some "Hydrate"%string) 0]).
Proof. split; reflexivity. Qed.

Example second_insert_fails_midway :
  Api.serve (Some 2%nat)
    (POST_apply_template (Some "2024-02-02"%string) (Some 1)) morning_routine
  = (InternalServerError500 SQLITE_ENGINE,
     Sql.with_tasks morning_routine
       [Task.Build 1 (Some "2024-02-02"%string) (Some "Stretch"%string) 0] 1).
Proof. reflexivity. Qed.

Lemma saved_twice_reachable : reachable saved_twice.
Proof. do 2 apply reachable_serve. apply reachable_empty. Qed.

Lemma morning_routine_reachable : reachable morning_routine.
Proof. apply reachable_serve. apply reachable_empty. Qed.

(** ** The theorems at concrete stores *)


Lemma entries_date_unique_witness :
  reachable saved_twice /\ at_most_one_entry_per_date saved_twice.
Proof.
  split; [exact saved_twice_reachable|].
  exact (proj1 (entries_date_unique saved_twice saved_twice_reachable)).
Defined.

Lemma delete_template_witness :
  reachable morning_routine /\
  no_orphans morning_routine /\
  Sql.select_template_tasks (Some 1)
    (Api.store_after None (DELETE_routine_template 1) morning_routine)
  = inr ([], Api.store_after None (DELETE_routine_template 1) morning_routine).
Proof.
  split; [exact morning_routine_reachable|].
  destruct (delete_template_removes_children morning_routine
              morning_routine_reachable) as [Hinv Hdel].
  split; [exact Hinv|].
  destruct (Hdel 1) as [_ [_ [_ [Hsel _]]]]. exact Hsel.
Defined.

Lemma duplicate_template_name_witness :
  (exists t, In t (routine_templates morning_routine) /\
             RoutineTemplate.name t = Some "Morning"%string) /\
  Api.serve None
    (POST_routine_templates (Some "Morning"%string)
       (Some [Some "Run"%string])) morning_routine
  = (InternalServerError500 SQLITE_CONSTRAINT_UNIQUE, morning_routine).
Proof.
  assert (H : exists t, In t (routine_templates morning_routine) /\
                        RoutineTemplate.name t = Some "Morning"%string).
  { exists (RoutineTemplate.Build 1 (Some "Morning"%string)).
    split; [left; reflexivity|reflexivity]. }
  split; [exact H|].
  exact (proj1 (duplicate_template_name_leaves_store morning_routine
                  "Morning" (Some [Some "Run"%string]) None H)).
Defined.

Lemma get_without_match_witness :
  (forall e, In e (entries empty_database) ->
             Entry.date e <> Some "2024-01-01"%string) /\
  Api.serve None (GET_entry "2024-01-01") empty_database
  = (Ok200 JsonNull, empty_database).
Proof.
  assert (H : forall e, In e (entries empty_database) ->
                        Entry.date e <> Some "2024-01-01"%string).
  { intros e []. }
  split; [exact H|].
  exact (proj1 (get_without_match_answers_empty empty_database
                  "2024-01-01" "2024-01") H).
Defined.

Lemma apply_fails_at_first_insert_witness :
  (served (option_map Nat.pred (Some 1%nat)) 2 = O \/
   served (option_map Nat.pred (Some 1%nat)) 2 = 2%nat) /\
  reachable morning_routine /\
  all_or_nothing (POST_apply_template (Some "2024-02-02"%string) (Some 1))
    morning_routine (Some 1%nat) /\
  no_orphans
    (Api.store_after (Some 1%nat)
       (POST_apply_template (Some "2024-02-02"%string) (Some 1))
       morning_routine).
Proof.
  split; [left; reflexivity|].
  split; [exact morning_routine_reachable|].
  destruct (delete_is_atomic_apply_writes_a_prefix morning_routine
              (Some "2024-02-02"%string) (Some 1) 1 (Some 1%nat))
    as [_ [_ [_ [_ [_ [Hatomic Hchildren]]]]]].
  split; [exact (Hatomic (or_introl eq_refl))|].
  exact (proj2 (Hchildren morning_routine_reachable)).
Defined.

Lemma get_entries_three_days_witness :
  map Entry.date (entries three_days)
  = [Some "2024-01-02"%string; Some "2024-01-03"%string;
     Some "2024-01-01"%string] /\
  Forall (fun e => Spec.zero_padded (Entry.date e) = true)
    (entries three_days) /\
  exists rows : list Entry.t,
    Api.answer None GET_entries three_days = Ok200 (JsonEntries rows) /\
    map Entry.date rows
    = [Some "2024-01-03"%string; Some "2024-01-02"%string;
       Some "2024-01-01"%string] /\
    Spec.newest_first rows.
Proof.
  split; [reflexivity|].
  assert (Hpadded : Forall (fun e => Spec.zero_padded (Entry.date e) = true)
                      (entries three_days))
    by (repeat constructor).
  split; [exact Hpadded|].
  destruct (get_entries_newest_first three_days)
    as [rows [Hserve [_ [_ [_ Hnewest]]]]].
  exists rows.
  split; [unfold Api.answer; rewrite Hserve; reflexivity|].
  split; [|exact (Hnewest Hpadded)].
  vm_compute in Hserve. injection Hserve as <-. reflexivity.
Defined.

Lemma apply_morning_template_witness :
  Spec.rows_of_template 1 (routine_template_tasks morning_routine)
    [RoutineTemplateTask.Build 1 1 (Some "Stretch"%string);
     RoutineTemplateTask.Build 2 1 (Some "Hydrate"%string)] /\
  tasks morning_routine = [] /\
  Api.answer None (POST_apply_template (Some "2024-02-02"%string) (Some 1))
    morning_routine = Ok200 JsonSuccess /\
  tasks morning_applied
  = [Task.Build 1 (Some "2024-02-02"%string) (Some "Stretch"%string) 0;
     Task.Build 2 (Some "2024-02-02"%string) (Some "Hydrate"%string) 0] /\
  exists new again : list Task.t,
    tasks morning_applied = new /\
    tasks (Api.store_after None
             (POST_apply_template (Some "2024-02-02"%string) (Some 1))
             morning_applied) = new ++ again /\
    List.length new = 2%nat /\
    List.length again = 2%nat /\
    map Task.title new = [Some "Stretch"%string; Some "Hydrate"%string] /\
    map Task.title again = [Some "Stretch"%string; Some "Hydrate"%string].
Proof.
  assert (Hkids : Spec.rows_of_template 1
                    (routine_template_tasks morning_routine)
                    [RoutineTemplateTask.Build 1 1 (Some "Stretch"%string);
                     RoutineTemplateTask.Build 2 1 (Some "Hydrate"%string)]).
  { do 2 (apply Spec.row_of_the_template; [reflexivity|]).
    apply Spec.no_row_left. }
  split; [exact Hkids|]. split; [reflexivity|].
  pose proof (proj2 (apply_template_appends_one_task_per_child morning_routine
                       (Some "2024-02-02"%string) 1) _ Hkids) as H.
  cbv zeta in H.
  destruct H as [Hok [_ [_ [_ [_ [_ [new [again [Hnew [Hagain
                  [Hlen [Hlen' [Htitles [Htitles' _]]]]]]]]]]]]]].
  split; [exact Hok|]. split; [reflexivity|].
  exists new, again.
  split; [exact Hnew|]. split; [exact Hagain|].
  split; [exact Hlen|]. split; [exact Hlen'|].
  split; [exact Htitles|exact Htitles'].
Defined.

Lemma patch_completed_witness :
  Api.repeat_request 3 (PATCH_task 1 (Js.JBool true)) morning_applied
  = Api.store_after None (PATCH_task 1 (Js.JBool true)) morning_applied /\
  Api.repeat_request 3 (PATCH_target 1 (Js.JBool true)) morning_applied
  = Api.store_after None (PATCH_target 1 (Js.JBool true)) morning_applied.
Proof.
  destruct (patch_completed_idempotent_and_local morning_applied 1
              (Js.JBool true) 2) as [[Htask _] [Htarget _]].
  split; [exact Htask|exact Htarget].
Defined.

Lemma patch_stores_one_then_zero_witness :
  Spec.ToBoolean (Js.JString "yes") true /\
  Spec.ToBoolean Js.JUndefined false /\
  tasks morning_applied
  = [Task.Build 1 (Some "2024-02-02"%string) (Some "Stretch"%string) 0;
     Task.Build 2 (Some "2024-02-02"%string) (Some "Hydrate"%string) 0] /\
  (forall t, In t (tasks (Api.store_after None
                            (PATCH_task 2 (Js.JString "yes")) morning_applied)) ->
             Task.id t = 2 -> Task.completed t = 1) /\
  tasks (Api.store_after None (PATCH_task 2 (Js.JString "yes"))
           morning_applied)
  = [Task.Build 1 (Some "2024-02-02"%string) (Some "Stretch"%string) 0;
     Task.Build 2 (Some "2024-02-02"%string) (Some "Hydrate"%string) 1] /\
  (forall t, In t (tasks (Api.store_after None (PATCH_task 2 Js.JUndefined)
                            (Api.store_after None
                               (PATCH_task 2 (Js.JString "yes"))
                               morning_applied))) ->
             Task.id t = 2 -> Task.completed t = 0).
Proof.
  assert (Hyes : Spec.ToBoolean (Js.JString "yes") true)
    by (constructor; discriminate).
  split; [exact Hyes|].
  split; [constructor|].
  split; [reflexivity|].
  split;
    [exact (proj1 (proj2 (patch_stores_zero_or_one morning_applied 2
                            (Js.JString "yes")) true Hyes))|].
  split; [reflexivity|].
  exact (proj1 (proj2 (patch_stores_zero_or_one
                         (Api.store_after None
                            (PATCH_task 2 (Js.JString "yes")) morning_applied)
                         2 Js.JUndefined) false Spec.undefined_is_falsy)).
Defined.

(** * Further properties of the handlers *)

(** ** Invariants of every handler *)

Lemma route_keeps_bound (P : database -> Prop) (r : request) :
  kept_by_bound_statements P -> keeps P (Api.route r).
Proof.
  intros K. destruct K.
  destruct r as [d|p| |p|a b c|i c|i|d|d t|i c|i| |n ts|i|d i]; simpl;
    unfold Api.get_entry, Api.post_entries, Api.get_entries, Api.get_targets,
      Api.post_targets, Api.patch_target, Api.delete_target, Api.get_tasks,
      Api.post_tasks, Api.patch_task, Api.delete_task,
      Api.get_routine_templates, Api.post_routine_templates,
      Api.delete_routine_template, Api.apply_template;
    try destruct ts;
    repeat keeps_step; auto.
Qed.

Lemma reachable_ind_bound (P : database -> Prop) :
  P empty_database -> kept_by_bound_statements P ->
  forall db, reachable db -> P db.
Proof.
  intros H0 K db R. induction R as [|f r db R IH].
  - exact H0.
  - rewrite store_after_final. apply route_keeps_bound; assumption.
Qed.

Lemma serve_all_reachable (rs : list (faults * request)) :
  forall db, reachable db -> reachable (serve_all rs db).
Proof.
  induction rs as [|[f r] rest IH]; intros db R; simpl.
  - exact R.
  - apply IH. apply reachable_serve. exact R.
Qed.

(** ** Rowids *)

Lemma rowids_below_snoc (seq : Z) (ids : list Z) :
  rowids_below seq ids -> rowids_below (seq + 1) (ids ++ [seq + 1]).
Proof.
  intros [H0 [Hnd Hall]]. split; [lia|]. split.
  - apply NoDup_app; [exact Hnd| |].
    + constructor; [intros []|constructor].
    + intros i Hi [<-|[]]. rewrite Forall_forall in Hall.
      specialize (Hall _ Hi). lia.
  - apply Forall_app. split.
    + eapply Forall_impl; [|exact Hall]. cbv beta. intros; lia.
    + constructor; [lia|constructor].
Qed.

Lemma rowids_below_bump (seq : Z) (ids : list Z) :
  rowids_below seq ids -> rowids_below (seq + 1) ids.
Proof.
  intros [H0 [Hnd Hall]]. split; [lia|]. split; [exact Hnd|].
  eapply Forall_impl; [|exact Hall]. cbv beta. intros; lia.
Qed.

Lemma NoDup_map_filter {A B : Type} (g : A -> B) (p : A -> bool)
  (l : list A) :
  NoDup (map g l) -> NoDup (map g (filter p l)).
Proof.
  induction l as [|x rest IH]; simpl; intros H; [constructor|].
  inversion H as [|? ? Hnotin Hrest]; subst.
  destruct (p x); simpl; [|apply IH; exact Hrest].
  constructor; [|apply IH; exact Hrest].
  intros Hin. apply Hnotin. apply in_map_iff in Hin as [y [Hy Hin]].
  apply filter_In in Hin as [Hin _]. apply in_map_iff. eauto.
Qed.

Lemma rowids_below_filter {A : Type} (g : A -> Z) (p : A -> bool) (seq : Z)
  (l : list A) :
  rowids_below seq (map g l) -> rowids_below seq (map g (filter p l)).
Proof.
  intros [H0 [Hnd Hall]]. split; [exact H0|]. split.
  - apply NoDup_map_filter. exact Hnd.
  - rewrite Forall_forall in *. intros i Hi.
    apply in_map_iff in Hi as [x [<- Hx]]. apply filter_In in Hx as [Hx _].
    apply Hall. apply in_map. exact Hx.
Qed.

Lemma on_conflict_date_ids (rowid : Z) (p : EntryBody.t)
  (rows : list Entry.t) :
  map Entry.id (Sql.on_conflict_date rowid p rows) = map Entry.id rows \/
  map Entry.id (Sql.on_conflict_date rowid p rows)
  = map Entry.id rows ++ [rowid].
Proof.
  induction rows as [|e rest IH]; simpl.
  - right. reflexivity.
  - destruct (text_eqb (Entry.date e) (EntryBody.date p)); simpl.
    + left. reflexivity.
    + destruct IH as [-> | ->]; [left|right]; reflexivity.
Qed.

Lemma set_task_completed_id (flag id : Z) (rows : list Task.t) :
  map Task.id (map (Sql.set_task_completed flag id) rows) = map Task.id rows.
Proof.
  rewrite map_map. apply map_ext. intros t. unfold Sql.set_task_completed.
  destruct (Task.id t =? id); reflexivity.
Qed.

Lemma set_target_completed_id (flag id : Z) (rows : list Target.t) :
  map Target.id (map (Sql.set_target_completed flag id) rows)
  = map Target.id rows.
Proof.
  rewrite map_map. apply map_ext. intros t. unfold Sql.set_target_completed.
  destruct (Target.id t =? id); reflexivity.
Qed.

Ltac five_tables :=
  split; [|split; [|split; [|split]]]; try assumption.

Lemma rowids_sound_kept : kept_by_statements rowids_sound.
Proof.
  split; try (intros; reads_only).
  - intros p db a db' HP H. injection H as _ <-.
    destruct HP as (He & Hg & Hk & Ht & Hc).
    unfold rowids_sound. cbn. five_tables.
    destruct (on_conflict_date_ids
                (seq_entries (sqlite_sequence db) + 1) p (entries db))
      as [-> | ->]; [apply rowids_below_bump|apply rowids_below_snoc];
      exact He.
  - intros x y z db a db' HP H. injection H as _ <-.
    destruct HP as (He & Hg & Hk & Ht & Hc).
    unfold rowids_sound. cbn. five_tables.
    rewrite map_app. apply rowids_below_snoc. exact Hg.
  - intros c i db a db' HP H. injection H as _ <-.
    destruct HP as (He & Hg & Hk & Ht & Hc).
    unfold rowids_sound. cbn. five_tables.
    rewrite set_target_completed_id. exact Hg.
  - intros i db a db' HP H. injection H as _ <-.
    destruct HP as (He & Hg & Hk & Ht & Hc).
    unfold rowids_sound. cbn. five_tables.
    apply rowids_below_filter. exact Hg.
  - intros d t db a db' HP H. injection H as _ <-.
    destruct HP as (He & Hg & Hk & Ht & Hc).
    unfold rowids_sound. cbn. five_tables.
    rewrite map_app. apply rowids_below_snoc. exact Hk.
  - intros c i db a db' HP H. injection H as _ <-.
    destruct HP as (He & Hg & Hk & Ht & Hc).
    unfold rowids_sound. cbn. five_tables.
    rewrite set_task_completed_id. exact Hk.
  - intros i db a db' HP H. injection H as _ <-.
    destruct HP as (He & Hg & Hk & Ht & Hc).
    unfold rowids_sound. cbn. five_tables.
    apply rowids_below_filter. exact Hk.
  - intros n db a db' HP H. unfold Sql.insert_routine_template in H.
    destruct (existsb _ _); [discriminate|]. injection H as _ <-.
    destruct HP as (He & Hg & Hk & Ht & Hc).
    unfold rowids_sound. cbn. five_tables.
    rewrite map_app. apply rowids_below_snoc. exact Ht.
  - intros i t db a db' HP H. unfold Sql.insert_routine_template_task in H.
    destruct (_ && _); [discriminate|]. injection H as _ <-.
    destruct HP as (He & Hg & Hk & Ht & Hc).
    unfold rowids_sound. cbn. five_tables.
    rewrite map_app. apply rowids_below_snoc. exact Hc.
  - intros i db a db' HP H. injection H as _ <-.
    destruct HP as (He & Hg & Hk & Ht & Hc).
    unfold rowids_sound. cbn. five_tables.
    + apply rowids_below_filter. exact Ht.
    + apply rowids_below_filter. exact Hc.
Qed.

Lemma reachable_rowids_sound (db : database) :
  reachable db -> rowids_sound db.
Proof.
  revert db. apply reachable_ind_statements; [|exact rowids_sound_kept].
  unfold rowids_sound, rowids_below. cbn.
  repeat split; try lia; constructor.
Qed.

Lemma sequences_le_refl (s : sequences) : sequences_le s s.
Proof. unfold sequences_le. repeat split; lia. Qed.

Lemma sequences_le_kept (s0 : sequences) :
  kept_by_statements (fun db => sequences_le s0 (sqlite_sequence db)).
Proof.
  split; try (intros; reads_only);
    try (intros; intros db a db' HP H; cbv beta delta
           [Sql.update_target_completed Sql.delete_target
            Sql.update_task_completed Sql.delete_task
            Sql.delete_routine_template] in H;
         injection H as _ <-;
         unfold sequences_le in *; cbn; destruct (sqlite_sequence db);
         cbn in *; exact HP).
  - intros p db a db' HP H. injection H as _ <-.
    unfold sequences_le in *. cbn. repeat split; try apply HP.
    destruct HP as (? & _). lia.
  - intros x y z db a db' HP H. injection H as _ <-.
    unfold sequences_le in *. cbn. repeat split; try apply HP.
    destruct HP as (_ & ? & _). lia.
  - intros d t db a db' HP H. injection H as _ <-.
    unfold sequences_le in *. cbn. repeat split; try apply HP.
    destruct HP as (_ & _ & ? & _). lia.
  - intros n db a db' HP H. unfold Sql.insert_routine_template in H.
    destruct (existsb _ _); [discriminate|]. injection H as _ <-.
    unfold sequences_le in *. cbn. repeat split; try apply HP.
    destruct HP as (_ & _ & _ & ? & _). lia.
  - intros i t db a db' HP H. unfold Sql.insert_routine_template_task in H.
    destruct (_ && _); [discriminate|]. injection H as _ <-.
    unfold sequences_le in *. cbn. repeat split; try apply HP.
    destruct HP as (_ & _ & _ & _ & ?). lia.
Qed.

Lemma sequences_le_serve (f : faults) (r : request) (db : database) :
  sequences_le (sqlite_sequence db)
    (sqlite_sequence (Api.store_after f r db)).
Proof.
  rewrite store_after_final.
  apply (route_keeps _ r (sequences_le_kept (sqlite_sequence db))).
  apply sequences_le_refl.
Qed.

Lemma sequences_le_serve_all (rs : list (faults * request)) :
  forall db,
    sequences_le (sqlite_sequence db) (sqlite_sequence (serve_all rs db)).
Proof.
  induction rs as [|[f r] rest IH]; intros db; simpl.
  - apply sequences_le_refl.
  - specialize (IH (Api.store_after f r db)).
    pose proof (sequences_le_serve f r db) as H.
    unfold sequences_le in *. repeat split; lia.
Qed.

Lemma at_most_one_with_id {A : Type} (g : A -> Z) (i : Z) (l : list A) :
  NoDup (map g l) ->
  (List.length (filter (fun x => (g x =? i)%Z) l) <= 1)%nat.
Proof.
  induction l as [|x rest IH]; simpl; intros H; [lia|].
  inversion H as [|? ? Hnotin Hrest]; subst.
  destruct (g x =? i) eqn:E; simpl; [|apply IH; exact Hrest].
  rewrite filter_no_match; [simpl; lia|].
  intros y Hy. apply Z.eqb_neq. intros Hyi. apply Hnotin.
  apply Z.eqb_eq in E. rewrite E, <- Hyi. apply in_map. exact Hy.
Qed.

Lemma morning_applied_reachable : reachable morning_applied.
Proof. apply reachable_serve. exact morning_routine_reachable. Qed.

(** X1.  In every store the API can reach, the ids of a table are pairwise
    different and lie between 1 and the table's AUTOINCREMENT counter: an
    id names at most one target, one task, one template and one template
    task. *)
Theorem reachable_ids_name_one_row (db : database) (Hreach : reachable db) :
  rowids_sound db /\
  forall id : Z,
    (List.length (filter (fun t => (Target.id t =? id)%Z) (targets db)) <= 1 /\
     List.length (filter (fun t => (Task.id t =? id)%Z) (tasks db)) <= 1 /\
     List.length (filter (fun t => (RoutineTemplate.id t =? id)%Z)
                    (routine_templates db)) <= 1 /\
     List.length (filter (fun c => (RoutineTemplateTask.id c =? id)%Z)
                    (routine_template_tasks db)) <= 1)%nat.
Proof.
  pose proof (reachable_rowids_sound db Hreach) as Hs.
  split; [exact Hs|].
  destruct Hs as (_ & (_ & Hg & _) & (_ & Hk & _) & (_ & Ht & _)
                    & (_ & Hc & _)).
  intros id. repeat split; apply at_most_one_with_id; assumption.
Qed.

Lemma post_tasks_answer (f : faults) (date title : text) (db : database)
  (id : Z) :
  Api.answer f (POST_tasks date title) db = Ok200 (JsonId id) ->
  id = seq_tasks (sqlite_sequence db) + 1.
Proof.
  unfold Api.answer, Api.serve. cbn [Api.route]. unfold Api.post_tasks.
  unfold bind, execute, ret. destruct f as [[|j]|]; cbn; intros H;
    [discriminate| |]; injection H as <-; reflexivity.
Qed.

Lemma post_targets_answer (f : faults) (type title period_key : text)
  (db : database) (id : Z) :
  Api.answer f (POST_targets type title period_key) db = Ok200 (JsonId id) ->
  id = seq_targets (sqlite_sequence db) + 1.
Proof.
  unfold Api.answer, Api.serve. cbn [Api.route]. unfold Api.post_targets.
  unfold bind, execute, ret. destruct f as [[|j]|]; cbn; intros H;
    [discriminate| |]; injection H as <-; reflexivity.
Qed.

Lemma post_routine_templates_answer (f : faults) (name : text)
  (tasks : option (list text)) (db : database) (id : Z) :
  Api.answer f (POST_routine_templates name tasks) db = Ok200 (JsonId id) ->
  id = seq_routine_templates (sqlite_sequence db) + 1.
Proof.
  unfold Api.answer, Api.serve. cbn [Api.route].
  unfold Api.post_routine_templates. unfold bind at 1.
  unfold execute, Sql.insert_routine_template.
  destruct f as [[|j]|]; cbn [fst]; try discriminate;
    destruct (existsb _ _); cbn [fst]; try discriminate;
    (destruct tasks as [titles|]; [|discriminate]);
    unfold bind at 1;
    match goal with |- context [for_of ?a ?b ?c ?d] =>
      destruct (for_of a b c d) end; cbn; intros H;
    try discriminate; injection H as <-; reflexivity.
Qed.

(** X2.  An id is never given out twice.  Whatever requests are served
    after a row was seen in a reachable store, and whether or not the row
    was deleted in between, the id that a later [POST /api/tasks],
    [POST /api/targets] or [POST /api/routine-templates] answers is larger
    than the id of that row. *)
Theorem created_id_is_above_every_earlier_id
  (db : database) (Hreach : reachable db)
  (rs : list (faults * request)) (f : faults) (id : Z) :
  let later := serve_all rs db in
  (forall date title,
     Api.answer f (POST_tasks date title) later = Ok200 (JsonId id) ->
     forall t, In t (tasks db) -> Task.id t < id) /\
  (forall type title period_key,
     Api.answer f (POST_targets type title period_key) later
     = Ok200 (JsonId id) ->
     forall t, In t (targets db) -> Target.id t < id) /\
  (forall name tasks,
     Api.answer f (POST_routine_templates name tasks) later
     = Ok200 (JsonId id) ->
     forall t, In t (routine_templates db) -> RoutineTemplate.id t < id).
Proof.
  intros later.
  destruct (reachable_rowids_sound db Hreach)
    as (_ & (_ & _ & Hg) & (_ & _ & Hk) & (_ & _ & Ht) & _).
  destruct (sequences_le_serve_all rs db) as (_ & Lg & Lk & Lt & _).
  fold later in Lg, Lk, Lt.
  rewrite Forall_forall in Hg, Hk, Ht.
  split; [|split].
  - intros date title H t Hin. apply post_tasks_answer in H.
    specialize (Hk _ (in_map Task.id _ _ Hin)). cbv beta in Hk. lia.
  - intros type title period_key H t Hin. apply post_targets_answer in H.
    specialize (Hg _ (in_map Target.id _ _ Hin)). cbv beta in Hg. lia.
  - intros name tasks H t Hin. apply post_routine_templates_answer in H.
    specialize (Ht _ (in_map RoutineTemplate.id _ _ Hin)). cbv beta in Ht.
    lia.
Qed.

Lemma reachable_ids_witness :
  reachable morning_applied /\
  rowids_sound morning_applied /\
  (List.length (filter (fun t => (Task.id t =? 2)%Z) (tasks morning_applied))
   <= 1)%nat.
Proof.
  split; [exact morning_applied_reachable|].
  destruct (reachable_ids_name_one_row morning_applied
              morning_applied_reachable) as [Hs Hone].
  split; [exact Hs|]. exact (proj1 (proj2 (Hone 2))).
Defined.

Lemma created_id_witness :
  reachable morning_applied /\
  In (Task.Build 2 (Some "2024-02-02"%string) (Some "Hydrate"%string) 0)
    (tasks morning_applied) /\
  Api.answer None (POST_tasks (Some "2024-02-03"%string) (Some "Read"%string))
    (serve_all [(None, DELETE_task 2)] morning_applied) = Ok200 (JsonId 3) /\
  2 < 3.
Proof.
  split; [exact morning_applied_reachable|].
  split; [right; left; reflexivity|].
  split; [reflexivity|].
  exact (proj1 (created_id_is_above_every_earlier_id morning_applied
                  morning_applied_reachable [(None, DELETE_task 2)] None 3)
           (Some "2024-02-03"%string) (Some "Read"%string) eq_refl
           (Task.Build 2 (Some "2024-02-02"%string) (Some "Hydrate"%string) 0)
           (or_intror (or_introl eq_refl))).
Defined.

(** ** Completion flags and template names *)

Lemma Forall_filter_keep {A : Type} (P : A -> Prop) (p : A -> bool)
  (l : list A) :
  Forall P l -> Forall P (filter p l).
Proof.
  rewrite !Forall_forall. intros H x Hx. apply filter_In in Hx as [Hx _].
  apply H. exact Hx.
Qed.

Lemma completed_is_bit_kept : kept_by_bound_statements completed_is_bit.
Proof.
  split; try (intros; reads_only);
    try (intros; intros db a db' HP H; cbv beta delta
           [Sql.upsert_entry Sql.delete_routine_template] in H;
         injection H as _ <-; exact HP).
  - intros x y z db a db' [Hk Hg] H. injection H as _ <-.
    split; [exact Hk|]. cbn. apply Forall_app. split; [exact Hg|].
    constructor; [left; reflexivity|constructor].
  - intros c i db a db' [Hk Hg] H. injection H as _ <-.
    split; [exact Hk|]. cbn. apply Forall_map.
    eapply Forall_impl; [|exact Hg]. intros t Ht.
    unfold Sql.set_target_completed, Api.completed_flag.
    destruct (Target.id t =? i); [|exact Ht].
    cbn. destruct (Js.truthy c); auto.
  - intros i db a db' [Hk Hg] H. injection H as _ <-.
    split; [exact Hk|]. cbn. apply Forall_filter_keep. exact Hg.
  - intros d t db a db' [Hk Hg] H. injection H as _ <-.
    split; [|exact Hg]. cbn. apply Forall_app. split; [exact Hk|].
    constructor; [left; reflexivity|constructor].
  - intros c i db a db' [Hk Hg] H. injection H as _ <-.
    split; [|exact Hg]. cbn. apply Forall_map.
    eapply Forall_impl; [|exact Hk]. intros t Ht.
    unfold Sql.set_task_completed, Api.completed_flag.
    destruct (Task.id t =? i); [|exact Ht].
    cbn. destruct (Js.truthy c); auto.
  - intros i db a db' [Hk Hg] H. injection H as _ <-.
    split; [|exact Hg]. cbn. apply Forall_filter_keep. exact Hk.
  - intros n db a db' HP H. unfold Sql.insert_routine_template in H.
    destruct (existsb _ _); [discriminate|]. injection H as _ <-. exact HP.
  - intros i t db a db' HP H. unfold Sql.insert_routine_template_task in H.
    destruct (_ && _); [discriminate|]. injection H as _ <-. exact HP.
Qed.

Lemma reachable_completed_is_bit (db : database) :
  reachable db -> completed_is_bit db.
Proof.
  revert db. apply reachable_ind_bound; [|exact completed_is_bit_kept].
  split; constructor.
Qed.

(** X3.  In every store the API can reach, [completed] of every task and
    of every target is the integer 0 or 1, and so is it in every row that
    [GET /api/tasks/:date] and [GET /api/targets/:period] answer with. *)
Theorem reachable_completed_is_zero_or_one
  (db : database) (Hreach : reachable db) (d period : string) :
  completed_is_bit db /\
  (exists rows,
     Api.answer None (GET_tasks d) db = Ok200 (JsonTasks rows) /\
     Forall (fun t => Task.completed t = 0 \/ Task.completed t = 1) rows) /\
  (exists rows,
     Api.answer None (GET_targets period) db = Ok200 (JsonTargets rows) /\
     Forall (fun t => Target.completed t = 0 \/ Target.completed t = 1) rows).
Proof.
  pose proof (reachable_completed_is_bit db Hreach) as Hb.
  split; [exact Hb|]. destruct Hb as [Hk Hg]. split.
  - eexists. split; [reflexivity|]. apply Forall_filter_keep. exact Hk.
  - eexists. split; [reflexivity|]. apply Forall_filter_keep. exact Hg.
Qed.

Lemma filter_filter_length {A : Type} (p q : A -> bool) (l : list A) :
  (List.length (filter p (filter q l)) <= List.length (filter p l))%nat.
Proof.
  induction l as [|x rest IH]; simpl; [lia|].
  destruct (q x); simpl; destruct (p x); simpl; lia.
Qed.

Lemma template_names_unique_kept : kept_by_statements template_names_unique.
Proof.
  split; try (intros; reads_only);
    try (intros; intros db a db' HP H; cbv beta delta
           [Sql.upsert_entry Sql.insert_target Sql.update_target_completed
            Sql.delete_target Sql.insert_task Sql.update_task_completed
            Sql.delete_task] in H;
         injection H as _ <-; exact HP).
  - intros n db a db' HP H. unfold Sql.insert_routine_template in H.
    destruct (existsb _ _) eqn:E; [discriminate|]. injection H as _ <-.
    intros m. unfold templates_named. cbn. rewrite filter_app, length_app.
    cbn. destruct (text_eqb n (Some m)) eqn:En.
    + apply text_eqb_true in En as [s [-> Hs]]. inversion Hs; subst s.
      rewrite filter_no_match; [simpl; lia|].
      intros t Ht. destruct (text_eqb _ _) eqn:Et; [|reflexivity].
      rewrite <- E. symmetry. apply existsb_exists. exists t. split; assumption.
    + specialize (HP m). unfold templates_named in HP. simpl. lia.
  - intros i t db a db' HP H. unfold Sql.insert_routine_template_task in H.
    destruct (_ && _); [discriminate|]. injection H as _ <-. exact HP.
  - intros i db a db' HP H. injection H as _ <-.
    intros m. unfold templates_named. cbn.
    etransitivity; [apply filter_filter_length|]. apply HP.
Qed.

Lemma reachable_template_names_unique (db : database) :
  reachable db -> template_names_unique db.
Proof.
  revert db.
  apply reachable_ind_statements; [|exact template_names_unique_kept].
  intros n. simpl. lia.
Qed.

(** X4.  In every store the API can reach no two templates have the same
    name: two template rows with one name are one row. *)
Theorem reachable_template_names_differ
  (db : database) (Hreach : reachable db) :
  template_names_unique db /\
  forall (t1 t2 : RoutineTemplate.t) (n : string),
    In t1 (routine_templates db) -> In t2 (routine_templates db) ->
    RoutineTemplate.name t1 = Some n -> RoutineTemplate.name t2 = Some n ->
    t1 = t2.
Proof.
  pose proof (reachable_template_names_unique db Hreach) as Hu.
  split; [exact Hu|].
  intros t1 t2 n H1 H2 N1 N2. specialize (Hu n).
  unfold templates_named in Hu.
  assert (F1 : In t1 (filter (fun t => text_eqb (RoutineTemplate.name t)
                                         (Some n)) (routine_templates db))).
  { apply filter_In. split; [exact H1|]. rewrite N1. apply text_eqb_some. }
  assert (F2 : In t2 (filter (fun t => text_eqb (RoutineTemplate.name t)
                                         (Some n)) (routine_templates db))).
  { apply filter_In. split; [exact H2|]. rewrite N2. apply text_eqb_some. }
  destruct (filter _ (routine_templates db)) as [|x [|y rest]];
    simpl in *; try lia; try contradiction.
  destruct F1 as [<-|[]]. destruct F2 as [<-|[]]. reflexivity.
Qed.

Lemma completed_bit_witness :
  reachable morning_applied /\ completed_is_bit morning_applied.
Proof.
  split; [exact morning_applied_reachable|].
  exact (proj1 (reachable_completed_is_zero_or_one morning_applied
                  morning_applied_reachable "2024-02-02" "2024-02")).
Defined.

Lemma template_names_witness :
  reachable morning_routine /\ template_names_unique morning_routine.
Proof.
  split; [exact morning_routine_reachable|].
  exact (proj1 (reachable_template_names_differ morning_routine
                  morning_routine_reachable)).
Defined.

(** ** Reads, unknown ids, deletes *)

(** X5.  A GET never writes: whichever statement the engine fails, and
    also when the nested reads of [GET /api/routine-templates] stop
    midway, the store after the request is the store before it. *)
Theorem get_never_changes_the_store
  (f : faults) (r : request) (db : database) (Hget : is_get r = true) :
  Api.store_after f r db = db.
Proof.
  rewrite store_after_final.
  assert (K : keeps (fun x => x = db) (Api.route r)).
  { destruct r; try discriminate Hget; cbn [Api.route];
      unfold Api.get_entry, Api.get_entries, Api.get_targets, Api.get_tasks,
        Api.get_routine_templates;
      repeat keeps_step; reads_only. }
  apply K. reflexivity.
Qed.

Lemma with_targets_same (db : database) :
  Sql.with_targets db (targets db) (seq_targets (sqlite_sequence db)) = db.
Proof. destruct db as [? ? ? ? ? []]. reflexivity. Qed.

Lemma with_routine_templates_same (db : database) :
  Sql.with_routine_templates db (routine_templates db)
    (routine_template_tasks db) (seq_routine_templates (sqlite_sequence db))
  = db.
Proof. destruct db as [? ? ? ? ? []]. reflexivity. Qed.

Lemma map_no_match {A : Type} (g : A -> A) (l : list A) :
  (forall x, In x l -> g x = x) -> map g l = l.
Proof.
  induction l as [|x rest IH]; simpl; intros H; [reflexivity|].
  rewrite H by (left; reflexivity). rewrite IH; [reflexivity|].
  intros y Hy. apply H. right. exact Hy.
Qed.

Lemma filter_all_match {A : Type} (p : A -> bool) (l : list A) :
  (forall x, In x l -> p x = true) -> filter p l = l.
Proof.
  induction l as [|x rest IH]; simpl; intros H; [reflexivity|].
  rewrite H by (left; reflexivity). rewrite IH; [reflexivity|].
  intros y Hy. apply H. right. exact Hy.
Qed.

(** X6.  A PATCH or a DELETE with an id that no row of the table has
    answers success and leaves the store exactly as it was; for a template
    this includes the child rows, whatever they point at. *)
Theorem unknown_id_is_a_successful_no_op
  (db : database) (id : Z) (c : Js.value) :
  ((forall t, In t (tasks db) -> Task.id t <> id) ->
   Api.serve None (PATCH_task id c) db = (Ok200 JsonSuccess, db) /\
   Api.serve None (DELETE_task id) db = (Ok200 JsonSuccess, db)) /\
  ((forall t, In t (targets db) -> Target.id t <> id) ->
   Api.serve None (PATCH_target id c) db = (Ok200 JsonSuccess, db) /\
   Api.serve None (DELETE_target id) db = (Ok200 JsonSuccess, db)) /\
  ((forall t, In t (routine_templates db) -> RoutineTemplate.id t <> id) ->
   Api.serve None (DELETE_routine_template id) db = (Ok200 JsonSuccess, db)).
Proof.
  split; [|split].
  - intros H. split.
    + rewrite patch_task_store. rewrite map_no_match.
      * rewrite with_tasks_same. reflexivity.
      * intros t Ht. unfold Sql.set_task_completed.
        destruct (Task.id t =? id) eqn:E; [|reflexivity].
        apply Z.eqb_eq in E. destruct (H t Ht E).
    + unfold Api.serve. cbn. rewrite filter_all_match.
      * rewrite with_tasks_same. reflexivity.
      * intros t Ht. apply negb_true_iff. apply Z.eqb_neq. apply H. exact Ht.
  - intros H. split.
    + rewrite patch_target_store. rewrite map_no_match.
      * rewrite with_targets_same. reflexivity.
      * intros t Ht. unfold Sql.set_target_completed.
        destruct (Target.id t =? id) eqn:E; [|reflexivity].
        apply Z.eqb_eq in E. destruct (H t Ht E).
    + unfold Api.serve. cbn. rewrite filter_all_match.
      * rewrite with_targets_same. reflexivity.
      * intros t Ht. apply negb_true_iff. apply Z.eqb_neq. apply H. exact Ht.
  - intros H. rewrite delete_template_store.
    rewrite (filter_no_match (fun t => RoutineTemplate.id t =? id)).
    + rewrite !filter_all_match.
      * rewrite with_routine_templates_same. reflexivity.
      * intros x _. reflexivity.
      * intros t Ht. apply negb_true_iff. apply Z.eqb_neq. apply H. exact Ht.
    + intros t Ht. apply Z.eqb_neq. apply H. exact Ht.
Qed.

Lemma filter_twice {A : Type} (p : A -> bool) (l : list A) :
  filter p (filter p l) = filter p l.
Proof.
  apply filter_all_match. intros x Hx. apply filter_In in Hx as [_ Hx].
  exact Hx.
Qed.

Lemma filter_swap {A : Type} (p q : A -> bool) (l : list A) :
  filter p (filter q l) = filter q (filter p l).
Proof.
  induction l as [|x rest IH]; simpl; [reflexivity|].
  destruct (q x) eqn:Q, (p x) eqn:P; simpl; rewrite ?Q, ?P, IH; reflexivity.
Qed.

(** X7.  [DELETE /api/tasks/:id] and [DELETE /api/targets/:id] answer
    success and remove the rows of that id and no other: the rows of the
    other ids stay, in their order, so the list of a date or of a period
    is the former list without that id; no other table changes, and a
    second DELETE of the id changes nothing more. *)
Theorem delete_removes_the_id_only
  (db : database) (id : Z) (d period : string) :
  let no_task := Api.store_after None (DELETE_task id) db in
  let no_target := Api.store_after None (DELETE_target id) db in
  (Api.answer None (DELETE_task id) db = Ok200 JsonSuccess /\
   (forall t, In t (tasks no_task) <-> In t (tasks db) /\ Task.id t <> id) /\
   Api.answer None (GET_tasks d) no_task
   = Ok200 (JsonTasks
              (filter (fun t => negb (Task.id t =? id))
                 (filter (fun t => text_eqb (Task.date t) (Some d))
                    (tasks db)))) /\
   Api.store_after None (DELETE_task id) no_task = no_task /\
   entries no_task = entries db /\ targets no_task = targets db /\
   routine_templates no_task = routine_templates db /\
   routine_template_tasks no_task = routine_template_tasks db /\
   sqlite_sequence no_task = sqlite_sequence db)
  /\
  (Api.answer None (DELETE_target id) db = Ok200 JsonSuccess /\
   (forall t, In t (targets no_target)
              <-> In t (targets db) /\ Target.id t <> id) /\
   Api.answer None (GET_targets period) no_target
   = Ok200 (JsonTargets
              (filter (fun t => negb (Target.id t =? id))
                 (filter (fun t => text_eqb (Target.period_key t)
                                     (Some period))
                    (targets db)))) /\
   Api.store_after None (DELETE_target id) no_target = no_target /\
   entries no_target = entries db /\ tasks no_target = tasks db /\
   routine_templates no_target = routine_templates db /\
   routine_template_tasks no_target = routine_template_tasks db /\
   sqlite_sequence no_target = sqlite_sequence db).
Proof.
  intros no_task no_target. split.
  - split; [reflexivity|]. split; [|split; [|split]].
    + intros t. unfold no_task. cbn. rewrite filter_In.
      rewrite negb_true_iff, Z.eqb_neq. reflexivity.
    + unfold no_task, Api.answer. cbn. rewrite filter_swap. reflexivity.
    + unfold no_task, Api.store_after. cbn. unfold Sql.with_tasks. cbn.
      rewrite filter_twice. reflexivity.
    + unfold no_task. cbn. destruct (sqlite_sequence db). repeat split.
  - split; [reflexivity|]. split; [|split; [|split]].
    + intros t. unfold no_target. cbn. rewrite filter_In.
      rewrite negb_true_iff, Z.eqb_neq. reflexivity.
    + unfold no_target, Api.answer. cbn. rewrite filter_swap. reflexivity.
    + unfold no_target, Api.store_after. cbn. unfold Sql.with_targets. cbn.
      rewrite filter_twice. reflexivity.
    + unfold no_target. cbn. destruct (sqlite_sequence db). repeat split.
Qed.

Lemma get_never_changes_witness :
  is_get GET_routine_templates = true /\
  Api.store_after (Some 1%nat) GET_routine_templates morning_routine
  = morning_routine.
Proof.
  split; [reflexivity|].
  exact (get_never_changes_the_store (Some 1%nat) GET_routine_templates
           morning_routine eq_refl).
Defined.

Lemma unknown_id_witness :
  (forall t, In t (tasks morning_applied) -> Task.id t <> 7) /\
  Api.serve None (PATCH_task 7 (Js.JBool true)) morning_applied
  = (Ok200 JsonSuccess, morning_applied).
Proof.
  assert (H : forall t, In t (tasks morning_applied) -> Task.id t <> 7).
  { intros t [<-|[<-|[]]]; discriminate. }
  split; [exact H|].
  exact (proj1 (proj1 (unknown_id_is_a_successful_no_op morning_applied 7
                         (Js.JBool true)) H)).
Defined.

Lemma delete_removes_witness :
  In (Task.Build 2 (Some "2024-02-02"%string) (Some "Hydrate"%string) 0)
    (tasks morning_applied) /\
  2 <> 1 /\
  In (Task.Build 2 (Some "2024-02-02"%string) (Some "Hydrate"%string) 0)
    (tasks (Api.store_after None (DELETE_task 1) morning_applied)).
Proof.
  assert (Hin : In (Task.Build 2 (Some "2024-02-02"%string)
                      (Some "Hydrate"%string) 0) (tasks morning_applied)).
  { right. left. reflexivity. }
  assert (Hne : 2 <> 1) by discriminate.
  split; [exact Hin|]. split; [exact Hne|].
  destruct (delete_removes_the_id_only morning_applied 1 "2024-02-02"
              "2024-02") as [[_ [Hrows _]] _].
  apply Hrows. split; [exact Hin|exact Hne].
Defined.

(** ** Creating targets and tasks, saving entries *)

(** X8.  [POST /api/targets] answers the next rowid of the table and
    stores a target that is not completed; [GET /api/targets/:period] for
    its period key then answers the former list followed by the new
    target, the lists of the other periods are as before, and a target
    saved without a period key is in no period's list. *)
Theorem post_targets_then_get_targets
  (db : database) (type title : text) (period : string) :
  let id := seq_targets (sqlite_sequence db) + 1 in
  let db' := Api.store_after None (POST_targets type title (Some period)) db in
  let unkeyed := Api.store_after None (POST_targets type title None) db in
  Api.answer None (POST_targets type title (Some period)) db
  = Ok200 (JsonId id) /\
  Api.answer None (GET_targets period) db'
  = Ok200 (JsonTargets
             (filter (fun t => text_eqb (Target.period_key t) (Some period))
                (targets db)
              ++ [Target.Build id type title 0 (Some period)])) /\
  (forall other : string, other <> period ->
     Api.answer None (GET_targets other) db'
     = Api.answer None (GET_targets other) db) /\
  (forall any : string,
     Api.answer None (GET_targets any) unkeyed
     = Api.answer None (GET_targets any) db) /\
  entries db' = entries db /\ tasks db' = tasks db /\
  routine_templates db' = routine_templates db /\
  routine_template_tasks db' = routine_template_tasks db.
Proof.
  intros id db' unkeyed. split; [reflexivity|]. split; [|split; [|split]].
  - unfold db', Api.answer. cbn. rewrite filter_app. cbn.
    rewrite String.eqb_refl. reflexivity.
  - intros other Hne. unfold db', Api.answer. cbn. rewrite filter_app. cbn.
    apply String.eqb_neq in Hne. rewrite String.eqb_sym, Hne.
    rewrite app_nil_r. reflexivity.
  - intros any. unfold unkeyed, Api.answer. cbn. rewrite filter_app. cbn.
    rewrite app_nil_r. reflexivity.
  - repeat split.
Qed.

(** X9.  [POST /api/tasks] answers the next rowid of the table and stores
    a task that is not completed; [GET /api/tasks/:date] for its date then
    answers the former list followed by the new task, the lists of the
    other dates are as before, and a task saved without a date is in no
    date's list. *)
Theorem post_tasks_then_get_tasks
  (db : database) (title : text) (d : string) :
  let id := seq_tasks (sqlite_sequence db) + 1 in
  let db' := Api.store_after None (POST_tasks (Some d) title) db in
  let undated := Api.store_after None (POST_tasks None title) db in
  Api.answer None (POST_tasks (Some d) title) db = Ok200 (JsonId id) /\
  Api.answer None (GET_tasks d) db'
  = Ok200 (JsonTasks
             (filter (fun t => text_eqb (Task.date t) (Some d)) (tasks db)
              ++ [Task.Build id (Some d) title 0])) /\
  (forall other : string, other <> d ->
     Api.answer None (GET_tasks other) db'
     = Api.answer None (GET_tasks other) db) /\
  (forall any : string,
     Api.answer None (GET_tasks any) undated
     = Api.answer None (GET_tasks any) db) /\
  entries db' = entries db /\ targets db' = targets db /\
  routine_templates db' = routine_templates db /\
  routine_template_tasks db' = routine_template_tasks db.
Proof.
  intros id db' undated. split; [reflexivity|]. split; [|split; [|split]].
  - unfold db', Api.answer. cbn. rewrite filter_app. cbn.
    rewrite String.eqb_refl. reflexivity.
  - intros other Hne. unfold db', Api.answer. cbn. rewrite filter_app. cbn.
    apply String.eqb_neq in Hne. rewrite String.eqb_sym, Hne.
    rewrite app_nil_r. reflexivity.
  - intros any. unfold undated, Api.answer. cbn. rewrite filter_app. cbn.
    rewrite app_nil_r. reflexivity.
  - repeat split.
Qed.

Lemma find_is_first_of_filter {A : Type} (p : A -> bool) (l : list A) :
  find p l = hd_error (filter p l).
Proof.
  induction l as [|x rest IH]; simpl; [reflexivity|].
  destruct (p x); [reflexivity|exact IH].
Qed.

Lemma on_conflict_date_length (rowid : Z) (p : EntryBody.t)
  (rows : list Entry.t) :
  (List.length rows <= List.length (Sql.on_conflict_date rowid p rows)
   <= S (List.length rows))%nat.
Proof.
  induction rows as [|e rest IH]; simpl; [lia|].
  destruct (text_eqb (Entry.date e) (EntryBody.date p)); simpl; lia.
Qed.

Lemma post_entries_store (f : faults) (p : EntryBody.t) (db : database) :
  Api.store_after f (POST_entries p) db = db \/
  Api.store_after f (POST_entries p) db
  = Sql.with_entries db
      (Sql.on_conflict_date (seq_entries (sqlite_sequence db) + 1) p
         (entries db))
      (seq_entries (sqlite_sequence db) + 1).
Proof. destruct f as [[|j]|]; [left|right|right]; reflexivity. Qed.

Lemma post_entries_other_date_answer (p : EntryBody.t) (db : database)
  (d : string) :
  EntryBody.date p <> Some d ->
  Api.answer None (GET_entry d) (Api.store_after None (POST_entries p) db)
  = Api.answer None (GET_entry d) db /\
  entries_on d (Api.store_after None (POST_entries p) db) = entries_on d db.
Proof.
  intros Hother.
  assert (Hon : entries_on d (Api.store_after None (POST_entries p) db)
                = entries_on d db).
  { unfold entries_on. cbn. apply count_on_conflict_other.
    apply text_eqb_differs. exact Hother. }
  split; [|exact Hon].
  unfold Api.answer, Api.serve. cbn [Api.route].
  unfold Api.get_entry, bind, execute, ret.
  cbn [Sql.select_entry_by_date fst].
  rewrite !find_is_first_of_filter.
  unfold entries_on in Hon. rewrite Hon. reflexivity.
Qed.

(** X10.  Saving an entry for one date leaves the entries of every other
    date as they were: [GET /api/entries/:date] for another date answers
    what it answered before.  The save adds at most one row to [entries]
    and removes none, and it changes no other table; this holds also when
    the engine fails the statement. *)
Theorem post_entries_leaves_other_dates
  (f : faults) (p : EntryBody.t) (db : database) (d : string)
  (Hother : EntryBody.date p <> Some d) :
  let db' := Api.store_after f (POST_entries p) db in
  Api.answer None (GET_entry d) db' = Api.answer None (GET_entry d) db /\
  entries_on d db' = entries_on d db /\
  (List.length (entries db) <= List.length (entries db')
   <= S (List.length (entries db)))%nat /\
  targets db' = targets db /\ tasks db' = tasks db /\
  routine_templates db' = routine_templates db /\
  routine_template_tasks db' = routine_template_tasks db.
Proof.
  intros db'. unfold db'.
  destruct (post_entries_store f p db) as [-> | ->].
  - repeat split; lia.
  - change (Sql.with_entries db
              (Sql.on_conflict_date (seq_entries (sqlite_sequence db) + 1) p
                 (entries db))
              (seq_entries (sqlite_sequence db) + 1))
      with (Api.store_after None (POST_entries p) db).
    destruct (post_entries_other_date_answer p db d Hother) as [Ha Hon].
    split; [exact Ha|split; [exact Hon|split; [|repeat split]]].
    cbn. apply on_conflict_date_length.
Qed.

Lemma on_conflict_without_date (rowid : Z) (p : EntryBody.t)
  (rows : list Entry.t) :
  EntryBody.date p = None ->
  Sql.on_conflict_date rowid p rows = rows ++ [Sql.excluded rowid p].
Proof.
  intros Hd. induction rows as [|e rest IH]; simpl; [reflexivity|].
  rewrite Hd. destruct (Entry.date e); simpl; rewrite IH; reflexivity.
Qed.

(** X11.  A save whose body has no date (absent or null) never updates:
    it appends a row with a NULL date, so [n] such saves add [n] rows; no
    [GET /api/entries/:date] answers with such a row, and its answers are
    what they were. *)
Theorem post_entries_without_date_appends
  (p : EntryBody.t) (db : database) (n : nat) (d : string)
  (Hnull : EntryBody.date p = None) :
  let db' := Api.store_after None (POST_entries p) db in
  Api.answer None (POST_entries p) db = Ok200 JsonSuccess /\
  entries db'
  = entries db ++ [Sql.excluded (seq_entries (sqlite_sequence db) + 1) p] /\
  List.length (entries (Api.repeat_request n (POST_entries p) db))
  = (List.length (entries db) + n)%nat /\
  Api.answer None (GET_entry d) (Api.repeat_request n (POST_entries p) db)
  = Api.answer None (GET_entry d) db.
Proof.
  intros db'. split; [reflexivity|]. split.
  - unfold db'. cbn. apply on_conflict_without_date. exact Hnull.
  - clear db'. revert db. induction n as [|n IH]; intros db; cbn [Api.repeat_request].
    + split; [lia|reflexivity].
    + destruct (IH (Api.store_after None (POST_entries p) db)) as [IH1 IH2].
      rewrite IH1, IH2. split.
      * cbn. rewrite on_conflict_without_date by exact Hnull.
        rewrite length_app. cbn. lia.
      * assert (Hne : EntryBody.date p <> Some d) by congruence.
        exact (proj1 (post_entries_other_date_answer p db d Hne)).
Qed.

(** ** Creating a template *)

Lemma with_routine_template_tasks_same (db : database) :
  Sql.with_routine_template_tasks db (routine_template_tasks db)
    (seq_routine_template_tasks (sqlite_sequence db)) = db.
Proof. destruct db as [? ? ? ? ? []]. reflexivity. Qed.

Lemma insert_children_loop (template_id : Z) (titles : list text) :
  forall (f : faults) (db : database),
    existsb (fun t => RoutineTemplate.id t =? template_id)
      (routine_templates db) = true ->
    for_of titles
      (fun taskTitle =>
         bind (execute (Sql.insert_routine_template_task template_id taskTitle))
           (fun _ => ret tt)) f db
    = let k := served f (List.length titles) in
      let db' :=
        Sql.with_routine_template_tasks db
          (routine_template_tasks db
             ++ materialized_children
                  (seq_routine_template_tasks (sqlite_sequence db))
                  template_id (firstn k titles))
          (seq_routine_template_tasks (sqlite_sequence db) + Z.of_nat k) in
      if fails_within f (List.length titles)
      then Raised SQLITE_ENGINE db'
      else Done tt (option_map (fun j => (j - List.length titles)%nat) f) db'.
Proof.
  induction titles as [|t rest IH]; intros f db Hparent.
  - destruct f as [j|]; simpl.
    + rewrite Nat.min_0_r, Nat.sub_0_r. simpl.
      rewrite app_nil_r, Z.add_0_r, with_routine_template_tasks_same.
      reflexivity.
    + rewrite app_nil_r, Z.add_0_r, with_routine_template_tasks_same.
      reflexivity.
  - cbn [for_of]. unfold bind at 1. unfold bind at 1.
    destruct f as [[|j]|].
    + simpl. rewrite app_nil_r, Z.add_0_r, with_routine_template_tasks_same.
      reflexivity.
    + cbn [execute]. unfold Sql.insert_routine_template_task at 1.
      rewrite Hparent. cbn [foreign_keys andb negb option_map Nat.pred ret].
      rewrite IH by exact Hparent.
      cbn [served fails_within List.length].
      change (S j <? S (List.length rest))%nat
        with (j <? List.length rest)%nat.
      change (Nat.min (S j) (S (List.length rest)))
        with (S (Nat.min j (List.length rest))).
      cbn [firstn materialized_children option_map Nat.sub].
      unfold Sql.with_routine_template_tasks.
      cbn [tasks sqlite_sequence seq_tasks entries
        targets routine_templates routine_template_tasks seq_entries
        seq_targets seq_routine_templates seq_routine_template_tasks].
      rewrite <- app_assoc. cbn [app].
      replace (seq_routine_template_tasks (sqlite_sequence db) + 1
               + Z.of_nat (Nat.min j (List.length rest)))
        with (seq_routine_template_tasks (sqlite_sequence db)
              + Z.of_nat (S (Nat.min j (List.length rest)))) by lia.
      reflexivity.
    + cbn [execute]. unfold Sql.insert_routine_template_task at 1.
      rewrite Hparent. cbn [foreign_keys andb negb option_map ret].
      rewrite IH by exact Hparent.
      cbn [served fails_within List.length].
      cbn [firstn materialized_children option_map].
      unfold Sql.with_routine_template_tasks.
      cbn [tasks sqlite_sequence seq_tasks entries
        targets routine_templates routine_template_tasks seq_entries
        seq_targets seq_routine_templates seq_routine_template_tasks].
      rewrite <- app_assoc. cbn [app].
      replace (seq_routine_template_tasks (sqlite_sequence db) + 1
               + Z.of_nat (List.length rest))
        with (seq_routine_template_tasks (sqlite_sequence db)
              + Z.of_nat (S (List.length rest))) by lia.
      reflexivity.
Qed.

Lemma materialized_children_shape (rowid template_id : Z)
  (titles : list text) :
  List.length (materialized_children rowid template_id titles)
  = List.length titles /\
  map RoutineTemplateTask.title
    (materialized_children rowid template_id titles) = titles /\
  Forall (fun c => RoutineTemplateTask.template_id c = template_id)
    (materialized_children rowid template_id titles).
Proof.
  revert rowid. induction titles as [|t rest IH]; intros rowid; simpl.
  - repeat split; constructor.
  - destruct (IH (rowid + 1)) as [Hlen [Htitles Hrows]].
    repeat split.
    + rewrite Hlen. reflexivity.
    + rewrite Htitles. reflexivity.
    + constructor; [reflexivity|exact Hrows].
Qed.

Lemma name_free (db : database) (name : text) :
  (forall n, name = Some n ->
     forall t, In t (routine_templates db) -> RoutineTemplate.name t <> Some n) ->
  existsb (fun t => text_eqb (RoutineTemplate.name t) name)
    (routine_templates db) = false.
Proof.
  intros H. destruct (existsb _ _) eqn:E; [|reflexivity].
  apply existsb_exists in E as [t [Hin Ht]].
  apply text_eqb_true in Ht as [s [Hs Hn]].
  destruct (H s Hn t Hin Hs).
Qed.

(** The store with the template row in, before any of its children. *)
Lemma post_routine_templates_serve (f : faults) (name : text)
  (tasks : option (list text)) (db : database) :
  (forall n, name = Some n ->
     forall t, In t (routine_templates db) -> RoutineTemplate.name t <> Some n) ->
  Api.serve f (POST_routine_templates name tasks) db
  = match f with
    | Some O => (InternalServerError500 SQLITE_ENGINE, db)
    | _ =>
      let id := seq_routine_templates (sqlite_sequence db) + 1 in
      let named :=
        Sql.with_routine_templates db
          (routine_templates db ++ [RoutineTemplate.Build id name])
          (routine_template_tasks db) id in
      match tasks with
      | None => (InternalServerError500 TypeError, named)
      | Some titles =>
        let f' := option_map Nat.pred f in
        let k := served f' (List.length titles) in
        let db' :=
          Sql.with_routine_template_tasks named
            (routine_template_tasks db
               ++ materialized_children
                    (seq_routine_template_tasks (sqlite_sequence db)) id
                    (firstn k titles))
            (seq_routine_template_tasks (sqlite_sequence db) + Z.of_nat k) in
        if fails_within f' (List.length titles)
        then (InternalServerError500 SQLITE_ENGINE, db')
        else (Ok200 (JsonId id), db')
      end
    end.
Proof.
  intros Hfree. apply name_free in Hfree.
  unfold Api.serve. cbn [Api.route]. unfold Api.post_routine_templates.
  unfold bind at 1. unfold execute at 1, Sql.insert_routine_template.
  rewrite Hfree.
  destruct f as [[|j]|]; [reflexivity| |];
    (destruct tasks as [titles|]; [|reflexivity]);
    cbn [option_map Nat.pred]; unfold bind at 1;
    (rewrite insert_children_loop;
     [|cbn; rewrite existsb_app; cbn; rewrite Z.eqb_refl;
       apply orb_true_r]);
    cbv zeta;
    match goal with |- context [fails_within ?a ?b] =>
      destruct (fails_within a b) end; reflexivity.
Qed.

Lemma reachable_next_template_id_unused (db : database) :
  reachable db ->
  (forall t, In t (routine_templates db) ->
     RoutineTemplate.id t <> seq_routine_templates (sqlite_sequence db) + 1) /\
  (forall c, In c (routine_template_tasks db) ->
     RoutineTemplateTask.template_id c
     <> seq_routine_templates (sqlite_sequence db) + 1).
Proof.
  intros R.
  destruct (reachable_rowids_sound db R) as (_ & _ & _ & (_ & _ & Ht) & _).
  pose proof (reachable_no_orphans db R) as Ho.
  rewrite Forall_forall in Ht. unfold no_orphans in Ho.
  rewrite Forall_forall in Ho.
  assert (Hbelow : forall t, In t (routine_templates db) ->
            RoutineTemplate.id t <= seq_routine_templates (sqlite_sequence db)).
  { intros t Hin. specialize (Ht _ (in_map RoutineTemplate.id _ _ Hin)).
    cbv beta in Ht. lia. }
  split.
  - intros t Hin. specialize (Hbelow t Hin). lia.
  - intros c Hin. destruct (Ho c Hin) as [t [Ht' Hid]].
    specialize (Hbelow t Ht'). lia.
Qed.

Lemma get_routine_templates_answer (db : database) :
  Api.answer None GET_routine_templates db
  = Ok200 (JsonTemplates
             (map (fun t =>
                     (t, Sql.children_of (Some (RoutineTemplate.id t))
                           (routine_template_tasks db)))
                (routine_templates db))).
Proof.
  unfold Api.answer, Api.serve. cbn [Api.route].
  unfold Api.get_routine_templates.
  unfold bind at 1. cbn [execute Sql.select_routine_templates option_map].
  unfold bind at 1. rewrite nested_children_healthy. reflexivity.
Qed.

Lemma children_of_new_template (id : Z)
  (old new : list RoutineTemplateTask.t) :
  (forall c, In c old -> RoutineTemplateTask.template_id c <> id) ->
  Forall (fun c => RoutineTemplateTask.template_id c = id) new ->
  Sql.children_of (Some id) (old ++ new) = new.
Proof.
  intros Hold Hnew. unfold Sql.children_of. rewrite filter_app.
  rewrite filter_no_match, filter_all_match; [reflexivity| |].
  - rewrite Forall_forall in Hnew. intros c Hc. apply Z.eqb_eq.
    apply Hnew. exact Hc.
  - intros c Hc. apply Z.eqb_neq. apply Hold. exact Hc.
Qed.

Lemma children_of_old_template (id other : Z)
  (old new : list RoutineTemplateTask.t) :
  other <> id ->
  Forall (fun c => RoutineTemplateTask.template_id c = id) new ->
  Sql.children_of (Some other) (old ++ new) = Sql.children_of (Some other) old.
Proof.
  intros Hne Hnew. unfold Sql.children_of. rewrite filter_app.
  rewrite (filter_no_match _ new); [apply app_nil_r|].
  rewrite Forall_forall in Hnew. intros c Hc. apply Z.eqb_neq.
  rewrite (Hnew c Hc). congruence.
Qed.

Lemma post_routine_templates_healthy (name : text) (titles : list text)
  (db : database) :
  (forall n, name = Some n ->
     forall t, In t (routine_templates db) -> RoutineTemplate.name t <> Some n) ->
  let id := seq_routine_templates (sqlite_sequence db) + 1 in
  Api.serve None (POST_routine_templates name (Some titles)) db
  = (Ok200 (JsonId id),
     Sql.with_routine_template_tasks
       (Sql.with_routine_templates db
          (routine_templates db ++ [RoutineTemplate.Build id name])
          (routine_template_tasks db) id)
       (routine_template_tasks db
          ++ materialized_children
               (seq_routine_template_tasks (sqlite_sequence db)) id titles)
       (seq_routine_template_tasks (sqlite_sequence db)
        + Z.of_nat (List.length titles))).
Proof.
  intros Hfree id. rewrite post_routine_templates_serve by exact Hfree.
  cbn. rewrite firstn_all. reflexivity.
Qed.

(** X12.  [POST /api/routine-templates] with a name that no template has
    (or without a name) and an array of titles answers the next rowid,
    and [GET /api/routine-templates] then answers the former list followed
    by the new template with one child per title, in the order of the
    array; the children of the other templates are as before. *)
Theorem post_routine_templates_then_list
  (db : database) (Hreach : reachable db) (name : text) (titles : list text)
  (Hfree : forall n, name = Some n ->
             forall t, In t (routine_templates db) ->
                       RoutineTemplate.name t <> Some n) :
  let id := seq_routine_templates (sqlite_sequence db) + 1 in
  let r := POST_routine_templates name (Some titles) in
  let db' := Api.store_after None r db in
  Api.answer None r db = Ok200 (JsonId id) /\
  exists (children : list RoutineTemplateTask.t)
         (rows : list (RoutineTemplate.t * list RoutineTemplateTask.t)),
    Api.answer None GET_routine_templates db = Ok200 (JsonTemplates rows) /\
    Api.answer None GET_routine_templates db'
    = Ok200 (JsonTemplates
               (rows ++ [(RoutineTemplate.Build id name, children)])) /\
    map RoutineTemplateTask.title children = titles /\
    Forall (fun c => RoutineTemplateTask.template_id c = id) children /\
    routine_template_tasks db' = routine_template_tasks db ++ children /\
    entries db' = entries db /\ targets db' = targets db /\
    tasks db' = tasks db.
Proof.
  intros id r db'.
  pose proof (post_routine_templates_healthy name titles db Hfree) as Hs.
  cbv zeta in Hs. fold id r in Hs.
  destruct (reachable_next_template_id_unused db Hreach) as [Hold Hkids].
  fold id in Hold, Hkids.
  destruct (materialized_children_shape
              (seq_routine_template_tasks (sqlite_sequence db)) id titles)
    as [_ [Htitles Hmine]].
  split; [unfold Api.answer; rewrite Hs; reflexivity|].
  eexists. eexists. split; [apply get_routine_templates_answer|].
  split; [|split; [exact Htitles|split; [exact Hmine|]]].
  - rewrite get_routine_templates_answer.
    unfold db', Api.store_after. rewrite Hs.
    cbn [snd routine_templates routine_template_tasks
         Sql.with_routine_template_tasks Sql.with_routine_templates].
    rewrite map_app. cbn [map RoutineTemplate.id].
    rewrite (children_of_new_template id _ _ Hkids Hmine).
    do 3 f_equal. apply map_ext_in. intros t Ht. f_equal.
    apply (children_of_old_template id); [apply Hold; exact Ht|exact Hmine].
  - unfold db', Api.store_after. rewrite Hs. repeat split.
Qed.

Lemma taken_name_fails (db : database) (n : string)
  (tasks : option (list text)) :
  (exists t, In t (routine_templates db) /\ RoutineTemplate.name t = Some n) ->
  Api.serve None (POST_routine_templates (Some n) tasks) db
  = (InternalServerError500 SQLITE_CONSTRAINT_UNIQUE, db).
Proof.
  intros H. apply name_taken in H.
  unfold Api.serve. cbn [Api.route]. unfold Api.post_routine_templates.
  unfold bind at 1. unfold execute, Sql.insert_routine_template.
  rewrite H. reflexivity.
Qed.

(** X13.  A creation that fails after its first INSERT keeps what it
    wrote.  With a body that has no [tasks] array the request answers 500
    and the template row stays, without children; when the engine fails
    the INSERT of a child, the request answers 500 and the template stays
    with the children before that one.  Either way the name is taken: a
    later creation with the same name fails on the UNIQUE constraint. *)
Theorem failed_template_creation_keeps_the_name
  (db : database) (n : string) (titles : list text) (j : nat)
  (retry : option (list text))
  (Hfree : forall t, In t (routine_templates db) ->
                     RoutineTemplate.name t <> Some n) :
  let id := seq_routine_templates (sqlite_sequence db) + 1 in
  let row := RoutineTemplate.Build id (Some n) in
  let bare := Api.store_after None (POST_routine_templates (Some n) None) db in
  let cut := Api.store_after (Some (S j))
               (POST_routine_templates (Some n) (Some titles)) db in
  (Api.answer None (POST_routine_templates (Some n) None) db
   = InternalServerError500 TypeError /\
   routine_templates bare = routine_templates db ++ [row] /\
   routine_template_tasks bare = routine_template_tasks db /\
   Api.serve None (POST_routine_templates (Some n) retry) bare
   = (InternalServerError500 SQLITE_CONSTRAINT_UNIQUE, bare))
  /\
  ((j < List.length titles)%nat ->
   Api.answer (Some (S j)) (POST_routine_templates (Some n) (Some titles)) db
   = InternalServerError500 SQLITE_ENGINE /\
   routine_templates cut = routine_templates db ++ [row] /\
   routine_template_tasks cut
   = routine_template_tasks db
       ++ materialized_children
            (seq_routine_template_tasks (sqlite_sequence db)) id
            (firstn j titles) /\
   Api.serve None (POST_routine_templates (Some n) retry) cut
   = (InternalServerError500 SQLITE_CONSTRAINT_UNIQUE, cut)).
Proof.
  intros id row bare cut.
  assert (Hfree' : forall m, Some n = Some m ->
            forall t, In t (routine_templates db) ->
                      RoutineTemplate.name t <> Some m).
  { intros m Hm. injection Hm as <-. exact Hfree. }
  split.
  - pose proof (post_routine_templates_serve None (Some n) None db Hfree')
      as Hs. cbv zeta in Hs. fold id row in Hs.
    assert (Hrows : routine_templates bare = routine_templates db ++ [row]).
    { unfold bare, Api.store_after. rewrite Hs. reflexivity. }
    split; [unfold Api.answer; rewrite Hs; reflexivity|].
    split; [exact Hrows|].
    split; [unfold bare, Api.store_after; rewrite Hs; reflexivity|].
    apply taken_name_fails. exists row. split; [|reflexivity].
    rewrite Hrows. apply in_or_app. right. left. reflexivity.
  - intros Hj.
    pose proof (post_routine_templates_serve (Some (S j)) (Some n)
                  (Some titles) db Hfree') as Hs.
    cbv zeta in Hs. fold id row in Hs.
    cbn [option_map Nat.pred fails_within served] in Hs.
    apply Nat.ltb_lt in Hj as Hlt. rewrite Hlt in Hs.
    rewrite Nat.min_l in Hs by lia.
    assert (Hrows : routine_templates cut = routine_templates db ++ [row]).
    { unfold cut, Api.store_after. rewrite Hs. reflexivity. }
    split; [unfold Api.answer; rewrite Hs; reflexivity|].
    split; [exact Hrows|].
    split; [unfold cut, Api.store_after; rewrite Hs; reflexivity|].
    apply taken_name_fails. exists row. split; [|reflexivity].
    rewrite Hrows. apply in_or_app. right. left. reflexivity.
Qed.

(** X14.  Tasks made from a template do not depend on it.  Creating a
    template, applying it to a date and deleting it leaves the templates
    and their children as they were before the creation, while the tasks
    of the date are the former ones followed by one task per title of the
    deleted template. *)
Theorem applied_tasks_outlive_their_template
  (db : database) (Hreach : reachable db) (name : text) (titles : list text)
  (d : string)
  (Hfree : forall n, name = Some n ->
             forall t, In t (routine_templates db) ->
                       RoutineTemplate.name t <> Some n) :
  let id := seq_routine_templates (sqlite_sequence db) + 1 in
  let created :=
    Api.store_after None (POST_routine_templates name (Some titles)) db in
  let applied :=
    Api.store_after None (POST_apply_template (Some d) (Some id)) created in
  let deleted := Api.store_after None (DELETE_routine_template id) applied in
  let made := materialized (seq_tasks (sqlite_sequence db)) (Some d) titles in
  Api.answer None (POST_apply_template (Some d) (Some id)) created
  = Ok200 JsonSuccess /\
  Api.answer None (DELETE_routine_template id) applied = Ok200 JsonSuccess /\
  routine_templates deleted = routine_templates db /\
  routine_template_tasks deleted = routine_template_tasks db /\
  tasks deleted = tasks db ++ made /\
  map Task.title made = titles /\
  Api.answer None (GET_tasks d) deleted
  = Ok200 (JsonTasks
             (filter (fun t => text_eqb (Task.date t) (Some d)) (tasks db)
              ++ made)).
Proof.
  intros id created applied deleted made.
  pose proof (post_routine_templates_healthy name titles db Hfree) as Hs.
  cbv zeta in Hs. fold id in Hs.
  destruct (reachable_next_template_id_unused db Hreach) as [Hold Hkids].
  fold id in Hold, Hkids.
  destruct (materialized_children_shape
              (seq_routine_template_tasks (sqlite_sequence db)) id titles)
    as [_ [Htitles Hmine]].
  destruct (materialized_shape (seq_tasks (sqlite_sequence db)) (Some d)
              titles) as [_ [Hmade [Hdates _]]].
  fold made in Hmade, Hdates.
  assert (Hcreated : created = snd (Api.serve None
            (POST_routine_templates name (Some titles)) db)) by reflexivity.
  rewrite Hs in Hcreated. cbn [snd] in Hcreated.
  assert (Hkids' : Sql.children_of (Some id) (routine_template_tasks created)
                   = materialized_children
                       (seq_routine_template_tasks (sqlite_sequence db))
                       id titles).
  { rewrite Hcreated.
    cbn [routine_template_tasks Sql.with_routine_template_tasks].
    apply children_of_new_template; assumption. }
  pose proof (apply_template_serve None (Some d) (Some id) created) as Ha.
  cbv zeta in Ha. cbn [option_map served fails_within] in Ha.
  rewrite Hkids', Htitles, firstn_all in Ha.
  assert (Happlied : applied = snd (Api.serve None
            (POST_apply_template (Some d) (Some id)) created)) by reflexivity.
  rewrite Ha in Happlied. cbn [snd] in Happlied.
  assert (Htasks : tasks applied = tasks db ++ made).
  { rewrite Happlied, Hcreated. reflexivity. }
  assert (Hdeleted : deleted = snd (Api.serve None
            (DELETE_routine_template id) applied)) by reflexivity.
  rewrite delete_template_store in Hdeleted. cbn [snd] in Hdeleted.
  assert (Htpl : routine_templates applied
                 = routine_templates db ++ [RoutineTemplate.Build id name]).
  { rewrite Happlied, Hcreated. reflexivity. }
  assert (Hrtt : routine_template_tasks applied
                 = routine_template_tasks db
                     ++ materialized_children
                          (seq_routine_template_tasks (sqlite_sequence db))
                          id titles).
  { rewrite Happlied, Hcreated. reflexivity. }
  split; [unfold Api.answer; rewrite Ha; reflexivity|].
  split; [reflexivity|].
  split; [|split; [|split; [|split; [exact Hmade|]]]].
  - rewrite Hdeleted. cbn [routine_templates Sql.with_routine_templates].
    rewrite Htpl, filter_app. cbn. rewrite Z.eqb_refl. cbn.
    rewrite app_nil_r. apply filter_all_match.
    intros t Ht. apply negb_true_iff. apply Z.eqb_neq. apply Hold. exact Ht.
  - rewrite Hdeleted.
    cbn [routine_template_tasks Sql.with_routine_templates].
    rewrite Htpl, Hrtt.
    rewrite (filter_app (fun t => RoutineTemplate.id t =? id)).
    rewrite (filter_no_match _ (routine_templates db))
      by (intros t Ht; apply Z.eqb_neq; apply Hold; exact Ht).
    cbn [filter RoutineTemplate.id app]. rewrite Z.eqb_refl.
    rewrite filter_app.
    rewrite (filter_all_match _ (routine_template_tasks db)).
    + rewrite filter_no_match; [apply app_nil_r|].
      intros c Hc. rewrite Forall_forall in Hmine.
      apply negb_false_iff. unfold Sql.cascaded. cbn.
      rewrite (Hmine c Hc), Z.eqb_refl. reflexivity.
    + intros c Hc. apply negb_true_iff. unfold Sql.cascaded. cbn.
      rewrite orb_false_r. apply Z.eqb_neq. intros E.
      apply (Hkids c Hc). symmetry. exact E.
  - rewrite Hdeleted. cbn [tasks Sql.with_routine_templates]. exact Htasks.
  - unfold Api.answer, Api.serve. cbn [Api.route].
    unfold Api.get_tasks, bind, execute, ret.
    cbn [Sql.select_tasks_by_date fst].
    replace (tasks deleted) with (tasks db ++ made)
      by (rewrite Hdeleted; cbn [tasks Sql.with_routine_templates];
          symmetry; exact Htasks).
    rewrite filter_app. rewrite (filter_all_match _ made); [reflexivity|].
    rewrite Forall_forall in Hdates. intros t Ht.
    destruct (Hdates t Ht) as [-> _]. apply text_eqb_some.
Qed.

(** X15.  Applying a template that has no child rows, be it an id that no
    template has, a template created with an empty array, or a body
    without [templateId], answers success and writes nothing. *)
Theorem apply_template_without_children_is_a_no_op
  (db : database) (date : text) (templateId : option Z)
  (Hnone : forall id, templateId = Some id ->
             forall c, In c (routine_template_tasks db) ->
                       RoutineTemplateTask.template_id c <> id) :
  Api.serve None (POST_apply_template date templateId) db
  = (Ok200 JsonSuccess, db).
Proof.
  rewrite apply_template_serve. cbv zeta.
  assert (Hempty : Sql.children_of templateId (routine_template_tasks db) = []).
  { destruct templateId as [id|]; [|reflexivity].
    unfold Sql.children_of. apply filter_no_match.
    intros c Hc. apply Z.eqb_neq. apply (Hnone id eq_refl). exact Hc. }
  rewrite Hempty. cbn.
  rewrite app_nil_r, Z.add_0_r, with_tasks_same. reflexivity.
Qed.

(** ** Entries are never removed *)

Lemma on_conflict_date_keeps_row (rowid : Z) (p : EntryBody.t) (d : string)
  (id : Z) (imaged : Prop) (rows : list Entry.t) :
  (exists e, In e rows /\ Entry.date e = Some d /\ Entry.id e = id /\
             (imaged -> Entry.image_data e <> None)) ->
  exists e, In e (Sql.on_conflict_date rowid p rows) /\
            Entry.date e = Some d /\ Entry.id e = id /\
            (imaged -> Entry.image_data e <> None).
Proof.
  induction rows as [|x rest IH]; intros [e [Hin [Hd [Hid Himg]]]];
    [destruct Hin|].
  simpl. destruct (text_eqb (Entry.date x) (EntryBody.date p)) eqn:E.
  - destruct Hin as [<-|Hin].
    + exists (Sql.do_update x p). split; [left; reflexivity|].
      split; [exact Hd|]. split; [exact Hid|].
      intros Hi. specialize (Himg Hi). cbn.
      destruct (EntryBody.image_data p); [discriminate|exact Himg].
    + exists e. split; [right; exact Hin|]. auto.
  - destruct Hin as [<-|Hin].
    + exists x. split; [left; reflexivity|]. auto.
    + destruct IH as [e' [Hin' H']]; [exists e; auto|].
      exists e'. split; [right; exact Hin'|exact H'].
Qed.

Lemma entry_row_kept (d : string) (id : Z) (imaged : Prop) :
  kept_by_statements
    (fun db => exists e, In e (entries db) /\ Entry.date e = Some d /\
                         Entry.id e = id /\
                         (imaged -> Entry.image_data e <> None)).
Proof.
  split; try (intros; reads_only);
    try (intros; intros db a db' HP H; cbv beta delta
           [Sql.insert_target Sql.update_target_completed Sql.delete_target
            Sql.insert_task Sql.update_task_completed Sql.delete_task
            Sql.delete_routine_template] in H;
         injection H as _ <-; exact HP).
  - intros p db a db' HP H. injection H as _ <-.
    cbn. apply on_conflict_date_keeps_row. exact HP.
  - intros n db a db' HP H. unfold Sql.insert_routine_template in H.
    destruct (existsb _ _); [discriminate|]. injection H as _ <-. exact HP.
  - intros i t db a db' HP H. unfold Sql.insert_routine_template_task in H.
    destruct (_ && _); [discriminate|]. injection H as _ <-. exact HP.
Qed.

(** X16.  No request removes an entry or sets its [image_data] back to
    NULL.  An entry stored for a date is still stored for that date, under
    the same id, after any further requests, whatever the engine fails; if
    its [image_data] was not NULL it is still not NULL, and
    [GET /api/entries/:date] keeps answering an entry of that date.  The
    image itself is not protected: a later save for that date whose
    [image_data] is the empty string stores the empty string in its
    place. *)
Theorem saved_entries_stay
  (db : database) (d : string) (e : Entry.t)
  (rs : list (faults * request))
  (Hin : In e (entries db)) (Hdate : Entry.date e = Some d) :
  let later := serve_all rs db in
  (exists e', In e' (entries later) /\ Entry.date e' = Some d /\
              Entry.id e' = Entry.id e /\
              (Entry.image_data e <> None -> Entry.image_data e' <> None)) /\
  (exists shown, Api.answer None (GET_entry d) later = Ok200 (JsonEntry shown)
                 /\ Entry.date shown = Some d) /\
  (forall p : EntryBody.t,
     EntryBody.date p = Some d ->
     EntryBody.image_data p = Some EmptyString ->
     exists shown,
       Api.answer None (GET_entry d)
         (Api.store_after None (POST_entries p) later)
       = Ok200 (JsonEntry shown) /\
       Entry.date shown = Some d /\
       Entry.image_data shown = Some EmptyString).
Proof.
  intros later.
  assert (Hrow : exists e', In e' (entries later) /\ Entry.date e' = Some d /\
                   Entry.id e' = Entry.id e /\
                   (Entry.image_data e <> None -> Entry.image_data e' <> None)).
  { unfold later. clear later.
    assert (H0 : exists e', In e' (entries db) /\ Entry.date e' = Some d /\
                   Entry.id e' = Entry.id e /\
                   (Entry.image_data e <> None ->
                    Entry.image_data e' <> None)).
    { exists e. auto. }
    clear Hin Hdate. revert db H0.
    induction rs as [|[f r] rest IH]; intros db H0; simpl; [exact H0|].
    apply IH. rewrite store_after_final.
    apply (route_keeps _ r
             (entry_row_kept d (Entry.id e) (Entry.image_data e <> None))).
    exact H0. }
  split; [exact Hrow|].
  destruct Hrow as [e' [Hin' [Hd' _]]].
  unfold Api.answer, Api.serve. cbn [Api.route].
  unfold Api.get_entry, bind, execute, ret.
  cbn [Sql.select_entry_by_date fst].
  split.
  - destruct (find _ (entries later)) as [shown|] eqn:F.
    + exists shown. split; [reflexivity|].
      apply find_some in F as [_ F].
      apply text_eqb_true in F as [s [Hs Hd]]. congruence.
    + exfalso. apply (find_none _ _ F) in Hin'.
      rewrite Hd', text_eqb_some in Hin'. discriminate.
  - intros p Hp Hempty.
    assert (E : find (fun x => text_eqb (Entry.date x) (Some d))
                  (entries (Api.store_after None (POST_entries p) later))
                = Some match find (fun x => text_eqb (Entry.date x) (Some d))
                               (entries later) with
                       | Some x => Sql.do_update x p
                       | None =>
                         Sql.excluded (seq_entries (sqlite_sequence later) + 1)
                           p
                       end).
    { apply (find_on_conflict_date _ p d _ Hp). }
    rewrite E. eexists. split; [reflexivity|].
    destruct (find _ (entries later)) as [x|] eqn:F; cbn.
    + rewrite Hempty. split; [|reflexivity].
      apply find_some in F as [_ F].
      apply text_eqb_true in F as [s0 [Hs Hd]]. congruence.
    + rewrite Hempty. split; [exact Hp|reflexivity].
Qed.

(** * The client with the server *)

(** ** Toggling a task or a target *)

Lemma same_id_same_row {A : Type} (g : A -> Z) (l : list A) (x y : A) :
  NoDup (map g l) -> In x l -> In y l -> g x = g y -> x = y.
Proof.
  induction l as [|z rest IH]; intros Hnd Hx Hy Heq; [destruct Hx|].
  inversion Hnd as [|? ? Hnotin Hrest]; subst.
  destruct Hx as [<-|Hx], Hy as [<-|Hy]; trivial.
  - exfalso. apply Hnotin. rewrite Heq. apply in_map. exact Hy.
  - exfalso. apply Hnotin. rewrite <- Heq. apply in_map. exact Hx.
  - apply IH; assumption.
Qed.

Lemma toggled_flag (c : Z) :
  c = 0 \/ c = 1 -> Api.completed_flag (Client.toggled c) = 1 - c.
Proof. intros [-> | ->]; reflexivity. Qed.

(** X17.  A click on a task sends [{ completed: !task.completed }] for the
    value the server answered.  In a store the API can reach the click
    flips the flag of that task, 0 to 1 and 1 to 0, and a second click
    brings the store back to what it was; so it is for a target. *)
Theorem toggle_flips_and_toggles_back
  (db : database) (Hreach : reachable db) :
  (forall t, In t (tasks db) ->
     let once :=
       Api.store_after None
         (PATCH_task (Task.id t) (Client.toggled (Task.completed t))) db in
     let flipped :=
       Task.Build (Task.id t) (Task.date t) (Task.title t)
         (1 - Task.completed t) in
     In flipped (tasks once) /\
     Api.store_after None
       (PATCH_task (Task.id t) (Client.toggled (Task.completed flipped)))
       once = db) /\
  (forall t, In t (targets db) ->
     let once :=
       Api.store_after None
         (PATCH_target (Target.id t) (Client.toggled (Target.completed t)))
         db in
     let flipped :=
       Target.Build (Target.id t) (Target.type t) (Target.title t)
         (1 - Target.completed t) (Target.period_key t) in
     In flipped (targets once) /\
     Api.store_after None
       (PATCH_target (Target.id t)
          (Client.toggled (Target.completed flipped)))
       once = db).
Proof.
  destruct (reachable_rowids_sound db Hreach)
    as (_ & (_ & Hg & _) & (_ & Hk & _) & _).
  destruct (reachable_completed_is_bit db Hreach) as [Bk Bg].
  rewrite Forall_forall in Bk, Bg.
  split.
  - intros t Hin once flipped.
    pose proof (Bk t Hin) as Hbit.
    assert (Hflip : 1 - Task.completed t = 0 \/ 1 - Task.completed t = 1)
      by lia.
    unfold once, Api.store_after. rewrite !patch_task_store. cbn [snd].
    rewrite (toggled_flag _ Hbit).
    cbn [Task.completed flipped]. rewrite (toggled_flag _ Hflip).
    split.
    + cbn [tasks Sql.with_tasks]. apply in_map_iff. exists t.
      split; [|exact Hin]. unfold Sql.set_task_completed.
      rewrite Z.eqb_refl. reflexivity.
    + unfold Sql.with_tasks. cbn [tasks targets entries routine_templates routine_template_tasks
        sqlite_sequence seq_tasks seq_entries seq_targets
        seq_routine_templates seq_routine_template_tasks].
      rewrite map_map.
      rewrite map_no_match.
      * destruct db as [? ? ? ? ? []]. reflexivity.
      * intros x Hx. unfold Sql.set_task_completed.
        destruct (Task.id x =? Task.id t) eqn:E.
        -- apply Z.eqb_eq in E.
           assert (x = t) by (apply (same_id_same_row Task.id (tasks db));
                              assumption).
           subst x. cbn [Task.id Task.date Task.title Task.completed].
           rewrite Z.eqb_refl.
           replace (1 - (1 - Task.completed t)) with (Task.completed t) by lia.
           destruct t. reflexivity.
        -- rewrite E. reflexivity.
  - intros t Hin once flipped.
    pose proof (Bg t Hin) as Hbit.
    assert (Hflip : 1 - Target.completed t = 0 \/ 1 - Target.completed t = 1)
      by lia.
    unfold once, Api.store_after. rewrite !patch_target_store. cbn [snd].
    rewrite (toggled_flag _ Hbit).
    cbn [Target.completed flipped]. rewrite (toggled_flag _ Hflip).
    split.
    + cbn [targets Sql.with_targets]. apply in_map_iff. exists t.
      split; [|exact Hin]. unfold Sql.set_target_completed.
      rewrite Z.eqb_refl. reflexivity.
    + unfold Sql.with_targets. cbn [tasks targets entries routine_templates routine_template_tasks
        sqlite_sequence seq_tasks seq_entries seq_targets
        seq_routine_templates seq_routine_template_tasks].
      rewrite map_map.
      rewrite map_no_match.
      * destruct db as [? ? ? ? ? []]. reflexivity.
      * intros x Hx. unfold Sql.set_target_completed.
        destruct (Target.id x =? Target.id t) eqn:E.
        -- apply Z.eqb_eq in E.
           assert (x = t)
             by (apply (same_id_same_row Target.id (targets db)); assumption).
           subst x.
           cbn [Target.id Target.type Target.title Target.completed
                Target.period_key].
           rewrite Z.eqb_refl.
           replace (1 - (1 - Target.completed t)) with (Target.completed t)
             by lia.
           destruct t. reflexivity.
        -- rewrite E. reflexivity.
Qed.

(** ** Targets by type *)

(** X18.  [GET /api/targets/:period] answers the targets of every type
    under the period key, and the client keeps those of the type shown.
    After [addTarget] the list of its type is the former list followed
    by the new target, while the list of any other type under the same
    period key is unchanged. *)
Theorem add_target_shows_under_its_type_only
  (db : database) (type other periodKey title : string)
  (Hother : other <> type) :
  let db' :=
    Api.store_after None (Client.addTarget type periodKey title) db in
  exists data data' : list Target.t,
    Api.answer None (GET_targets periodKey) db = Ok200 (JsonTargets data) /\
    Api.answer None (GET_targets periodKey) db' = Ok200 (JsonTargets data') /\
    Client.fetchTargets type data'
    = Client.fetchTargets type data
        ++ [Target.Build (seq_targets (sqlite_sequence db) + 1) (Some type)
              (Some title) 0 (Some periodKey)] /\
    Client.fetchTargets other data' = Client.fetchTargets other data /\
    Forall (fun t => Target.type t = Some type /\
                     Target.period_key t = Some periodKey)
      (Client.fetchTargets type data').
Proof.
  intros db'. eexists. eexists. split; [reflexivity|].
  split; [reflexivity|].
  unfold db', Client.addTarget, Client.fetchTargets. cbn.
  assert (Hne : String.eqb type other = false)
    by (apply String.eqb_neq; congruence).
  rewrite !filter_app. cbn. repeat (rewrite String.eqb_refl; cbn).
  rewrite Hne.
  split; [reflexivity|]. split; [apply app_nil_r|].
  apply Forall_app. split.
  - rewrite Forall_forall. intros t Ht.
    apply filter_In in Ht as [Ht Htype].
    apply filter_In in Ht as [_ Hkey].
    apply text_eqb_true in Htype as [s [Hs Hs']].
    apply text_eqb_true in Hkey as [k [Hk Hk']].
    split; congruence.
  - constructor; [split; reflexivity|constructor].
Qed.

(** ** The insights view *)

Lemma findIndex_from_spec {A : Type} (p : A -> bool) (l : list A) :
  forall i : Z,
    (Client.findIndex_from i p l = -1 /\ forall x, In x l -> p x = false) \/
    (exists k x, Client.findIndex_from i p l = i + Z.of_nat k /\
                 (k < List.length l)%nat /\ nth_error l k = Some x /\
                 p x = true).
Proof.
  induction l as [|y rest IH]; intros i; simpl.
  - left. split; [reflexivity|]. intros x [].
  - destruct (p y) eqn:E.
    + right. exists O, y. repeat split; [lia|lia|exact E].
    + destruct (IH (i + 1)) as [[Hm Hall]|[k [x [Hk [Hlt [Hnth Hp]]]]]].
      * left. split; [exact Hm|]. intros x [<-|Hx]; [exact E|auto].
      * right. exists (S k), x. repeat split; [lia|lia|exact Hnth|exact Hp].
Qed.

(** X19.  The mood score of an entry is 0 when its mood is none of the
    six labels of [MOODS] (also when it is empty or null) and otherwise
    the position of the label, from 1 for Peaceful to 6 for Productive;
    it always lies in the chart's domain from 0 to 6, and entries with
    the same non-zero score have the same mood. *)
Theorem mood_score_is_the_position_of_the_label (e1 e2 : Entry.t) :
  0 <= Client.moodScore e1 <= 6 /\
  (Client.moodScore e1 = 0 <->
   forall m, In m Client.MOODS -> Entry.mood e1 <> Some (Client.label m)) /\
  (Client.moodScore e1 <> 0 ->
   Client.moodScore e1 = Client.moodScore e2 ->
   Entry.mood e1 = Entry.mood e2) /\
  map (fun m =>
         Client.moodScore
           (Entry.Build 0 None None (Some (Client.label m)) None None None
              None))
    Client.MOODS = [1; 2; 3; 4; 5; 6].
Proof.
  assert (Hspec : forall e,
    (Client.moodScore e = 0 /\
     forall m, In m Client.MOODS -> Entry.mood e <> Some (Client.label m)) \/
    (exists k m, Client.moodScore e = 1 + Z.of_nat k /\ (k < 6)%nat /\
                 nth_error Client.MOODS k = Some m /\
                 Entry.mood e = Some (Client.label m))).
  { intros e. unfold Client.moodScore, Client.findIndex.
    destruct (findIndex_from_spec
                (fun m => text_eqb (Some (Client.label m)) (Entry.mood e))
                Client.MOODS 0)
      as [[Hm Hall]|[k [m [Hk [Hlt [Hnth Hp]]]]]].
    - left. split; [rewrite Hm; reflexivity|].
      intros m Hin Heq. specialize (Hall m Hin). cbv beta in Hall.
      rewrite Heq, text_eqb_some in Hall. discriminate.
    - right. exists k, m. split; [rewrite Hk; lia|].
      split; [exact Hlt|]. split; [exact Hnth|].
      apply text_eqb_true in Hp as [s [Hs Hs']]. congruence. }
  split; [|split; [|split]].
  - destruct (Hspec e1) as [[H0 _]|[k [m [Hk [Hlt _]]]]]; lia.
  - split.
    + intros H0. destruct (Hspec e1) as [[_ Hall]|[k [m [Hk _]]]];
        [exact Hall|lia].
    + intros Hall.
      destruct (Hspec e1) as [[H0 _]|[k [m [_ [_ [Hnth Hmood]]]]]];
        [exact H0|].
      exfalso. apply (Hall m); [|exact Hmood].
      apply nth_error_In in Hnth. exact Hnth.
  - intros Hnz Heq.
    destruct (Hspec e1) as [[H0 _]|[k1 [m1 [Hk1 [_ [Hn1 Hm1]]]]]];
      [contradiction|].
    destruct (Hspec e2) as [[H0 _]|[k2 [m2 [Hk2 [_ [Hn2 Hm2]]]]]];
      [lia|].
    assert (k1 = k2) by lia. subst k2.
    rewrite Hn1 in Hn2. injection Hn2 as <-. congruence.
  - reflexivity.
Qed.

Lemma In_firstn_to_In {A : Type} (n : nat) (l : list A) (x : A) :
  In x (firstn n l) -> In x l.
Proof.
  intros H. rewrite <- (firstn_skipn n l). apply in_or_app. left. exact H.
Qed.

Lemma In_skipn_to_In {A : Type} (n : nat) (l : list A) (x : A) :
  In x (skipn n l) -> In x l.
Proof.
  intros H. rewrite <- (firstn_skipn n l). apply in_or_app. right. exact H.
Qed.

Lemma StronglySorted_firstn {A : Type} (R : A -> A -> Prop) (n : nat)
  (l : list A) :
  StronglySorted R l -> StronglySorted R (firstn n l).
Proof.
  revert n. induction l as [|x rest IH]; intros n S.
  - rewrite firstn_nil. constructor.
  - destruct n as [|n]; simpl; [constructor|].
    inversion S as [|? ? Srest Hall]; subst.
    constructor; [apply IH; exact Srest|].
    rewrite Forall_forall in *. intros y Hy. apply Hall.
    apply (In_firstn_to_In n _ _ Hy).
Qed.

Lemma StronglySorted_split {A : Type} (R : A -> A -> Prop) (n : nat)
  (l : list A) :
  StronglySorted R l ->
  forall a b, In a (firstn n l) -> In b (skipn n l) -> R a b.
Proof.
  revert n. induction l as [|x rest IH]; intros n S a b Ha Hb.
  - rewrite firstn_nil in Ha. destruct Ha.
  - destruct n as [|n]; simpl in *; [destruct Ha|].
    inversion S as [|? ? Srest Hall]; subst.
    destruct Ha as [<-|Ha].
    + rewrite Forall_forall in Hall. apply Hall.
      apply (In_skipn_to_In n _ _ Hb).
    + apply (IH n Srest a b Ha Hb).
Qed.

Lemma StronglySorted_rev {A : Type} (R : A -> A -> Prop) (l : list A) :
  StronglySorted R l -> StronglySorted (fun a b => R b a) (rev l).
Proof.
  induction l as [|x rest IH]; intros S; simpl; [constructor|].
  inversion S as [|? ? Srest Hall]; subst.
  specialize (IH Srest). clear S Srest.
  assert (Hall' : Forall (fun y => R x y) (rev rest)).
  { rewrite Forall_forall in *. intros y Hy. apply Hall.
    apply in_rev. exact Hy. }
  clear Hall. induction (rev rest) as [|y more IHm]; simpl.
  - constructor; constructor.
  - inversion IH as [|? ? Smore Hy]; subst.
    inversion Hall' as [|? ? Hxy Hmore]; subst.
    constructor; [apply IHm; assumption|].
    apply Forall_app. split; [exact Hy|]. constructor; [exact Hxy|constructor].
Qed.

(** X20.  The rows that the two chart callbacks of the insights view are
    mapped over, [entries.slice(0, 7).reverse()] of what
    [GET /api/entries] answered, are at most seven entries of the store,
    in ascending order of the date text, and no row that is left out has
    a greater date text than one of them.  When every stored date is
    written [yyyy-MM-dd] they are the entries of the latest days, oldest
    first.  (What the callbacks make of a row, which includes parsing
    its date, is not part of this.) *)
Theorem charted_rows_are_the_latest_seven_oldest_first (db : database) :
  exists rows : list Entry.t,
    Api.answer None GET_entries db = Ok200 (JsonEntries rows) /\
    List.length (Client.charted rows)
    = Nat.min 7 (List.length (entries db)) /\
    (forall e, In e (Client.charted rows) -> In e (entries db)) /\
    StronglySorted date_asc (Client.charted rows) /\
    (forall shown left_out,
       In shown (Client.charted rows) -> In left_out (skipn 7 rows) ->
       date_desc shown left_out) /\
    Permutation (entries db) (rev (Client.charted rows) ++ skipn 7 rows) /\
    (Forall (fun e => Spec.zero_padded (Entry.date e) = true) (entries db) ->
     StronglySorted (fun a b => Spec.not_older b a) (Client.charted rows) /\
     forall shown left_out,
       In shown (Client.charted rows) -> In left_out (skipn 7 rows) ->
       Spec.not_older shown left_out).
Proof.
  exists (Sql.order_by_date_desc (entries db)).
  pose proof (order_by_date_desc_sorted (entries db)) as Hsorted.
  pose proof (order_by_date_desc_permutation (entries db)) as Hperm.
  assert (Hin : forall e, In e (Client.charted
                                  (Sql.order_by_date_desc (entries db))) ->
                          In e (entries db)).
  { intros e He. unfold Client.charted in He. apply in_rev in He.
    apply In_firstn_to_In in He.
    apply (Permutation_in _ (Permutation_sym Hperm)). exact He. }
  assert (Hasc : StronglySorted date_asc
                   (Client.charted (Sql.order_by_date_desc (entries db)))).
  { unfold Client.charted. apply (StronglySorted_rev date_desc).
    apply StronglySorted_firstn. exact Hsorted. }
  assert (Hleft : forall shown left_out,
            In shown (Client.charted (Sql.order_by_date_desc (entries db))) ->
            In left_out (skipn 7 (Sql.order_by_date_desc (entries db))) ->
            date_desc shown left_out).
  { intros shown left_out Hs Hl. unfold Client.charted in Hs.
    apply in_rev in Hs.
    apply (StronglySorted_split date_desc 7 _ Hsorted shown left_out Hs Hl). }
  split; [reflexivity|].
  split; [|split; [exact Hin|split; [exact Hasc|split; [exact Hleft|split]]]].
  - unfold Client.charted. rewrite length_rev, length_firstn.
    rewrite (Permutation_length Hperm). reflexivity.
  - unfold Client.charted. rewrite rev_involutive, firstn_skipn. exact Hperm.
  - intros Hpadded. rewrite Forall_forall in Hpadded. split.
    + apply (StronglySorted_among date_asc); [|exact Hasc].
      intros a b Ha Hb Hab. unfold date_asc in Hab.
      apply padded_text_order_is_day_order;
        [apply Hpadded; apply Hin; exact Hb
        |apply Hpadded; apply Hin; exact Ha|exact Hab].
    + intros shown left_out Hs Hl.
      apply padded_text_order_is_day_order;
        [apply Hpadded; apply Hin; exact Hs| |apply Hleft; assumption].
      apply Hpadded. apply (Permutation_in _ (Permutation_sym Hperm)).
      apply (In_skipn_to_In 7 _ _ Hl).
Qed.

(** ** Saving the entry of the day *)

Lemma fetched_row_is_found (db : database) (d : string)
  (entryRes : option Entry.t) :
  Api.answer None (GET_entry d) db = Ok200 (Client.entry_or_null entryRes) ->
  find (fun e => text_eqb (Entry.date e) (Some d)) (entries db) = entryRes.
Proof.
  unfold Api.answer, Api.serve. cbn [Api.route].
  unfold Api.get_entry, bind, execute, ret.
  cbn [Sql.select_entry_by_date fst].
  destruct (find _ (entries db)) as [e|], entryRes as [e'|]; cbn;
    intros H; try discriminate; [injection H as <-|]; reflexivity.
Qed.

Lemma save_entry_round_trip (db : database) (d : string)
  (entryRes : option Entry.t) (u : EntryObject.t) :
  Api.answer None (GET_entry d) db = Ok200 (Client.entry_or_null entryRes) ->
  EntryObject.date u = None ->
  let saved := Client.saveEntry (Some (Client.fetched_entry d entryRes)) u in
  let db' := Api.store_after None (snd saved) db in
  exists e' : Entry.t,
    Api.answer None (GET_entry d) db' = Ok200 (JsonEntry e') /\
    Entry.date e' = Some d /\
    Entry.journal_text e'
    = Client.bound (EntryObject.journal_text (fst saved)) /\
    Entry.mood e' = Client.bound (EntryObject.mood (fst saved)) /\
    Entry.sleep_start e' = Client.bound (EntryObject.sleep_start (fst saved)) /\
    Entry.sleep_end e' = Client.bound (EntryObject.sleep_end (fst saved)) /\
    Entry.reflection_json e'
    = Client.bound (EntryObject.reflection_json (fst saved)) /\
    (EntryObject.image_data u <> Some None ->
     Entry.image_data e' = Client.bound (EntryObject.image_data (fst saved))) /\
    (forall e, entryRes = Some e -> Entry.id e' = Entry.id e) /\
    (EntryObject.image_data u = Some None ->
     Entry.image_data e' = match entryRes with
                           | Some e => Entry.image_data e
                           | None => None
                           end).
Proof.
  intros Hfetch Hdate saved db'.
  apply fetched_row_is_found in Hfetch.
  assert (Hbody : EntryBody.date (Client.body_of (fst saved)) = Some d).
  { unfold saved, Client.saveEntry, Client.spread, Client.body_of. cbn.
    rewrite Hdate. destruct entryRes as [e|]; cbn; [|reflexivity].
    subst. match goal with H : find _ _ = Some _ |- _ =>
      apply find_some in H as [_ H];
      apply text_eqb_true in H as [s [Hs Hd]] end.
    congruence. }
  unfold Api.answer, Api.serve. cbn [Api.route].
  unfold Api.get_entry, bind, execute, ret.
  cbn [Sql.select_entry_by_date fst].
  assert (E : find (fun e => text_eqb (Entry.date e) (Some d)) (entries db')
              = Some match find (fun e => text_eqb (Entry.date e) (Some d))
                             (entries db) with
                     | Some e => Sql.do_update e (Client.body_of (fst saved))
                     | None =>
                       Sql.excluded (seq_entries (sqlite_sequence db) + 1)
                         (Client.body_of (fst saved))
                     end).
  { apply (find_on_conflict_date _ (Client.body_of (fst saved)) d _ Hbody). }
  rewrite E, Hfetch. eexists. split; [reflexivity|].
  destruct entryRes as [e|].
  - cbn [Sql.do_update Entry.date Entry.journal_text Entry.mood
         Entry.sleep_start Entry.sleep_end Entry.reflection_json
         Entry.image_data Entry.id].
    apply find_some in Hfetch as [_ Hd].
    apply text_eqb_true in Hd as [s [Hs Hd]]. inversion Hd; subst s.
    split; [exact Hs|]. do 5 (split; [reflexivity|]). split.
    + intros Himg. unfold saved, Client.saveEntry, Client.spread. cbn.
      destruct (EntryObject.image_data u) as [[img|]|]; cbn;
        [reflexivity|contradiction|].
      destruct (Entry.image_data e); reflexivity.
    + split; [intros e0 He0; injection He0 as <-; reflexivity|].
      intros Hnull. unfold saved, Client.saveEntry, Client.spread. cbn.
      rewrite Hnull. reflexivity.
  - cbn [Sql.excluded Entry.date Entry.journal_text Entry.mood
         Entry.sleep_start Entry.sleep_end Entry.reflection_json
         Entry.image_data Entry.id].
    split; [exact Hbody|]. do 5 (split; [reflexivity|]).
    split; [intros _; reflexivity|].
    split; [intros e0 He0; discriminate|].
    intros Hnull. unfold saved, Client.saveEntry, Client.spread. cbn.
    rewrite Hnull. reflexivity.
Qed.

(** ** The limit of the body parser *)

Lemma string_length_append (a b : string) :
  String.length (a ++ b) = (String.length a + String.length b)%nat.
Proof. induction a as [|c a IH]; simpl; [reflexivity|rewrite IH; reflexivity]. Qed.

Lemma escaped_length (c : ascii) : (1 <= String.length (Wire.escaped c))%nat.
Proof.
  unfold Wire.escaped, Wire.backslash. cbv zeta.
  repeat match goal with
         | |- context [if ?b then _ else _] => destruct b
         end; simpl; lia.
Qed.

Lemma escape_length (s : string) :
  (String.length s <= String.length (Wire.escape s))%nat.
Proof.
  induction s as [|c rest IH]; simpl; [lia|].
  rewrite string_length_append. pose proof (escaped_length c). lia.
Qed.

Lemma concat_last_length (sep : string) (l : list string) (x : string) :
  (String.length x <= String.length (String.concat sep (l ++ [x])))%nat.
Proof.
  induction l as [|a rest IH]; [simpl; lia|].
  change ((a :: rest) ++ [x])%list with (a :: (rest ++ [x]))%list.
  destruct (rest ++ [x])%list as [|y ys] eqn:E; [destruct rest; discriminate|].
  change (String.concat sep (a :: y :: ys))
    with (a ++ sep ++ String.concat sep (y :: ys))%string.
  rewrite !string_length_append. lia.
Qed.

Lemma stringify_length (o : EntryObject.t) (img : string) :
  EntryObject.image_data o = Some (Some img) ->
  (String.length img <= String.length (Wire.stringify o))%nat.
Proof.
  intros H. unfold Wire.stringify. rewrite H. rewrite !app_assoc.
  cbn [Wire.property Wire.value].
  match goal with
  | |- context [String.concat ?sep (?l ++ [?x])%list] =>
    pose proof (concat_last_length sep l x) as Hc
  end.
  rewrite !string_length_append in *.
  pose proof (escape_length img). lia.
Qed.

(** A body that carries an image longer than the limit is over the
    limit. *)
Lemma oversized_image_is_refused (o : EntryObject.t) (img : string) :
  EntryObject.image_data o = Some (Some img) ->
  (Express.limit < N.of_nat (String.length img))%N ->
  Express.json (Wire.stringify o) = false.
Proof.
  intros H Hbig. unfold Express.json. apply N.leb_gt.
  pose proof (stringify_length o img H). lia.
Qed.

(** X21.  [saveEntry] on the entry that [fetchDailyData] set for a day,
    be it the stored row or the default for a day without one, sends the
    merged object, the update's properties where it names one and the
    fetched ones elsewhere.  When its JSON text is longer than the 10 MB
    of the body parser, an image of more than 10 MB making it so, the
    server answers 413 and stores nothing.  Otherwise the server answers
    success and stores what the client then shows: afterwards
    [GET /api/entries/:date] answers an entry with the date of the day
    whose text fields are those of the merged object, under the id it
    had.  The image is the merged one too, unless the update names a
    null image: then the stored image stays as it was, and a day without
    an entry gets none. *)
Theorem save_entry_stores_the_merged_entry
  (db : database) (d : string) (entryRes : option Entry.t)
  (updatedEntry : EntryObject.t)
  (Hfetch : Api.answer None (GET_entry d) db
            = Ok200 (Client.entry_or_null entryRes))
  (Hdate : EntryObject.date updatedEntry = None) :
  let entry := Client.fetched_entry d entryRes in
  let newEntry := fst (Client.saveEntry (Some entry) updatedEntry) in
  let sent := fetch_post_entries newEntry db in
  let db' := snd sent in
  newEntry = Client.spread entry updatedEntry /\
  snd (Client.saveEntry (Some entry) updatedEntry)
  = POST_entries (Client.body_of newEntry) /\
  (forall img, EntryObject.image_data newEntry = Some (Some img) ->
               (Express.limit < N.of_nat (String.length img))%N ->
               Express.json (Wire.stringify newEntry) = false) /\
  (Express.json (Wire.stringify newEntry) = false ->
   sent = (Express.PayloadTooLarge413, db)) /\
  (Express.json (Wire.stringify newEntry) = true ->
   fst sent = Express.Routed (Ok200 JsonSuccess)) /\
  (Express.json (Wire.stringify newEntry) = true ->
  exists e' : Entry.t,
    Api.answer None (GET_entry d) db' = Ok200 (JsonEntry e') /\
    Entry.date e' = Some d /\
    Entry.journal_text e' = Client.bound (EntryObject.journal_text newEntry) /\
    Entry.mood e' = Client.bound (EntryObject.mood newEntry) /\
    Entry.sleep_start e' = Client.bound (EntryObject.sleep_start newEntry) /\
    Entry.sleep_end e' = Client.bound (EntryObject.sleep_end newEntry) /\
    Entry.reflection_json e'
    = Client.bound (EntryObject.reflection_json newEntry) /\
    (EntryObject.image_data updatedEntry <> Some None ->
     Entry.image_data e' = Client.bound (EntryObject.image_data newEntry)) /\
    (forall e, entryRes = Some e -> Entry.id e' = Entry.id e) /\
    (entryRes = None -> EntryObject.sleep_start updatedEntry = None ->
     EntryObject.sleep_end updatedEntry = None ->
     Entry.sleep_start e' = Some "22:00"%string /\
     Entry.sleep_end e' = Some "07:00"%string) /\
    (EntryObject.image_data updatedEntry = Some None ->
     forall e, entryRes = Some e -> Entry.image_data e' = Entry.image_data e) /\
    (EntryObject.image_data updatedEntry = Some None ->
     entryRes = None -> Entry.image_data e' = None)).
Proof.
  intros entry newEntry sent db'. split; [reflexivity|].
  split; [reflexivity|].
  split; [intros img; apply oversized_image_is_refused|].
  split; [intros Hbig; unfold sent, fetch_post_entries, Express.post;
          rewrite Hbig; reflexivity|].
  split; [intros Hfits; unfold sent, fetch_post_entries, Express.post;
          rewrite Hfits; reflexivity|].
  intros Hfits.
  assert (Hdb' : db' = Api.store_after None
                         (snd (Client.saveEntry (Some entry) updatedEntry)) db).
  { unfold db', sent, fetch_post_entries, Express.post.
    rewrite Hfits. reflexivity. }
  rewrite Hdb'.
  destruct (save_entry_round_trip db d entryRes updatedEntry Hfetch Hdate)
    as [e' [Hget [Hd [Hj [Hm [Hs [He [Hr [Hi [Hid Hnull]]]]]]]]]].
  exists e'. split; [exact Hget|]. split; [exact Hd|].
  split; [exact Hj|]. split; [exact Hm|]. split; [exact Hs|].
  split; [exact He|]. split; [exact Hr|]. split; [exact Hi|].
  split; [exact Hid|].
  split.
  { intros Hnone Hs0 He0. rewrite Hs, He. subst entryRes.
    unfold Client.saveEntry, Client.spread. cbn. rewrite Hs0, He0.
    split; reflexivity. }
  split.
  - intros Hn e Hrow. rewrite (Hnull Hn), Hrow. reflexivity.
  - intros Hn Hrow. rewrite (Hnull Hn), Hrow. reflexivity.
Qed.

(** X22.  [handleGenerateImage] sends nothing when the entry has no
    journal text or the image service returns no image.  Otherwise it
    saves the entry with the returned image.  When the JSON text of that
    entry is within the 10 MB of the body parser, the server answers
    success and the stored entry of the day then has that image, and the
    text fields that the client had fetched.  When it is longer, as it is
    for every image of more than 10 MB, the server answers 413 and the
    store is as before: the image is not saved. *)
Theorem generated_image_is_saved_with_the_entry
  (generateDailyImage : text -> option text -> list text -> text)
  (db : database) (d : string) (entryRes : option Entry.t)
  (tasks : list Task.t)
  (Hfetch : Api.answer None (GET_entry d) db
            = Ok200 (Client.entry_or_null entryRes)) :
  let entry := Client.fetched_entry d entryRes in
  let imageData :=
    generateDailyImage (Client.bound (EntryObject.journal_text entry))
      (EntryObject.mood entry) (Client.completedTasks tasks) in
  match Client.handleGenerateImage generateDailyImage (Some entry) tasks with
  | None =>
    Client.truthy_text (EntryObject.journal_text entry) = false \/
    imageData = None \/ imageData = Some ""%string
  | Some (newEntry, r) =>
    Client.truthy_text (EntryObject.journal_text entry) = true /\
    exists img,
      imageData = Some img /\ img <> ""%string /\
      r = POST_entries (Client.body_of newEntry) /\
      EntryObject.image_data newEntry = Some (Some img) /\
      ((Express.limit < N.of_nat (String.length img))%N ->
       Express.json (Wire.stringify newEntry) = false) /\
      (Express.json (Wire.stringify newEntry) = false ->
       fetch_post_entries newEntry db = (Express.PayloadTooLarge413, db)) /\
      (Express.json (Wire.stringify newEntry) = true ->
       exists e',
         fetch_post_entries newEntry db
         = (Express.Routed (Ok200 JsonSuccess), Api.store_after None r db) /\
         Api.answer None (GET_entry d) (snd (fetch_post_entries newEntry db))
         = Ok200 (JsonEntry e') /\
         Entry.image_data e' = Some img /\
         Entry.journal_text e'
         = Client.bound (EntryObject.journal_text entry) /\
         Entry.mood e' = Client.bound (EntryObject.mood entry) /\
         Entry.sleep_start e' = Client.bound (EntryObject.sleep_start entry) /\
         Entry.sleep_end e' = Client.bound (EntryObject.sleep_end entry) /\
         Entry.reflection_json e'
         = Client.bound (EntryObject.reflection_json entry))
  end.
Proof.
  intros entry imageData. unfold Client.handleGenerateImage.
  fold entry. fold imageData.
  destruct (Client.truthy_text (EntryObject.journal_text entry)) eqn:Hj;
    cbn [negb]; [|left; reflexivity].
  destruct (Client.truthy_text (Some imageData)) eqn:Hi.
  - destruct imageData as [img|] eqn:Himg; [|discriminate].
    cbn in Hi. apply negb_true_iff in Hi. apply String.eqb_neq in Hi.
    set (u := EntryObject.Build None None None None None None None
                (Some (Some img))).
    destruct (save_entry_round_trip db d entryRes u Hfetch eq_refl)
      as [e' [Hget [_ [Hjt [Hm [Hs [He [Hr [Himage _]]]]]]]]].
    fold entry in Hget, Hjt, Hm, Hs, He, Hr, Himage.
    destruct (Client.saveEntry (Some entry) u) as [newEntry r] eqn:Hsave.
    split; [reflexivity|]. exists img.
    split; [reflexivity|]. split; [exact Hi|].
    assert (Hr' : r = POST_entries (Client.body_of (Client.spread entry u))).
    { unfold Client.saveEntry in Hsave. injection Hsave as _ <-. reflexivity. }
    assert (Hn : newEntry = Client.spread entry u).
    { unfold Client.saveEntry in Hsave. injection Hsave as <- _. reflexivity. }
    cbn [fst snd] in *. subst r newEntry.
    split; [reflexivity|]. split; [reflexivity|].
    split; [apply oversized_image_is_refused; reflexivity|].
    split; [intros Hbig; unfold fetch_post_entries, Express.post;
            match goal with
            | |- (if ?b then _ else _) = _ =>
              replace b with false by (symmetry; exact Hbig)
            end; reflexivity|].
    intros Hfits. exists e'.
    assert (Hsent : fetch_post_entries (Client.spread entry u) db
                    = (Express.Routed (Ok200 JsonSuccess),
                       Api.store_after None
                         (POST_entries (Client.body_of (Client.spread entry u)))
                         db)).
    { unfold fetch_post_entries, Express.post.
      match goal with
      | |- (if ?b then _ else _) = _ =>
        replace b with true by (symmetry; exact Hfits)
      end.
      reflexivity. }
    assert (Hsnd : snd (fetch_post_entries (Client.spread entry u) db)
                   = Api.store_after None
                       (POST_entries (Client.body_of (Client.spread entry u)))
                       db)
      by (rewrite Hsent; reflexivity).
    split; [exact Hsent|].
    split; [exact (eq_trans (f_equal (Api.answer None (GET_entry d)) Hsnd)
                     Hget)|].
    split; [rewrite Himage by discriminate; reflexivity|].
    rewrite Hjt, Hm, Hs, He, Hr. unfold Client.spread, u. cbn.
    repeat split.
  - right. destruct imageData as [img|]; [|left; reflexivity].
    right. cbn in Hi. apply negb_false_iff in Hi.
    apply String.eqb_eq in Hi. rewrite Hi. reflexivity.
Qed.

(** ** The further properties at concrete stores *)

Lemma post_targets_witness :
  "2024-06"%string <> "2024-05"%string /\
  Api.answer None (GET_targets "2024-06")
    (Api.store_after None
       (POST_targets (Some "monthly"%string) (Some "Read"%string)
          (Some "2024-05"%string)) morning_applied)
  = Api.answer None (GET_targets "2024-06") morning_applied.
Proof.
  assert (Hne : "2024-06"%string <> "2024-05"%string) by discriminate.
  split; [exact Hne|].
  destruct (post_targets_then_get_targets morning_applied
              (Some "monthly"%string) (Some "Read"%string) "2024-05")
    as [_ [_ [Hother _]]].
  exact (Hother "2024-06"%string Hne).
Defined.

Lemma post_tasks_witness :
  "2024-02-03"%string <> "2024-02-02"%string /\
  Api.answer None (GET_tasks "2024-02-03")
    (Api.store_after None
       (POST_tasks (Some "2024-02-02"%string) (Some "Read"%string))
       morning_applied)
  = Api.answer None (GET_tasks "2024-02-03") morning_applied.
Proof.
  assert (Hne : "2024-02-03"%string <> "2024-02-02"%string) by discriminate.
  split; [exact Hne|].
  destruct (post_tasks_then_get_tasks morning_applied (Some "Read"%string)
              "2024-02-02") as [_ [_ [Hother _]]].
  exact (Hother "2024-02-03"%string Hne).
Defined.

Lemma post_entries_other_dates_witness :
  EntryBody.date second_save <> Some "2024-01-02"%string /\
  entries_on "2024-01-02"
    (Api.store_after None (POST_entries second_save) saved_twice)
  = entries_on "2024-01-02" saved_twice.
Proof.
  assert (Hne : EntryBody.date second_save <> Some "2024-01-02"%string)
    by discriminate.
  split; [exact Hne|].
  exact (proj1 (proj2 (post_entries_leaves_other_dates None second_save
                         saved_twice "2024-01-02" Hne))).
Defined.

Lemma post_entries_without_date_witness :
  EntryBody.date
    (EntryBody.Build None (Some "undated"%string) None None None None None)
  = None /\
  List.length
    (entries
       (Api.repeat_request 2
          (POST_entries
             (EntryBody.Build None (Some "undated"%string) None None None
                None None)) saved_twice))
  = (List.length (entries saved_twice) + 2)%nat.
Proof.
  split; [reflexivity|].
  exact (proj1 (proj2 (proj2
           (post_entries_without_date_appends
              (EntryBody.Build None (Some "undated"%string) None None None
                 None None) saved_twice 2 "2024-01-01" eq_refl)))).
Defined.

Lemma evening_is_free :
  forall n, Some "Evening"%string = Some n ->
    forall t, In t (routine_templates morning_routine) ->
              RoutineTemplate.name t <> Some n.
Proof.
  intros n Hn t [<-|[]]. injection Hn as <-. discriminate.
Defined.

Lemma post_routine_templates_witness :
  reachable morning_routine /\
  Api.answer None
    (POST_routine_templates (Some "Evening"%string)
       (Some [Some "Read"%string])) morning_routine
  = Ok200 (JsonId 2).
Proof.
  split; [exact morning_routine_reachable|].
  exact (proj1 (post_routine_templates_then_list morning_routine
                  morning_routine_reachable (Some "Evening"%string)
                  [Some "Read"%string] evening_is_free)).
Defined.

Lemma failed_creation_witness :
  (forall t, In t (routine_templates empty_database) ->
             RoutineTemplate.name t <> Some "Morning"%string) /\
  (1 < List.length [Some "Stretch"%string; Some "Hydrate"%string])%nat /\
  Api.answer (Some 2%nat)
    (POST_routine_templates (Some "Morning"%string)
       (Some [Some "Stretch"%string; Some "Hydrate"%string])) empty_database
  = InternalServerError500 SQLITE_ENGINE.
Proof.
  assert (Hfree : forall t, In t (routine_templates empty_database) ->
                            RoutineTemplate.name t <> Some "Morning"%string).
  { intros t []. }
  assert (Hlt : (1 < List.length [Some "Stretch"%string;
                                  Some "Hydrate"%string])%nat).
  { apply le_n. }
  split; [exact Hfree|]. split; [exact Hlt|].
  destruct (failed_template_creation_keeps_the_name empty_database "Morning"
              [Some "Stretch"%string; Some "Hydrate"%string] 1 (Some [])
              Hfree) as [_ Hcut].
  exact (proj1 (Hcut Hlt)).
Defined.

Lemma applied_tasks_outlive_witness :
  reachable morning_routine /\
  routine_templates
    (Api.store_after None (DELETE_routine_template 2)
       (Api.store_after None
          (POST_apply_template (Some "2024-02-03"%string) (Some 2))
          (Api.store_after None
             (POST_routine_templates (Some "Evening"%string)
                (Some [Some "Read"%string])) morning_routine)))
  = routine_templates morning_routine.
Proof.
  split; [exact morning_routine_reachable|].
  destruct (applied_tasks_outlive_their_template morning_routine
              morning_routine_reachable (Some "Evening"%string)
              [Some "Read"%string] "2024-02-03" evening_is_free)
    as [_ [_ [Htpl _]]].
  exact Htpl.
Defined.

Lemma apply_unknown_template_witness :
  (forall id, Some 9 = Some id ->
     forall c, In c (routine_template_tasks morning_routine) ->
               RoutineTemplateTask.template_id c <> id) /\
  Api.serve None (POST_apply_template (Some "2024-02-02"%string) (Some 9))
    morning_routine = (Ok200 JsonSuccess, morning_routine).
Proof.
  assert (H : forall id, Some 9 = Some id ->
            forall c, In c (routine_template_tasks morning_routine) ->
                      RoutineTemplateTask.template_id c <> id).
  { intros id Hid c [<-|[<-|[]]]; injection Hid as <-; discriminate. }
  split; [exact H|].
  exact (apply_template_without_children_is_a_no_op morning_routine
           (Some "2024-02-02"%string) (Some 9) H).
Defined.

Lemma saved_entries_stay_witness :
  In (Entry.Build 1 (Some "2024-01-01"%string) (Some "hello again"%string)
        (Some "Peaceful"%string) (Some "23:00"%string) (Some "07:00"%string)
        (Some "{}"%string) (Some "data:image/png;base64,iVBOR"%string))
    (entries saved_twice) /\
  (exists shown,
     Api.answer None (GET_entry "2024-01-01")
       (serve_all [(Some 0%nat, GET_entries); (None, POST_entries second_save)]
          saved_twice)
     = Ok200 (JsonEntry shown) /\
     Entry.date shown = Some "2024-01-01"%string) /\
  (exists e',
     In e' (entries
              (serve_all
                 [(Some 0%nat, GET_entries); (None, POST_entries second_save)]
                 saved_twice)) /\
     Entry.id e' = 1 /\ Entry.image_data e' <> None) /\
  (exists shown,
     Api.answer None (GET_entry "2024-01-01")
       (Api.store_after None
          (POST_entries
             (EntryBody.Build (Some "2024-01-01"%string) None None None None
                None (Some EmptyString)))
          (serve_all
             [(Some 0%nat, GET_entries); (None, POST_entries second_save)]
             saved_twice))
     = Ok200 (JsonEntry shown) /\
     Entry.image_data shown = Some EmptyString).
Proof.
  assert (Hin : In (Entry.Build 1 (Some "2024-01-01"%string)
                      (Some "hello again"%string) (Some "Peaceful"%string)
                      (Some "23:00"%string) (Some "07:00"%string)
                      (Some "{}"%string)
                      (Some "data:image/png;base64,iVBOR"%string))
                   (entries saved_twice)).
  { left. reflexivity. }
  split; [exact Hin|].
  pose proof (saved_entries_stay saved_twice "2024-01-01" _
                [(Some 0%nat, GET_entries); (None, POST_entries second_save)]
                Hin eq_refl) as H.
  cbv zeta in H. destruct H as [[e' [Hin' [_ [Hid Himg]]]] [Hshown Hreplace]].
  split; [exact Hshown|].
  split; [exists e'; split; [exact Hin'|]; split;
            [exact Hid|apply Himg; discriminate]|].
  destruct (Hreplace
              (EntryBody.Build (Some "2024-01-01"%string) None None None None
                 None (Some EmptyString)) eq_refl eq_refl)
    as [shown [Hget [_ Himage]]].
  exists shown. split; [exact Hget|exact Himage].
Defined.

Lemma toggle_witness :
  reachable morning_applied /\
  In (Task.Build 1 (Some "2024-02-02"%string) (Some "Stretch"%string) 0)
    (tasks morning_applied) /\
  In (Task.Build 1 (Some "2024-02-02"%string) (Some "Stretch"%string) 1)
    (tasks (Api.store_after None (PATCH_task 1 (Client.toggled 0))
              morning_applied)).
Proof.
  assert (Hin : In (Task.Build 1 (Some "2024-02-02"%string)
                      (Some "Stretch"%string) 0) (tasks morning_applied)).
  { left. reflexivity. }
  split; [exact morning_applied_reachable|]. split; [exact Hin|].
  exact (proj1 (proj1 (toggle_flips_and_toggles_back morning_applied
                         morning_applied_reachable) _ Hin)).
Defined.

Lemma add_target_witness :
  "monthly"%string <> "weekly"%string /\
  exists data data' : list Target.t,
    Api.answer None (GET_targets "2024-05")
      (Api.store_after None (Client.addTarget "weekly" "2024-05" "Run")
         empty_database) = Ok200 (JsonTargets data') /\
    Client.fetchTargets "monthly" data' = Client.fetchTargets "monthly" data.
Proof.
  assert (Hne : "monthly"%string <> "weekly"%string) by discriminate.
  split; [exact Hne|].
  destruct (add_target_shows_under_its_type_only empty_database "weekly"
              "monthly" "2024-05" "Run" Hne)
    as [data [data' [_ [Hget [_ [Hother _]]]]]].
  exists data, data'. split; [exact Hget|exact Hother].
Defined.

Lemma mood_score_witness :
  Client.moodScore
    (Entry.Build 1 None None (Some "Sad"%string) None None None None) <> 0 /\
  Client.moodScore
    (Entry.Build 1 None None (Some "Sad"%string) None None None None)
  = Client.moodScore
      (Entry.Build 2 None None (Some "Sad"%string) None None None None) /\
  Entry.mood (Entry.Build 1 None None (Some "Sad"%string) None None None None)
  = Entry.mood
      (Entry.Build 2 None None (Some "Sad"%string) None None None None).
Proof.
  assert (Hnz : Client.moodScore
                  (Entry.Build 1 None None (Some "Sad"%string) None None None
                     None) <> 0) by discriminate.
  split; [exact Hnz|]. split; [reflexivity|].
  destruct (mood_score_is_the_position_of_the_label
              (Entry.Build 1 None None (Some "Sad"%string) None None None None)
              (Entry.Build 2 None None (Some "Sad"%string) None None None
                 None)) as [_ [_ [Hsame _]]].
  exact (Hsame Hnz eq_refl).
Defined.

Lemma save_entry_witness :
  Api.answer None (GET_entry "2024-03-01") saved_twice
  = Ok200 (Client.entry_or_null None) /\
  (exists e' : Entry.t,
     Api.answer None (GET_entry "2024-03-01")
       (snd (fetch_post_entries
               (fst (Client.saveEntry
                       (Some (Client.fetched_entry "2024-03-01" None))
                       (EntryObject.Build None None (Some (Some "hi"%string))
                          None None None None None)))
               saved_twice)) = Ok200 (JsonEntry e') /\
     Entry.journal_text e' = Some "hi"%string /\
     Entry.sleep_start e' = Some "22:00"%string /\
     Entry.sleep_end e' = Some "07:00"%string) /\
  Api.answer None (GET_entry "2024-01-01") saved_twice
  = Ok200
      (Client.entry_or_null
         (Some (Entry.Build 1 (Some "2024-01-01"%string)
                  (Some "hello again"%string) (Some "Peaceful"%string)
                  (Some "23:00"%string) (Some "07:00"%string)
                  (Some "{}"%string)
                  (Some "data:image/png;base64,iVBOR"%string)))) /\
  exists e' : Entry.t,
    Api.answer None (GET_entry "2024-01-01")
      (snd (fetch_post_entries
              (fst (Client.saveEntry
                      (Some (Client.fetched_entry "2024-01-01"
                               (Some (Entry.Build 1 (Some "2024-01-01"%string)
                                        (Some "hello again"%string)
                                        (Some "Peaceful"%string)
                                        (Some "23:00"%string)
                                        (Some "07:00"%string)
                                        (Some "{}"%string)
                                        (Some "data:image/png;base64,iVBOR"%string)))))
                      (EntryObject.Build None None (Some (Some "hi"%string))
                         None None None None (Some None))))
              saved_twice)) = Ok200 (JsonEntry e') /\
    Entry.id e' = 1 /\
    Entry.journal_text e' = Some "hi"%string /\
    Entry.image_data e' = Some "data:image/png;base64,iVBOR"%string.
Proof.
  split; [reflexivity|].
  split.
  - pose proof (save_entry_stores_the_merged_entry saved_twice "2024-03-01"
                  None
                  (EntryObject.Build None None (Some (Some "hi"%string)) None
                     None None None None) eq_refl eq_refl) as H.
    cbv zeta in H. destruct H as [_ [_ [_ [_ [_ Hstored]]]]].
    destruct (Hstored eq_refl)
      as [e' [Hget [_ [Hj [_ [_ [_ [_ [_ [_ [Hdefault _]]]]]]]]]]].
    exists e'. split; [exact Hget|]. split; [exact Hj|].
    exact (Hdefault eq_refl eq_refl eq_refl).
  - split; [reflexivity|].
    pose proof (save_entry_stores_the_merged_entry saved_twice "2024-01-01"
                  (Some (Entry.Build 1 (Some "2024-01-01"%string)
                           (Some "hello again"%string)
                           (Some "Peaceful"%string) (Some "23:00"%string)
                           (Some "07:00"%string) (Some "{}"%string)
                           (Some "data:image/png;base64,iVBOR"%string)))
                  (EntryObject.Build None None (Some (Some "hi"%string)) None
                     None None None (Some None)) eq_refl eq_refl) as H.
    cbv zeta in H. destruct H as [_ [_ [_ [_ [_ Hstored]]]]].
    destruct (Hstored eq_refl)
      as [e' [Hget [_ [Hj [_ [_ [_ [_ [_ [Hid [_ [Hkeep _]]]]]]]]]]]].
    exists e'. split; [exact Hget|].
    split; [exact (Hid _ eq_refl)|]. split; [exact Hj|].
    exact (Hkeep eq_refl _ eq_refl).
Defined.

Lemma generated_image_witness :
  Api.answer None (GET_entry "2024-01-01") saved_twice
  = Ok200
      (Client.entry_or_null
         (Some (Entry.Build 1 (Some "2024-01-01"%string)
                  (Some "hello again"%string) (Some "Peaceful"%string)
                  (Some "23:00"%string) (Some "07:00"%string)
                  (Some "{}"%string)
                  (Some "data:image/png;base64,iVBOR"%string)))) /\
  exists (sent : EntryObject.t * request) (e' : Entry.t),
    Client.handleGenerateImage
      (fun _ _ _ => Some "data:image/png;base64,AAAA"%string)
      (Some (Client.fetched_entry "2024-01-01"
               (Some (Entry.Build 1 (Some "2024-01-01"%string)
                        (Some "hello again"%string) (Some "Peaceful"%string)
                        (Some "23:00"%string) (Some "07:00"%string)
                        (Some "{}"%string)
                        (Some "data:image/png;base64,iVBOR"%string)))))
      [] = Some sent /\
    Express.json (Wire.stringify (fst sent)) = true /\
    fetch_post_entries (fst sent) saved_twice
    = (Express.Routed (Ok200 JsonSuccess),
       Api.store_after None (snd sent) saved_twice) /\
    Api.answer None (GET_entry "2024-01-01")
      (snd (fetch_post_entries (fst sent) saved_twice))
    = Ok200 (JsonEntry e') /\
    Entry.image_data e' = Some "data:image/png;base64,AAAA"%string /\
    Entry.journal_text e' = Some "hello again"%string.
Proof.
  split; [reflexivity|].
  pose proof (generated_image_is_saved_with_the_entry
                (fun _ _ _ => Some "data:image/png;base64,AAAA"%string)
                saved_twice "2024-01-01"
                (Some (Entry.Build 1 (Some "2024-01-01"%string)
                         (Some "hello again"%string) (Some "Peaceful"%string)
                         (Some "23:00"%string) (Some "07:00"%string)
                         (Some "{}"%string)
                         (Some "data:image/png;base64,iVBOR"%string)))
                [] eq_refl) as H.
  cbv zeta in H.
  destruct (Client.handleGenerateImage _ _ _) as [[newEntry r]|] eqn:Hout.
  - vm_compute in Hout. injection Hout as <- <-.
    destruct H as [_ [img [Himg [_ [_ [_ [_ [_ Hfits]]]]]]]].
    injection Himg as <-.
    destruct (Hfits eq_refl) as [e' [Hsent [Hget [Hi [Hj _]]]]].
    eexists (_, _), e'. split; [reflexivity|]. split; [reflexivity|].
    split; [exact Hsent|]. split; [exact Hget|].
    split; [exact Hi|exact Hj].
  - discriminate Hout.
Defined.

(** ** The image service wrapper *)

Lemma first_inline_spec (parts : list Gemini.part) :
  (Gemini.first_inline parts = None /\
   forall data, ~ In (Gemini.InlinePart data) parts) \/
  (exists before data after,
     parts = before ++ Gemini.InlinePart data :: after /\
     Forall (fun p => p = Gemini.TextPart) before /\
     Gemini.first_inline parts
     = Some ("data:image/png;base64," ++ data)%string).
Proof.
  induction parts as [|[|data] rest IH]; simpl.
  - left. split; [reflexivity|]. intros data [].
  - destruct IH as [[Hn Hall]|[before [data [after [Hp [Hb Hr]]]]]].
    + left. split; [exact Hn|]. intros data [Hd|Hd]; [discriminate|].
      apply (Hall data Hd).
    + right. exists (Gemini.TextPart :: before), data, after.
      split; [rewrite Hp; reflexivity|]. split; [|exact Hr].
      constructor; [reflexivity|exact Hb].
  - right. exists [], data, rest. repeat split. constructor.
Qed.

(** X23.  [generateDailyImage] returns [null] when the service throws,
    answers without parts or answers parts of which none has inline data.
    Otherwise it returns the data URL of the first part with inline data;
    that string is never empty, so the client's test of the result lets
    every returned image through. *)
Theorem generate_daily_image_returns_null_or_a_data_url
  (generateContent : string -> Gemini.generated)
  (summary : string) (mood : option text) (tasks : list text) :
  let result :=
    Gemini.generateDailyImage generateContent summary mood tasks in
  let answer := generateContent (Gemini.prompt summary mood tasks) in
  (answer = Gemini.Threw -> result = None) /\
  (answer = Gemini.Answered None -> result = None) /\
  (forall parts, answer = Gemini.Answered (Some parts) ->
     (forall data, ~ In (Gemini.InlinePart data) parts) -> result = None) /\
  (forall parts before data after,
     answer = Gemini.Answered (Some parts) ->
     parts = before ++ Gemini.InlinePart data :: after ->
     Forall (fun p => p = Gemini.TextPart) before ->
     result = Some ("data:image/png;base64," ++ data)%string) /\
  (result = None \/ Client.truthy_text (Some result) = true).
Proof.
  intros result answer. unfold result, Gemini.generateDailyImage.
  fold answer. split; [intros ->; reflexivity|].
  split; [intros ->; reflexivity|]. split; [|split].
  - intros parts -> Hnone.
    destruct (first_inline_spec parts)
      as [[Hn _]|[before [data [after [Hp _]]]]]; [exact Hn|].
    exfalso. apply (Hnone data). rewrite Hp. apply in_or_app.
    right. left. reflexivity.
  - intros parts before data after -> -> Hb.
    induction before as [|p before IH]; [reflexivity|].
    inversion Hb as [|? ? Hp Hrest]; subst. simpl. apply IH. exact Hrest.
  - destruct answer as [|[parts|]]; [left; reflexivity| |left; reflexivity].
    destruct (first_inline_spec parts)
      as [[Hn _]|[before [data [after [_ [_ Hr]]]]]]; [left; exact Hn|].
    right. rewrite Hr. reflexivity.
Qed.

Lemma generate_daily_image_witness :
  (fun _ : string =>
     Gemini.Answered
       (Some [Gemini.TextPart; Gemini.InlinePart "AAAA"; Gemini.InlinePart "BBBB"]))
    (Gemini.prompt "hello" (Some (Some "Joyful"%string)) [Some "Stretch"%string])
  = Gemini.Answered
      (Some ([Gemini.TextPart]
             ++ Gemini.InlinePart "AAAA" :: [Gemini.InlinePart "BBBB"])) /\
  Gemini.generateDailyImage
    (fun _ : string =>
       Gemini.Answered
         (Some [Gemini.TextPart; Gemini.InlinePart "AAAA";
                Gemini.InlinePart "BBBB"]))
    "hello" (Some (Some "Joyful"%string)) [Some "Stretch"%string]
  = Some "data:image/png;base64,AAAA"%string.
Proof.
  split; [reflexivity|].
  destruct (generate_daily_image_returns_null_or_a_data_url
              (fun _ : string =>
                 Gemini.Answered
                   (Some [Gemini.TextPart; Gemini.InlinePart "AAAA";
                          Gemini.InlinePart "BBBB"]))
              "hello" (Some (Some "Joyful"%string)) [Some "Stretch"%string])
    as [_ [_ [_ [Hfirst _]]]].
  exact (Hfirst _ [Gemini.TextPart] "AAAA"%string [Gemini.InlinePart "BBBB"]
           eq_refl eq_refl (Forall_cons _ eq_refl (Forall_nil _))).
Defined.

Lemma charted_rows_witness :
  Forall (fun e => Spec.zero_padded (Entry.date e) = true)
    (entries three_days) /\
  exists rows : list Entry.t,
    Api.answer None GET_entries three_days = Ok200 (JsonEntries rows) /\
    map Entry.date (Client.charted rows)
    = [Some "2024-01-01"%string; Some "2024-01-02"%string;
       Some "2024-01-03"%string] /\
    StronglySorted (fun a b => Spec.not_older b a) (Client.charted rows).
Proof.
  assert (Hpadded : Forall (fun e => Spec.zero_padded (Entry.date e) = true)
                      (entries three_days)).
  { repeat constructor. }
  split; [exact Hpadded|].
  destruct (charted_rows_are_the_latest_seven_oldest_first three_days)
    as [rows [Hget [_ [_ [_ [_ [_ Hdays]]]]]]].
  exists rows. split; [exact Hget|].
  split; [|exact (proj1 (Hdays Hpadded))].
  vm_compute in Hget. injection Hget as <-. reflexivity.
Defined.
